(** * xen-netfront: the ring protocol engine of the guest-side network driver

    A shallow embedding of [drivers/net/xen-netfront.c]: the transmit
    descriptor freelist, transmit submission and completion collection,
    the receive buffer supply with its adaptive fill target, and the
    receive response parser.  C integers are [Z] with the wrap-around of
    their type written out; arrays are lists read with [!!] and written
    with [<[ _ := _ ]>]; [BUG()] and wild memory accesses are explicit
    outcomes of the functions that can reach them. *)

From Stdlib Require Import ZArith Lia Bool.
From stdpp Require Import base option list gmap.
Local Open Scope Z_scope.

(** ** Machine integers *)

Definition u8 (x : Z) : Z := x mod 2^8.
Definition u16 (x : Z) : Z := x mod 2^16.
Definition u32 (x : Z) : Z := x mod 2^32.

(** Conversion to [signed short] and to [int]. *)
Definition s16 (x : Z) : Z :=
  let y := x mod 2^16 in if y <? 2^15 then y else y - 2^16.
Definition s32 (x : Z) : Z :=
  let y := x mod 2^32 in if y <? 2^31 then y else y - 2^32.

(** A flag word has a bit set: [flags & bit]. *)
Definition has_flag (flags bit : Z) : bool := negb (Z.land flags bit =? 0).

(** ** Outcomes

    Kernel code either runs to completion or stops the machine: [BUG()]
    and [BUG_ON] halt it, and an access outside an array or through a
    value that is not a pointer is a wild access.  [Hang] is a loop that
    was given too few steps to finish. *)

Inductive oops := BUG | BadAccess | Hang.

Inductive kres (A : Type) : Type :=
  | Done (a : A)
  | Oops (o : oops).
Arguments Done {A} a.
Arguments Oops {A} o.

Definition kbind {A B} (f : A -> kres B) (m : kres A) : kres B :=
  match m with
  | Done a => f a
  | Oops o => Oops o
  end.

Global Instance kres_ret : MRet kres := fun _ a => Done a.
Global Instance kres_bind : MBind kres := fun _ _ f m => kbind f m.

Definition BUG_ON (c : bool) : kres unit := if c then Oops BUG else Done tt.

(** ** Constants of the build

    The page size, the kernel's direct-map base, the fragment limit of a
    socket buffer, the Ethernet sizes and the slot counts of the two rings
    come from headers outside this file; they are taken as parameters. *)

Class Config := {
  PAGE_SIZE : Z;
  PAGE_OFFSET : Z;
  MAX_SKB_FRAGS : Z;
  ETH_HLEN : Z;
  ETH_DATA_LEN : Z;
  NET_TX_RING_SIZE : Z;
  NET_RX_RING_SIZE : Z;
  NET_TX_RING_SIZE_SMALL : Z;
  NET_RX_RING_SIZE_SMALL : Z
}.

(** The usual 64-bit x86 build with single-page rings. *)
Definition x86_64 : Config := {|
  PAGE_SIZE := 4096;
  PAGE_OFFSET := 0xffff880000000000;
  MAX_SKB_FRAGS := 18;
  ETH_HLEN := 14;
  ETH_DATA_LEN := 1500;
  NET_TX_RING_SIZE := 256;
  NET_RX_RING_SIZE := 256;
  NET_TX_RING_SIZE_SMALL := 256;
  NET_RX_RING_SIZE_SMALL := 256
|}.

Definition RX_COPY_THRESHOLD : Z := 256.
Definition GRANT_INVALID_REF : Z := 0.
Definition RX_MIN_TARGET : Z := 8.
Definition RX_DFL_MIN_TARGET : Z := 64.

(** [min_t(int, a, b)] *)
Definition min_int (a b : Z) : Z := Z.min (s32 a) (s32 b).

Definition TX_MAX_TARGET `{Config} : Z := min_int NET_TX_RING_SIZE_SMALL 256.
Definition RX_MAX_TARGET `{Config} : Z := min_int NET_RX_RING_SIZE_SMALL 256.

(** ** The transmit slot table and its freelist *)

(** [struct tx_slot]: the union of the buffer pointer and the freelist
    link is one machine word, [tx_link]; [skb_entry_is_link] tells the two
    readings apart by comparing the word with [PAGE_OFFSET]. *)
Record tx_slot := mk_tx_slot {
  tx_link : Z;
  tx_gref : Z
}.

Definition tx_skb (s : tx_slot) : Z := tx_link s.

(** The parameter is an [unsigned short]: the argument is converted. *)
Definition skb_entry_set_link (slot : tx_slot) (id : Z) : tx_slot :=
  {| tx_link := u16 id; tx_gref := tx_gref slot |}.

Definition skb_entry_is_link `{Config} (slot : tx_slot) : bool :=
  tx_link slot <? PAGE_OFFSET.

(** Array access at an index held in an unsigned C integer. *)
Definition slot_at {A} (l : list A) (i : Z) : kres A :=
  if i <? 0 then Oops BadAccess else
  match l !! Z.to_nat i with
  | Some a => Done a
  | None => Oops BadAccess
  end.

Definition add_id_to_freelist (head : Z) (slots : list tx_slot) (id : Z)
  : kres (Z * list tx_slot) :=
  let id := u16 id in
  s ← slot_at slots id;
  Done (id, <[Z.to_nat id := skb_entry_set_link s head]> slots).

(** Returns the id and the new head. *)
Definition get_id_from_freelist (head : Z) (slots : list tx_slot)
  : kres (Z * Z) :=
  let id := head in
  s ← slot_at slots id;
  Done (u16 id, u32 (tx_link s)).

(** [add_id_to_freelist] followed by [get_id_from_freelist]. *)
Definition add_then_get (head : Z) (slots : list tx_slot) (id : Z)
  : kres (Z * Z * list tx_slot) :=
  '(head1, list1) ← add_id_to_freelist head slots id;
  '(id', head2) ← get_id_from_freelist head1 list1;
  Done (id', head2, list1).


(** ** Protocol and kernel constants

    The bit assignments of [xen/interface/io/netif.h] and the checksum
    states of [linux/skbuff.h]. *)

Definition XEN_NETTXF_csum_blank : Z := 1.
Definition XEN_NETTXF_data_validated : Z := 2.
Definition XEN_NETTXF_more_data : Z := 4.
Definition XEN_NETTXF_extra_info : Z := 8.

Definition XEN_NETRXF_data_validated : Z := 1.
Definition XEN_NETRXF_csum_blank : Z := 2.
Definition XEN_NETRXF_more_data : Z := 4.
Definition XEN_NETRXF_extra_info : Z := 8.

Definition XEN_NETIF_EXTRA_TYPE_GSO : Z := 1.
Definition XEN_NETIF_EXTRA_TYPE_MAX : Z := 2.
Definition XEN_NETIF_EXTRA_FLAG_MORE : Z := 1.
Definition XEN_NETIF_GSO_TYPE_TCPV4 : Z := 1.
Definition XEN_NETIF_RSP_NULL : Z := 1.

Definition CHECKSUM_NONE : Z := 0.
Definition CHECKSUM_UNNECESSARY : Z := 1.
Definition CHECKSUM_COMPLETE : Z := 2.
Definition CHECKSUM_PARTIAL : Z := 3.

Definition SKB_GSO_TCPV4 : Z := 1.
Definition SKB_GSO_DODGY : Z := 4.
Definition NETIF_F_SG : Z := 1.
Definition NETDEV_TX_OK : Z := 0.

Definition ENOENT : Z := 2.
Definition E2BIG : Z := 7.
Definition EINVAL : Z := 22.
Definition ENOSPC : Z := 28.
Definition EBADR : Z := 53.
Definition EPROTO : Z := 71.

(** ** Ring slots *)

Record xen_netif_tx_request := mk_tx_request {
  txreq_gref : Z;
  txreq_offset : Z;
  txreq_flags : Z;
  txreq_id : Z;
  txreq_size : Z
}.

Record xen_netif_tx_response := mk_tx_response {
  txrsp_id : Z;
  txrsp_status : Z
}.

Record xen_netif_rx_request := mk_rx_request {
  rxreq_id : Z;
  rxreq_gref : Z
}.

Record xen_netif_rx_response := mk_rx_response {
  rxrsp_id : Z;
  rxrsp_offset : Z;
  rxrsp_flags : Z;
  rxrsp_status : Z
}.

Record xen_netif_extra_info := mk_extra_info {
  extra_type : Z;
  extra_flags : Z;
  gso_size : Z;
  gso_type : Z;
  gso_pad : Z;
  gso_features : Z
}.

(** Modelled from the spec: the shared ring of section 4.1
    ([xen/interface/io/ring.h] is not among the sources).  A slot is a
    union that the driver reads as a request, as a response or, through a
    cast, as an extra-info record.  The layout that ties the three
    readings together is not fixed here: a slot carries the three
    readings, and a write through one of them leaves the other two
    alone.  The driver only ever reads back a slot through the reading it
    was last written by, by itself or by the backend. *)
Record ring_slot (Req Rsp : Type) := mk_ring_slot {
  slot_req : Req;
  slot_rsp : Rsp;
  slot_extra : xen_netif_extra_info
}.
Arguments mk_ring_slot {Req Rsp}.
Arguments slot_req {Req Rsp}.
Arguments slot_rsp {Req Rsp}.
Arguments slot_extra {Req Rsp}.

(** The front half of a ring with its shared page: the private indices,
    the number of slots, and the four counters and the slots the backend
    sees too. *)
Record front_ring (Req Rsp : Type) := mk_front_ring {
  req_prod_pvt : Z;
  rsp_cons : Z;
  nr_ents : Z;
  sring_req_prod : Z;
  sring_req_event : Z;
  sring_rsp_prod : Z;
  sring_rsp_event : Z;
  ring : list (ring_slot Req Rsp)
}.
Arguments mk_front_ring {Req Rsp}.
Arguments req_prod_pvt {Req Rsp}.
Arguments rsp_cons {Req Rsp}.
Arguments nr_ents {Req Rsp}.
Arguments sring_req_prod {Req Rsp}.
Arguments sring_req_event {Req Rsp}.
Arguments sring_rsp_prod {Req Rsp}.
Arguments sring_rsp_event {Req Rsp}.
Arguments ring {Req Rsp}.

Definition tx_front_ring := front_ring xen_netif_tx_request xen_netif_tx_response.
Definition rx_front_ring := front_ring xen_netif_rx_request xen_netif_rx_response.

(** ** Socket buffers *)

Record skb_frag_t := mk_frag {
  frag_page : Z;
  page_offset : Z;
  frag_size : Z
}.

(** The fields of [struct sk_buff] and of its shared info that the driver
    touches; [skb_addr] is the address of the buffer, the value a pointer
    to it holds, and [skb_pull_to] is the driver's control block. *)
Record sk_buff := mk_sk_buff {
  skb_addr : Z;
  skb_data : Z;
  skb_len : Z;
  skb_data_len : Z;
  skb_truesize : Z;
  skb_ip_summed : Z;
  skb_frags : list skb_frag_t;
  skb_gso_size : Z;
  skb_gso_type : Z;
  skb_gso_segs : Z;
  skb_pull_to : Z
}.

Definition nr_frags (skb : sk_buff) : Z := Z.of_nat (length (skb_frags skb)).
Definition skb_headlen (skb : sk_buff) : Z := skb_len skb - skb_data_len skb.
Definition skb_is_gso (skb : sk_buff) : bool := negb (skb_gso_size skb =? 0).

Record rx_slot := mk_rx_slot {
  rx_skb : option sk_buff;
  rx_gref : Z
}.

(** ** Grant table

    Modelled from the spec: the grant lifecycle of section 4.5
    ([xen/grant_table.h] is not among the sources).  A pool is the list
    of references reserved for one ring; the table maps every reference
    that currently permits access to the frame it exposes, and
    [gnt_in_use] is the bit the hypervisor holds while the backend has
    the frame mapped. *)
Record grant_entry := mk_grant_entry {
  gnt_frame : Z;
  gnt_readonly : bool;
  gnt_in_use : bool
}.

(** ** The device *)

Record netfront_stats := mk_netfront_stats {
  rx_packets : Z;
  tx_packets : Z;
  rx_bytes : Z;
  tx_bytes : Z
}.

Record net_device := mk_net_device {
  carrier_ok : bool;
  running : bool;
  queue_stopped : bool;
  features : Z;
  mtu : Z;
  tx_dropped : Z;
  rx_errors : Z
}.

(** [struct netfront_info], followed by the parts of the machine the
    driver acts on through kernel calls: the grant table, the
    notifications sent to the backend, and the packets handed up the
    stack.  The shared ring pages
    are part of this state: the backend's writes are steps of their own,
    between two operations of the driver. *)
Record netfront_info := mk_netfront_info {
  stats : netfront_stats;
  tx_skb_freelist : Z;
  tx : tx_front_ring;
  gref_tx_head : list Z;
  netdev : net_device;
  tx_slots : list tx_slot;
  napi_scheduled : bool;
  gref_rx_head : list Z;
  rx : rx_front_ring;
  rx_gso_checksum_fixup : Z;
  rx_min_target : Z;
  rx_target : Z;
  rx_max_target : Z;
  rx_batch : list sk_buff;
  rx_slots : list rx_slot;
  rx_refill_timer : bool;
  gnttab : gmap Z grant_entry;
  evtchn_kicks : Z;
  delivered : list sk_buff
}.

(** Field updates. *)

Definition set_req_prod_pvt {Req Rsp} (v : Z) (r : front_ring Req Rsp) : front_ring Req Rsp :=
  mk_front_ring v (rsp_cons r) (nr_ents r) (sring_req_prod r)
    (sring_req_event r) (sring_rsp_prod r) (sring_rsp_event r) (ring r).

Definition set_rsp_cons {Req Rsp} (v : Z) (r : front_ring Req Rsp) : front_ring Req Rsp :=
  mk_front_ring (req_prod_pvt r) v (nr_ents r) (sring_req_prod r)
    (sring_req_event r) (sring_rsp_prod r) (sring_rsp_event r) (ring r).

Definition set_sring_req_prod {Req Rsp} (v : Z) (r : front_ring Req Rsp) : front_ring Req Rsp :=
  mk_front_ring (req_prod_pvt r) (rsp_cons r) (nr_ents r) v
    (sring_req_event r) (sring_rsp_prod r) (sring_rsp_event r) (ring r).

Definition set_sring_rsp_event {Req Rsp} (v : Z) (r : front_ring Req Rsp) : front_ring Req Rsp :=
  mk_front_ring (req_prod_pvt r) (rsp_cons r) (nr_ents r)
    (sring_req_prod r) (sring_req_event r) (sring_rsp_prod r) v (ring r).

Definition set_ring {Req Rsp} (v : list (ring_slot Req Rsp)) (r : front_ring Req Rsp) : front_ring Req Rsp :=
  mk_front_ring (req_prod_pvt r) (rsp_cons r) (nr_ents r)
    (sring_req_prod r) (sring_req_event r) (sring_rsp_prod r)
    (sring_rsp_event r) v.

Definition set_queue_stopped (v : bool) (dev : net_device) : net_device :=
  mk_net_device (carrier_ok dev) (running dev) v (features dev) (mtu dev)
    (tx_dropped dev) (rx_errors dev).

Definition set_mtu (v : Z) (dev : net_device) : net_device :=
  mk_net_device (carrier_ok dev) (running dev) (queue_stopped dev) (features
    dev) v (tx_dropped dev) (rx_errors dev).

Definition set_tx_dropped (v : Z) (dev : net_device) : net_device :=
  mk_net_device (carrier_ok dev) (running dev) (queue_stopped dev) (features
    dev) (mtu dev) v (rx_errors dev).

Definition set_rx_errors (v : Z) (dev : net_device) : net_device :=
  mk_net_device (carrier_ok dev) (running dev) (queue_stopped dev) (features
    dev) (mtu dev) (tx_dropped dev) v.

Definition set_skb_len (v : Z) (skb : sk_buff) : sk_buff :=
  mk_sk_buff (skb_addr skb) (skb_data skb) v (skb_data_len skb)
    (skb_truesize skb) (skb_ip_summed skb) (skb_frags skb) (skb_gso_size
    skb) (skb_gso_type skb) (skb_gso_segs skb) (skb_pull_to skb).

Definition set_skb_data_len (v : Z) (skb : sk_buff) : sk_buff :=
  mk_sk_buff (skb_addr skb) (skb_data skb) (skb_len skb) v (skb_truesize
    skb) (skb_ip_summed skb) (skb_frags skb) (skb_gso_size skb)
    (skb_gso_type skb) (skb_gso_segs skb) (skb_pull_to skb).

Definition set_skb_truesize (v : Z) (skb : sk_buff) : sk_buff :=
  mk_sk_buff (skb_addr skb) (skb_data skb) (skb_len skb) (skb_data_len skb)
    v (skb_ip_summed skb) (skb_frags skb) (skb_gso_size skb) (skb_gso_type
    skb) (skb_gso_segs skb) (skb_pull_to skb).

Definition set_skb_ip_summed (v : Z) (skb : sk_buff) : sk_buff :=
  mk_sk_buff (skb_addr skb) (skb_data skb) (skb_len skb) (skb_data_len skb)
    (skb_truesize skb) v (skb_frags skb) (skb_gso_size skb) (skb_gso_type
    skb) (skb_gso_segs skb) (skb_pull_to skb).

Definition set_skb_frags (v : list skb_frag_t) (skb : sk_buff) : sk_buff :=
  mk_sk_buff (skb_addr skb) (skb_data skb) (skb_len skb) (skb_data_len skb)
    (skb_truesize skb) (skb_ip_summed skb) v (skb_gso_size skb)
    (skb_gso_type skb) (skb_gso_segs skb) (skb_pull_to skb).

Definition set_skb_gso_size (v : Z) (skb : sk_buff) : sk_buff :=
  mk_sk_buff (skb_addr skb) (skb_data skb) (skb_len skb) (skb_data_len skb)
    (skb_truesize skb) (skb_ip_summed skb) (skb_frags skb) v (skb_gso_type
    skb) (skb_gso_segs skb) (skb_pull_to skb).

Definition set_skb_gso_type (v : Z) (skb : sk_buff) : sk_buff :=
  mk_sk_buff (skb_addr skb) (skb_data skb) (skb_len skb) (skb_data_len skb)
    (skb_truesize skb) (skb_ip_summed skb) (skb_frags skb) (skb_gso_size
    skb) v (skb_gso_segs skb) (skb_pull_to skb).

Definition set_skb_gso_segs (v : Z) (skb : sk_buff) : sk_buff :=
  mk_sk_buff (skb_addr skb) (skb_data skb) (skb_len skb) (skb_data_len skb)
    (skb_truesize skb) (skb_ip_summed skb) (skb_frags skb) (skb_gso_size
    skb) (skb_gso_type skb) v (skb_pull_to skb).

Definition set_skb_pull_to (v : Z) (skb : sk_buff) : sk_buff :=
  mk_sk_buff (skb_addr skb) (skb_data skb) (skb_len skb) (skb_data_len skb)
    (skb_truesize skb) (skb_ip_summed skb) (skb_frags skb) (skb_gso_size
    skb) (skb_gso_type skb) (skb_gso_segs skb) v.

Definition set_stats (v : netfront_stats) (np : netfront_info) : netfront_info :=
  mk_netfront_info v (tx_skb_freelist np) (tx np) (gref_tx_head np) (netdev
    np) (tx_slots np) (napi_scheduled np) (gref_rx_head np) (rx np)
    (rx_gso_checksum_fixup np) (rx_min_target np) (rx_target np)
    (rx_max_target np) (rx_batch np) (rx_slots np) (rx_refill_timer np)
    (gnttab np) (evtchn_kicks np) (delivered np).

Definition set_tx_skb_freelist (v : Z) (np : netfront_info) : netfront_info :=
  mk_netfront_info (stats np) v (tx np) (gref_tx_head np) (netdev np)
    (tx_slots np) (napi_scheduled np) (gref_rx_head np) (rx np)
    (rx_gso_checksum_fixup np) (rx_min_target np) (rx_target np)
    (rx_max_target np) (rx_batch np) (rx_slots np) (rx_refill_timer np)
    (gnttab np) (evtchn_kicks np) (delivered np).

Definition set_tx (v : tx_front_ring) (np : netfront_info) : netfront_info :=
  mk_netfront_info (stats np) (tx_skb_freelist np) v (gref_tx_head np)
    (netdev np) (tx_slots np) (napi_scheduled np) (gref_rx_head np) (rx np)
    (rx_gso_checksum_fixup np) (rx_min_target np) (rx_target np)
    (rx_max_target np) (rx_batch np) (rx_slots np) (rx_refill_timer np)
    (gnttab np) (evtchn_kicks np) (delivered np).

Definition set_gref_tx_head (v : list Z) (np : netfront_info) : netfront_info :=
  mk_netfront_info (stats np) (tx_skb_freelist np) (tx np) v (netdev np)
    (tx_slots np) (napi_scheduled np) (gref_rx_head np) (rx np)
    (rx_gso_checksum_fixup np) (rx_min_target np) (rx_target np)
    (rx_max_target np) (rx_batch np) (rx_slots np) (rx_refill_timer np)
    (gnttab np) (evtchn_kicks np) (delivered np).

Definition set_netdev (v : net_device) (np : netfront_info) : netfront_info :=
  mk_netfront_info (stats np) (tx_skb_freelist np) (tx np) (gref_tx_head np)
    v (tx_slots np) (napi_scheduled np) (gref_rx_head np) (rx np)
    (rx_gso_checksum_fixup np) (rx_min_target np) (rx_target np)
    (rx_max_target np) (rx_batch np) (rx_slots np) (rx_refill_timer np)
    (gnttab np) (evtchn_kicks np) (delivered np).

Definition set_tx_slots (v : list tx_slot) (np : netfront_info) : netfront_info :=
  mk_netfront_info (stats np) (tx_skb_freelist np) (tx np) (gref_tx_head np)
    (netdev np) v (napi_scheduled np) (gref_rx_head np) (rx np)
    (rx_gso_checksum_fixup np) (rx_min_target np) (rx_target np)
    (rx_max_target np) (rx_batch np) (rx_slots np) (rx_refill_timer np)
    (gnttab np) (evtchn_kicks np) (delivered np).

Definition set_napi_scheduled (v : bool) (np : netfront_info) : netfront_info :=
  mk_netfront_info (stats np) (tx_skb_freelist np) (tx np) (gref_tx_head np)
    (netdev np) (tx_slots np) v (gref_rx_head np) (rx np)
    (rx_gso_checksum_fixup np) (rx_min_target np) (rx_target np)
    (rx_max_target np) (rx_batch np) (rx_slots np) (rx_refill_timer np)
    (gnttab np) (evtchn_kicks np) (delivered np).

Definition set_gref_rx_head (v : list Z) (np : netfront_info) : netfront_info :=
  mk_netfront_info (stats np) (tx_skb_freelist np) (tx np) (gref_tx_head np)
    (netdev np) (tx_slots np) (napi_scheduled np) v (rx np)
    (rx_gso_checksum_fixup np) (rx_min_target np) (rx_target np)
    (rx_max_target np) (rx_batch np) (rx_slots np) (rx_refill_timer np)
    (gnttab np) (evtchn_kicks np) (delivered np).

Definition set_rx (v : rx_front_ring) (np : netfront_info) : netfront_info :=
  mk_netfront_info (stats np) (tx_skb_freelist np) (tx np) (gref_tx_head np)
    (netdev np) (tx_slots np) (napi_scheduled np) (gref_rx_head np) v
    (rx_gso_checksum_fixup np) (rx_min_target np) (rx_target np)
    (rx_max_target np) (rx_batch np) (rx_slots np) (rx_refill_timer np)
    (gnttab np) (evtchn_kicks np) (delivered np).

Definition set_rx_gso_checksum_fixup (v : Z) (np : netfront_info) : netfront_info :=
  mk_netfront_info (stats np) (tx_skb_freelist np) (tx np) (gref_tx_head np)
    (netdev np) (tx_slots np) (napi_scheduled np) (gref_rx_head np) (rx np)
    v (rx_min_target np) (rx_target np) (rx_max_target np) (rx_batch np)
    (rx_slots np) (rx_refill_timer np) (gnttab np) (evtchn_kicks np)
    (delivered np).

Definition set_rx_min_target (v : Z) (np : netfront_info) : netfront_info :=
  mk_netfront_info (stats np) (tx_skb_freelist np) (tx np) (gref_tx_head np)
    (netdev np) (tx_slots np) (napi_scheduled np) (gref_rx_head np) (rx np)
    (rx_gso_checksum_fixup np) v (rx_target np) (rx_max_target np) (rx_batch
    np) (rx_slots np) (rx_refill_timer np) (gnttab np) (evtchn_kicks np)
    (delivered np).

Definition set_rx_target (v : Z) (np : netfront_info) : netfront_info :=
  mk_netfront_info (stats np) (tx_skb_freelist np) (tx np) (gref_tx_head np)
    (netdev np) (tx_slots np) (napi_scheduled np) (gref_rx_head np) (rx np)
    (rx_gso_checksum_fixup np) (rx_min_target np) v (rx_max_target np)
    (rx_batch np) (rx_slots np) (rx_refill_timer np) (gnttab np)
    (evtchn_kicks np) (delivered np).

Definition set_rx_max_target (v : Z) (np : netfront_info) : netfront_info :=
  mk_netfront_info (stats np) (tx_skb_freelist np) (tx np) (gref_tx_head np)
    (netdev np) (tx_slots np) (napi_scheduled np) (gref_rx_head np) (rx np)
    (rx_gso_checksum_fixup np) (rx_min_target np) (rx_target np) v (rx_batch
    np) (rx_slots np) (rx_refill_timer np) (gnttab np) (evtchn_kicks np)
    (delivered np).

Definition set_rx_batch (v : list sk_buff) (np : netfront_info) : netfront_info :=
  mk_netfront_info (stats np) (tx_skb_freelist np) (tx np) (gref_tx_head np)
    (netdev np) (tx_slots np) (napi_scheduled np) (gref_rx_head np) (rx np)
    (rx_gso_checksum_fixup np) (rx_min_target np) (rx_target np)
    (rx_max_target np) v (rx_slots np) (rx_refill_timer np) (gnttab np)
    (evtchn_kicks np) (delivered np).

Definition set_rx_slots (v : list rx_slot) (np : netfront_info) : netfront_info :=
  mk_netfront_info (stats np) (tx_skb_freelist np) (tx np) (gref_tx_head np)
    (netdev np) (tx_slots np) (napi_scheduled np) (gref_rx_head np) (rx np)
    (rx_gso_checksum_fixup np) (rx_min_target np) (rx_target np)
    (rx_max_target np) (rx_batch np) v (rx_refill_timer np) (gnttab np)
    (evtchn_kicks np) (delivered np).

Definition set_rx_refill_timer (v : bool) (np : netfront_info) : netfront_info :=
  mk_netfront_info (stats np) (tx_skb_freelist np) (tx np) (gref_tx_head np)
    (netdev np) (tx_slots np) (napi_scheduled np) (gref_rx_head np) (rx np)
    (rx_gso_checksum_fixup np) (rx_min_target np) (rx_target np)
    (rx_max_target np) (rx_batch np) (rx_slots np) v (gnttab np)
    (evtchn_kicks np) (delivered np).

Definition set_gnttab (v : gmap Z grant_entry) (np : netfront_info) : netfront_info :=
  mk_netfront_info (stats np) (tx_skb_freelist np) (tx np) (gref_tx_head np)
    (netdev np) (tx_slots np) (napi_scheduled np) (gref_rx_head np) (rx np)
    (rx_gso_checksum_fixup np) (rx_min_target np) (rx_target np)
    (rx_max_target np) (rx_batch np) (rx_slots np) (rx_refill_timer np) v
    (evtchn_kicks np) (delivered np).

Definition set_evtchn_kicks (v : Z) (np : netfront_info) : netfront_info :=
  mk_netfront_info (stats np) (tx_skb_freelist np) (tx np) (gref_tx_head np)
    (netdev np) (tx_slots np) (napi_scheduled np) (gref_rx_head np) (rx np)
    (rx_gso_checksum_fixup np) (rx_min_target np) (rx_target np)
    (rx_max_target np) (rx_batch np) (rx_slots np) (rx_refill_timer np)
    (gnttab np) v (delivered np).

Definition set_delivered (v : list sk_buff) (np : netfront_info) : netfront_info :=
  mk_netfront_info (stats np) (tx_skb_freelist np) (tx np) (gref_tx_head np)
    (netdev np) (tx_slots np) (napi_scheduled np) (gref_rx_head np) (rx np)
    (rx_gso_checksum_fixup np) (rx_min_target np) (rx_target np)
    (rx_max_target np) (rx_batch np) (rx_slots np) (rx_refill_timer np)
    (gnttab np) (evtchn_kicks np) v.

(** ** Kernel services

    What the driver needs from the rest of the kernel and cannot see
    into: whether the stack must segment the packet in software,
    [netif_needs_gso(skb, netif_skb_features(skb))]; the machine frame
    behind a virtual address or a page; [__pskb_pull_tail]; and the walk
    over the IP header that ends [checksum_setup], which yields 0 or
    [-EPROTO]. *)
Class Kernel := {
  netif_needs_gso : sk_buff -> net_device -> bool;
  virt_to_mfn : Z -> Z;
  page_to_mfn : Z -> Z;
  pskb_pull_tail : sk_buff -> Z -> sk_buff;
  checksum_headers : sk_buff -> Z
}.

(** *** Grant table operations *)

Definition gnttab_claim_grant_reference (pool : list Z) : Z * list Z :=
  match pool with
  | [] => (- ENOSPC, [])
  | g :: rest => (g, rest)
  end.

Definition gnttab_release_grant_reference (pool : list Z) (ref : Z) : list Z :=
  ref :: pool.

Definition gnttab_grant_foreign_access_ref (ref frame : Z) (readonly : bool)
    (gt : gmap Z grant_entry) : gmap Z grant_entry :=
  <[ref := mk_grant_entry frame readonly false]> gt.

Definition gnttab_query_foreign_access (ref : Z) (gt : gmap Z grant_entry) : bool :=
  match gt !! ref with
  | Some e => gnt_in_use e
  | None => false
  end.

(** Returns whether access was ended, and the table. *)
Definition gnttab_end_foreign_access_ref (ref : Z) (gt : gmap Z grant_entry)
  : bool * gmap Z grant_entry :=
  if gnttab_query_foreign_access ref gt then (false, gt)
  else (true, delete ref gt).

(** *** Ring macros *)

Definition ring_pos {Req Rsp} (r : front_ring Req Rsp) (idx : Z) : Z :=
  Z.land idx (nr_ents r - 1).

Definition RING_GET {Req Rsp} (r : front_ring Req Rsp) (idx : Z)
  : kres (ring_slot Req Rsp) :=
  slot_at (ring r) (ring_pos r idx).

Definition RING_PUT {Req Rsp} (r : front_ring Req Rsp) (idx : Z)
    (s : ring_slot Req Rsp) : kres (front_ring Req Rsp) :=
  _ ← RING_GET r idx;
  Done (set_ring (<[Z.to_nat (ring_pos r idx) := s]> (ring r)) r).

(** Writes through one reading of a slot. *)
Definition RING_PUT_REQUEST {Req Rsp} (r : front_ring Req Rsp) (idx : Z)
    (q : Req) : kres (front_ring Req Rsp) :=
  s ← RING_GET r idx;
  RING_PUT r idx (mk_ring_slot q (slot_rsp s) (slot_extra s)).

Definition RING_PUT_EXTRA {Req Rsp} (r : front_ring Req Rsp) (idx : Z)
    (e : xen_netif_extra_info) : kres (front_ring Req Rsp) :=
  s ← RING_GET r idx;
  RING_PUT r idx (mk_ring_slot (slot_req s) (slot_rsp s) e).

Definition RING_GET_REQUEST {Req Rsp} (r : front_ring Req Rsp) (idx : Z)
  : kres Req :=
  s ← RING_GET r idx; Done (slot_req s).

Definition RING_GET_RESPONSE {Req Rsp} (r : front_ring Req Rsp) (idx : Z)
  : kres Rsp :=
  s ← RING_GET r idx; Done (slot_rsp s).

(** Returns the ring with the shared producer moved up, and whether the
    backend asked to be notified. *)
Definition RING_PUSH_REQUESTS_AND_CHECK_NOTIFY {Req Rsp}
    (r : front_ring Req Rsp) : front_ring Req Rsp * bool :=
  let old := sring_req_prod r in
  let new := req_prod_pvt r in
  (set_sring_req_prod new r,
   u32 (new - sring_req_event r) <? u32 (new - old)).

Definition RING_HAS_UNCONSUMED_RESPONSES {Req Rsp} (r : front_ring Req Rsp)
  : bool :=
  negb (u32 (sring_rsp_prod r - rsp_cons r) =? 0).

Definition RING_FINAL_CHECK_FOR_RESPONSES {Req Rsp} (r : front_ring Req Rsp)
  : front_ring Req Rsp * bool :=
  if RING_HAS_UNCONSUMED_RESPONSES r then (r, true)
  else
    let r' := set_sring_rsp_event (u32 (rsp_cons r + 1)) r in
    (r', RING_HAS_UNCONSUMED_RESPONSES r').

Definition notify_remote_via_irq (np : netfront_info) : netfront_info :=
  set_evtchn_kicks (evtchn_kicks np + 1) np.

Definition DIV_ROUND_UP (n d : Z) : Z := (n + d - 1) / d.

Section Driver.
Context `{Config} `{Kernel}.

Definition offset_in_page (p : Z) : Z := Z.land p (PAGE_SIZE - 1).

Definition xennet_can_sg (dev : net_device) : bool :=
  has_flag (features dev) NETIF_F_SG.

(** ** Transmit *)

(** The right-hand side is an unsigned long in C; it is positive in every
    build. *)
Definition netfront_tx_slot_available (np : netfront_info) : bool :=
  u32 (req_prod_pvt (tx np) - rsp_cons (tx np))
    <? TX_MAX_TARGET - MAX_SKB_FRAGS - 2.

Definition xennet_maybe_wake_tx (np : netfront_info) : netfront_info :=
  if queue_stopped (netdev np) && netfront_tx_slot_available np
     && running (netdev np)
  then set_netdev (set_queue_stopped false (netdev np)) np
  else np.

(** [dev_kfree_skb_irq(skb)] drops one reference to the buffer; the
    reference counts live in the buffers, outside this state.  A word
    below [PAGE_OFFSET] is a freelist link, not a buffer: following it is
    a wild access. *)
Definition dev_kfree_skb_irq (skb : Z) (np : netfront_info) : kres netfront_info :=
  if skb <? PAGE_OFFSET then Oops BadAccess else Done np.

(** One turn of the [for] loop of [xennet_tx_buf_gc], at index [cons]. *)
Definition tx_buf_gc_one (cons : Z) (np : netfront_info) : kres netfront_info :=
  txrsp ← RING_GET_RESPONSE (tx np) cons;
  if txrsp_status txrsp =? XEN_NETIF_RSP_NULL then Done np
  else
    let id := txrsp_id txrsp in
    s ← slot_at (tx_slots np) id;
    let skb := tx_skb s in
    _ ← BUG_ON (gnttab_query_foreign_access (tx_gref s) (gnttab np));
    let gt := snd (gnttab_end_foreign_access_ref (tx_gref s) (gnttab np)) in
    let pool := gnttab_release_grant_reference (gref_tx_head np) (tx_gref s) in
    let slots := <[Z.to_nat id := mk_tx_slot (tx_link s) GRANT_INVALID_REF]> (tx_slots np) in
    '(head, slots) ← add_id_to_freelist (tx_skb_freelist np) slots id;
    dev_kfree_skb_irq skb
      (set_tx_slots slots (set_tx_skb_freelist head
        (set_gref_tx_head pool (set_gnttab gt np)))).

(** [for (cons = np->tx.rsp_cons; cons != prod; cons++)], with the number
    of turns left. *)
Fixpoint tx_buf_gc_scan (n : nat) (cons : Z) (np : netfront_info)
  : kres netfront_info :=
  match n with
  | O => Done np
  | S n' =>
      np' ← tx_buf_gc_one cons np;
      tx_buf_gc_scan n' (u32 (cons + 1)) np'
  end.

(** The body of the [do ... while] loop: returns the state and whether
    the loop goes round again. *)
Definition tx_buf_gc_pass (np : netfront_info) : kres (netfront_info * bool) :=
  let prod := sring_rsp_prod (tx np) in
  np ← tx_buf_gc_scan (Z.to_nat (u32 (prod - rsp_cons (tx np)))) (rsp_cons (tx np)) np;
  let cons := prod in
  let r := set_rsp_cons prod (tx np) in
  let r := set_sring_rsp_event
             (u32 (prod + Z.shiftr (u32 (sring_req_prod r - prod)) 1 + 1)) r in
  let np := set_tx r np in
  Done (np, (cons =? prod) && negb (prod =? sring_rsp_prod (tx np))).

Fixpoint tx_buf_gc_loop (fuel : nat) (np : netfront_info) : kres netfront_info :=
  match fuel with
  | O => Oops Hang
  | S fuel' =>
      '(np, again) ← tx_buf_gc_pass np;
      if again : bool then tx_buf_gc_loop fuel' np else Done np
  end.

Definition xennet_tx_buf_gc (np : netfront_info) : kres netfront_info :=
  _ ← BUG_ON (negb (carrier_ok (netdev np)));
  np ← tx_buf_gc_loop 1 np;
  Done (xennet_maybe_wake_tx np).

(** Writes through the pointer [tx] into the ring: [tx] is the index of
    the request it points at. *)
Definition tx_modify (f : xen_netif_tx_request -> xen_netif_tx_request)
    (txi : Z) (np : netfront_info) : kres netfront_info :=
  q ← RING_GET_REQUEST (tx np) txi;
  r ← RING_PUT_REQUEST (tx np) txi (f q);
  Done (set_tx r np).

Definition or_flags (bits : Z) (q : xen_netif_tx_request) : xen_netif_tx_request :=
  mk_tx_request (txreq_gref q) (txreq_offset q) (Z.lor (txreq_flags q) bits)
    (txreq_id q) (txreq_size q).

Definition with_size (size : Z) (q : xen_netif_tx_request) : xen_netif_tx_request :=
  mk_tx_request (txreq_gref q) (txreq_offset q) (txreq_flags q)
    (txreq_id q) (u16 size).

(** [np->tx_slots[id].skb = skb]: the slot keeps its grant field. *)
Definition tx_slot_set_skb (id skb : Z) (np : netfront_info) : kres netfront_info :=
  s ← slot_at (tx_slots np) id;
  Done (set_tx_slots (<[Z.to_nat id := mk_tx_slot skb (tx_gref s)]> (tx_slots np)) np).

Definition tx_slot_set_gref (id ref : Z) (np : netfront_info) : kres netfront_info :=
  s ← slot_at (tx_slots np) id;
  Done (set_tx_slots (<[Z.to_nat id := mk_tx_slot (tx_link s) ref]> (tx_slots np)) np).

(** The body both loops of [xennet_make_frags] share: take an id, hold
    the buffer in its slot, claim a grant for the frame and fill the
    request at [prod].  [skb_get] takes one more reference to the buffer
    and returns it. *)
Definition make_frag_request (skb : sk_buff) (mfn offset size prod : Z)
    (np : netfront_info) : kres netfront_info :=
  '(id, head) ← get_id_from_freelist (tx_skb_freelist np) (tx_slots np);
  np ← tx_slot_set_skb id (skb_addr skb) (set_tx_skb_freelist head np);
  let '(ref, pool) := gnttab_claim_grant_reference (gref_tx_head np) in
  let ref := u32 ref in
  _ ← BUG_ON (s16 ref <? 0);
  let gt := gnttab_grant_foreign_access_ref ref mfn true (gnttab np) in
  np ← tx_slot_set_gref id ref (set_gnttab gt (set_gref_tx_head pool np));
  r ← RING_PUT_REQUEST (tx np) prod (mk_tx_request ref (u16 offset) 0 id (u16 size));
  Done (set_tx r np).

(** [while (len > PAGE_SIZE - offset)]: returns the state, the index
    [tx] points at and [prod]. *)
Fixpoint make_frags_head (n : nat) (skb : sk_buff) (txi prod data offset len : Z)
    (np : netfront_info) : kres (netfront_info * Z * Z) :=
  if len >? PAGE_SIZE - offset then
    match n with
    | O => Oops Hang
    | S n' =>
        let size := u16 (PAGE_SIZE - offset) in
        np ← tx_modify (fun q => or_flags XEN_NETTXF_more_data (with_size size q)) txi np;
        let len := u32 (len - size) in
        let data := data + size in
        let offset := 0 in
        np ← make_frag_request skb (virt_to_mfn data) offset len prod np;
        make_frags_head n' skb prod (u32 (prod + 1)) data offset len np
    end
  else Done (np, txi, prod).

(** The number of turns the [while] loop of [xennet_make_frags] takes: one
    for every page boundary the head crosses. *)
Fixpoint head_splits (n : nat) (offset len : Z) : Z :=
  if len >? PAGE_SIZE - offset then
    match n with
    | O => 0
    | S n' => 1 + head_splits n' 0 (u32 (len - u16 (PAGE_SIZE - offset)))
    end
  else 0.

(** [for (i = 0; i < frags; i++)] over the page fragments. *)
Fixpoint make_frags_pages (frags : list skb_frag_t) (skb : sk_buff) (txi prod : Z)
    (np : netfront_info) : kres (netfront_info * Z * Z) :=
  match frags with
  | [] => Done (np, txi, prod)
  | frag :: rest =>
      np ← tx_modify (or_flags XEN_NETTXF_more_data) txi np;
      np ← make_frag_request skb (page_to_mfn (frag_page frag))
             (page_offset frag) (frag_size frag) prod np;
      make_frags_pages rest skb prod (u32 (prod + 1)) np
  end.

Definition xennet_make_frags (skb : sk_buff) (txi : Z) (np : netfront_info)
  : kres netfront_info :=
  let data := skb_data skb in
  let prod := req_prod_pvt (tx np) in
  let offset := offset_in_page data in
  let len := skb_headlen skb in
  '(np, txi, prod) ← make_frags_head (Z.to_nat len) skb txi prod data offset len np;
  '(np, txi, prod) ← make_frags_pages (skb_frags skb) skb txi prod np;
  Done (set_tx (set_req_prod_pvt prod (tx np)) np).

(** The [drop] label. *)
Definition xmit_drop (np : netfront_info) : kres (netfront_info * Z) :=
  Done (set_netdev (set_tx_dropped (tx_dropped (netdev np) + 1) (netdev np)) np,
        NETDEV_TX_OK).

(** The fragment count [xennet_start_xmit] computes for a packet. *)
Definition xmit_frags (skb : sk_buff) : Z :=
  nr_frags skb
  + DIV_ROUND_UP (offset_in_page (skb_data skb) + skb_headlen skb) PAGE_SIZE.

(** The two tests that send a packet to [drop]. *)
Definition xmit_must_drop (skb : sk_buff) (np : netfront_info) : bool :=
  (xmit_frags skb >? MAX_SKB_FRAGS + 1)
  || (negb (carrier_ok (netdev np))
      || ((xmit_frags skb >? 1) && negb (xennet_can_sg (netdev np)))
      || netif_needs_gso skb (netdev np)).

Definition xmit_csum_flags (skb : sk_buff) : Z :=
  if skb_ip_summed skb =? CHECKSUM_PARTIAL
  then Z.lor XEN_NETTXF_csum_blank XEN_NETTXF_data_validated
  else if skb_ip_summed skb =? CHECKSUM_UNNECESSARY
  then XEN_NETTXF_data_validated
  else 0.

(** The requests are published, the backend is notified if it asked to
    be, and the packet is counted. *)
Definition xmit_publish (skb : sk_buff) (np : netfront_info) : netfront_info :=
  let '(r, notify) := RING_PUSH_REQUESTS_AND_CHECK_NOTIFY (tx np) in
  let np := set_tx r np in
  let np := if notify then notify_remote_via_irq np else np in
  set_stats (mk_netfront_stats (rx_packets (stats np))
               (tx_packets (stats np) + 1) (rx_bytes (stats np))
               (tx_bytes (stats np) + skb_len skb)) np.

(** [xennet_start_xmit] from the first request to the publication of the
    requests, before the completion collection that ends it. *)
Definition xmit_submit (skb : sk_buff) (np : netfront_info) : kres netfront_info :=
  let data := skb_data skb in
  let offset := offset_in_page data in
  let len := skb_headlen skb in
  let i := req_prod_pvt (tx np) in
  '(id, head) ← get_id_from_freelist (tx_skb_freelist np) (tx_slots np);
  np ← tx_slot_set_skb id (skb_addr skb) (set_tx_skb_freelist head np);
  let txi := i in
  let '(ref, pool) := gnttab_claim_grant_reference (gref_tx_head np) in
  let ref := u32 ref in
  _ ← BUG_ON (s16 ref <? 0);
  let gt := gnttab_grant_foreign_access_ref ref (virt_to_mfn data) true (gnttab np) in
  np ← tx_slot_set_gref id ref (set_gnttab gt (set_gref_tx_head pool np));
  let flags := Z.lor 0 (xmit_csum_flags skb) in
  r ← RING_PUT_REQUEST (tx np) txi (mk_tx_request ref (u16 offset) flags id (u16 len));
  let np := set_tx r np in
  '(np, i) ←
    (if negb (skb_gso_size skb =? 0) then
       let i := u32 (i + 1) in
       np ← tx_modify (or_flags XEN_NETTXF_extra_info) txi np;
       r ← RING_PUT_EXTRA (tx np) i
             (mk_extra_info XEN_NETIF_EXTRA_TYPE_GSO 0 (u16 (skb_gso_size skb))
                XEN_NETIF_GSO_TYPE_TCPV4 0 0);
       Done (set_tx r np, i)
     else Done (np, i));
  let np := set_tx (set_req_prod_pvt (u32 (i + 1)) (tx np)) np in
  np ← xennet_make_frags skb txi np;
  np ← tx_modify (with_size (skb_len skb)) txi np;
  Done (xmit_publish skb np).

(** Returns the state and the value handed back to the stack. *)
Definition xennet_start_xmit (skb : sk_buff) (np : netfront_info)
  : kres (netfront_info * Z) :=
  let frags := xmit_frags skb in
  if frags >? MAX_SKB_FRAGS + 1 then xmit_drop np
  else if negb (carrier_ok (netdev np))
          || ((frags >? 1) && negb (xennet_can_sg (netdev np)))
          || netif_needs_gso skb (netdev np)
  then xmit_drop np
  else
    np ← xmit_submit skb np;
    np ← xennet_tx_buf_gc np;
    let np := if negb (netfront_tx_slot_available np)
              then set_netdev (set_queue_stopped true (netdev np)) np
              else np in
    Done (np, NETDEV_TX_OK).

(** ** Receive: the response parser *)

Definition xennet_rxidx (idx : Z) : Z := Z.land idx (NET_RX_RING_SIZE - 1).

Definition xennet_get_rx_skb (ri : Z) (np : netfront_info)
  : kres (option sk_buff * netfront_info) :=
  let i := xennet_rxidx ri in
  s ← slot_at (rx_slots np) i;
  Done (rx_skb s,
        set_rx_slots (<[Z.to_nat i := mk_rx_slot None (rx_gref s)]> (rx_slots np)) np).

Definition xennet_get_rx_ref (ri : Z) (np : netfront_info)
  : kres (Z * netfront_info) :=
  let i := xennet_rxidx ri in
  s ← slot_at (rx_slots np) i;
  Done (rx_gref s,
        set_rx_slots (<[Z.to_nat i := mk_rx_slot (rx_skb s) GRANT_INVALID_REF]> (rx_slots np)) np).

Definition xennet_move_rx_slot (skb : option sk_buff) (ref : Z)
    (np : netfront_info) : kres netfront_info :=
  let new := xennet_rxidx (req_prod_pvt (rx np)) in
  s ← slot_at (rx_slots np) new;
  _ ← BUG_ON (bool_decide (is_Some (rx_skb s)));
  let np := set_rx_slots (<[Z.to_nat new := mk_rx_slot skb ref]> (rx_slots np)) np in
  r ← RING_PUT_REQUEST (rx np) (req_prod_pvt (rx np)) (mk_rx_request new ref);
  Done (set_rx (set_req_prod_pvt (u32 (req_prod_pvt r + 1)) r) np).

Definition no_extra : xen_netif_extra_info := mk_extra_info 0 0 0 0 0 0.

(** The [do ... while] loop of [xennet_get_extras]; [n] bounds the turns
    left.  The slot is read as an extra-info record once: the request
    written by [xennet_move_rx_slot] goes through another reading. *)
Fixpoint get_extras_loop (n : nat) (rp cons : Z)
    (extras : list xen_netif_extra_info) (err : Z) (np : netfront_info)
  : kres (netfront_info * list xen_netif_extra_info * Z * Z) :=
  if u32 (cons + 1) =? rp then Done (np, extras, - EBADR, cons)
  else
    match n with
    | O => Oops Hang
    | S n' =>
        let cons := u32 (cons + 1) in
        s ← RING_GET (rx np) cons;
        let extra := slot_extra s in
        let '(extras, err) :=
          if (extra_type extra =? 0) || (extra_type extra >=? XEN_NETIF_EXTRA_TYPE_MAX)
          then (extras, - EINVAL)
          else (<[Z.to_nat (extra_type extra - 1) := extra]> extras, err) in
        '(skb, np) ← xennet_get_rx_skb cons np;
        '(ref, np) ← xennet_get_rx_ref cons np;
        np ← xennet_move_rx_slot skb ref np;
        if has_flag (extra_flags extra) XEN_NETIF_EXTRA_FLAG_MORE
        then get_extras_loop n' rp cons extras err np
        else Done (np, extras, err, cons)
    end.

Definition xennet_get_extras (extras : list xen_netif_extra_info) (rp : Z)
    (np : netfront_info)
  : kres (netfront_info * list xen_netif_extra_info * Z) :=
  let cons := rsp_cons (rx np) in
  '(np, extras, err, cons) ←
     get_extras_loop (Z.to_nat (u32 (rp - cons - 1))) rp cons extras 0 np;
  Done (set_rx (set_rsp_cons cons (rx np)) np, extras, err).

(** The checks [xennet_get_responses] makes on one response, down to the
    [next] label: the state, the list and the error so far. *)
Definition get_responses_check (rsp : xen_netif_rx_response)
    (skb : option sk_buff) (ref : Z) (q : list sk_buff) (err : Z)
    (np : netfront_info) : kres (netfront_info * list sk_buff * Z) :=
  if (rxrsp_status rsp <? 0) || (rxrsp_offset rsp + rxrsp_status rsp >? PAGE_SIZE)
  then
    np ← xennet_move_rx_slot skb ref np;
    Done (np, q, - EINVAL)
  else if ref =? GRANT_INVALID_REF then Done (np, q, - EINVAL)
  else
    let '(ret, gt) := gnttab_end_foreign_access_ref ref (gnttab np) in
    _ ← BUG_ON (negb ret);
    let pool := gnttab_release_grant_reference (gref_rx_head np) ref in
    match skb with
    | None => Oops BadAccess
    | Some b => Done (set_gref_rx_head pool (set_gnttab gt np), q ++ [b], err)
    end.

(** The [for (;;)] loop: returns the state, the list, the error and the
    fragment count. *)
Fixpoint get_responses_loop (n : nat) (rp cons : Z) (rsp : xen_netif_rx_response)
    (skb : option sk_buff) (ref : Z) (frags : Z) (q : list sk_buff)
    (err : Z) (np : netfront_info)
  : kres (netfront_info * list sk_buff * Z * Z) :=
  '(np, q, err) ← get_responses_check rsp skb ref q err np;
  if negb (has_flag (rxrsp_flags rsp) XEN_NETRXF_more_data)
  then Done (np, q, err, frags)
  else if u32 (cons + frags) =? rp then Done (np, q, - ENOENT, frags)
  else
    match n with
    | O => Oops Hang
    | S n' =>
        rsp ← RING_GET_RESPONSE (rx np) (u32 (cons + frags));
        '(skb, np) ← xennet_get_rx_skb (u32 (cons + frags)) np;
        '(ref, np) ← xennet_get_rx_ref (u32 (cons + frags)) np;
        get_responses_loop n' rp cons rsp skb ref (frags + 1) q err np
    end.

(** The fragment limit of a chain, from the status of its head. *)
Definition rx_max_frags (rsp : xen_netif_rx_response) : Z :=
  MAX_SKB_FRAGS + (if rxrsp_status rsp <=? RX_COPY_THRESHOLD then 1 else 0).

(** [rinfo] is the head response and the extras; returns the state, the
    extras, the list and the error. *)
Definition xennet_get_responses (rsp : xen_netif_rx_response)
    (extras : list xen_netif_extra_info) (rp : Z) (q : list sk_buff)
    (np : netfront_info)
  : kres (netfront_info * list xen_netif_extra_info * list sk_buff * Z) :=
  let cons := rsp_cons (rx np) in
  '(skb, np) ← xennet_get_rx_skb cons np;
  '(ref, np) ← xennet_get_rx_ref cons np;
  let max := rx_max_frags rsp in
  '(np, extras, err) ←
     (if has_flag (rxrsp_flags rsp) XEN_NETRXF_extra_info
      then xennet_get_extras extras rp np
      else Done (np, extras, 0));
  let cons := rsp_cons (rx np) in
  '(np, q, err, frags) ←
     get_responses_loop (Z.to_nat (u32 (rp - cons - 1))) rp cons rsp skb ref 1 q err np;
  let err := if frags >? max then - E2BIG else err in
  let np := if negb (err =? 0)
            then set_rx (set_rsp_cons (u32 (cons + frags)) (rx np)) np
            else np in
  Done (np, extras, q, err).

Definition xennet_set_skb_gso (skb : sk_buff) (gso : xen_netif_extra_info)
  : sk_buff * Z :=
  if gso_size gso =? 0 then (skb, - EINVAL)
  else if negb (gso_type gso =? XEN_NETIF_GSO_TYPE_TCPV4) then (skb, - EINVAL)
  else
    (set_skb_gso_segs 0
       (set_skb_gso_type (Z.lor SKB_GSO_TCPV4 SKB_GSO_DODGY)
          (set_skb_gso_size (gso_size gso) skb)), 0).

(** [frags[0]] of a buffer; the list holds the first [nr_frags] entries of
    the array. *)
Definition frag0 (skb : sk_buff) : skb_frag_t :=
  default (mk_frag 0 0 0) (head (skb_frags skb)).

(** The [while] loop of [xennet_fill_frags]: the buffers of the list give
    their page to [skb] and are freed. *)
Fixpoint fill_frags_loop (q : list sk_buff) (cons : Z) (skb : sk_buff)
    (np : netfront_info) : kres (sk_buff * Z) :=
  match q with
  | [] => Done (skb, cons)
  | nskb :: rest =>
      let cons := u32 (cons + 1) in
      rsp ← RING_GET_RESPONSE (rx np) cons;
      let skb := set_skb_frags
                   (skb_frags skb ++
                    [mk_frag (frag_page (frag0 nskb)) (rxrsp_offset rsp) (rxrsp_status rsp)])
                   skb in
      let skb := set_skb_data_len (skb_data_len skb + rxrsp_status rsp) skb in
      fill_frags_loop rest cons skb np
  end.

Definition xennet_fill_frags (skb : sk_buff) (q : list sk_buff)
    (np : netfront_info) : kres (sk_buff * Z) :=
  fill_frags_loop q (rsp_cons (rx np)) skb np.

Definition checksum_setup (skb : sk_buff) (np : netfront_info)
  : sk_buff * netfront_info * Z :=
  let '(skb, np) :=
    if negb (skb_ip_summed skb =? CHECKSUM_PARTIAL) && skb_is_gso skb
    then (set_skb_ip_summed CHECKSUM_PARTIAL skb,
          set_rx_gso_checksum_fixup (rx_gso_checksum_fixup np + 1) np)
    else (skb, np) in
  if negb (skb_ip_summed skb =? CHECKSUM_PARTIAL) then (skb, np, 0)
  else (skb, np, checksum_headers skb).

(** Returns the state and the number of packets dropped. *)
Fixpoint handle_incoming_queue (rxq : list sk_buff) (np : netfront_info)
  : netfront_info * Z :=
  match rxq with
  | [] => (np, 0)
  | skb :: rest =>
      let skb := pskb_pull_tail skb (skb_pull_to skb - skb_headlen skb) in
      let '(skb, np, e) := checksum_setup skb np in
      if negb (e =? 0) then
        let np := set_netdev (set_rx_errors (rx_errors (netdev np) + 1) (netdev np)) np in
        let '(np, dropped) := handle_incoming_queue rest np in
        (np, dropped + 1)
      else
        let np := set_stats (mk_netfront_stats (rx_packets (stats np) + 1)
                               (tx_packets (stats np))
                               (rx_bytes (stats np) + skb_len skb)
                               (tx_bytes (stats np))) np in
        handle_incoming_queue rest (set_delivered (delivered np ++ [skb]) np)
  end.

(** The state of the poll loop between two packets. *)
Record poll_state := mk_poll_state {
  poll_np : netfront_info;
  poll_i : Z;
  poll_work_done : Z;
  poll_rxq : list sk_buff;
  poll_errq : list sk_buff
}.

(** The [err] label of [xennet_poll]: the buffers gathered for the packet
    go to the error queue, the error counter goes up, and the loop goes on
    from the consumer index. *)
Definition poll_err (tmpq : list sk_buff) (work_done : Z)
    (rxq errq : list sk_buff) (np : netfront_info) : poll_state :=
  let np := set_netdev (set_rx_errors (rx_errors (netdev np) + 1) (netdev np)) np in
  mk_poll_state np (rsp_cons (rx np)) work_done rxq (errq ++ tmpq).

(** One turn of the [while] loop of [xennet_poll]. *)
Definition poll_packet (rp : Z) (ps : poll_state) : kres poll_state :=
  let np := poll_np ps in
  rsp ← RING_GET_RESPONSE (rx np) (poll_i ps);
  let extras := replicate (Z.to_nat (XEN_NETIF_EXTRA_TYPE_MAX - 1)) no_extra in
  '(np, extras, tmpq, err) ← xennet_get_responses rsp extras rp [] np;
  if negb (err =? 0)
  then Done (poll_err tmpq (poll_work_done ps) (poll_rxq ps) (poll_errq ps) np)
  else
    match tmpq with
    | [] => Oops BadAccess
    | skb :: tmpq =>
        gso ← slot_at extras (XEN_NETIF_EXTRA_TYPE_GSO - 1);
        let '(skb, gso_err) :=
          if negb (extra_type gso =? 0) then xennet_set_skb_gso skb gso
          else (skb, 0) in
        if negb (gso_err =? 0) then
          let tmpq := skb :: tmpq in
          let np := set_rx (set_rsp_cons
                              (u32 (rsp_cons (rx np) + Z.of_nat (length tmpq)))
                              (rx np)) np in
          Done (poll_err tmpq (poll_work_done ps) (poll_rxq ps) (poll_errq ps) np)
        else
          let pull_to := if rxrsp_status rsp >? RX_COPY_THRESHOLD
                         then RX_COPY_THRESHOLD else rxrsp_status rsp in
          let skb := set_skb_pull_to pull_to skb in
          let skb := set_skb_frags
                       match skb_frags skb with
                       | [] => []
                       | f :: rest =>
                           mk_frag (frag_page f) (rxrsp_offset rsp) (rxrsp_status rsp) :: rest
                       end skb in
          let skb := set_skb_data_len (rxrsp_status rsp) skb in
          '(skb, i) ← xennet_fill_frags skb tmpq np;
          let skb := set_skb_truesize
                       (skb_truesize skb + (skb_data_len skb - RX_COPY_THRESHOLD)) skb in
          let skb := set_skb_len (skb_len skb + skb_data_len skb) skb in
          let skb :=
            if has_flag (rxrsp_flags rsp) XEN_NETRXF_csum_blank
            then set_skb_ip_summed CHECKSUM_PARTIAL skb
            else if has_flag (rxrsp_flags rsp) XEN_NETRXF_data_validated
            then set_skb_ip_summed CHECKSUM_UNNECESSARY skb
            else skb in
          let i := u32 (i + 1) in
          Done (mk_poll_state (set_rx (set_rsp_cons i (rx np)) np) i
                  (poll_work_done ps + 1) (poll_rxq ps ++ [skb]) (poll_errq ps))
    end.

(** [while ((i != rp) && (work_done < budget))] *)
Fixpoint poll_loop (n : nat) (rp budget : Z) (ps : poll_state) : kres poll_state :=
  if negb (poll_i ps =? rp) && (poll_work_done ps <? budget) then
    match n with
    | O => Oops Hang
    | S n' => ps ← poll_packet rp ps; poll_loop n' rp budget ps
    end
  else Done ps.

(** ** Receive: buffer supply *)

(** The [push] label of [xennet_alloc_rx_buffers]. *)
Definition alloc_rx_push (np : netfront_info) : netfront_info :=
  let '(r, notify) := RING_PUSH_REQUESTS_AND_CHECK_NOTIFY (rx np) in
  let np := set_rx r np in
  if notify then notify_remote_via_irq np else np.

(** The loop under the [refill] label: every staged buffer gets the slot
    and the request at [req_prod + i] and a grant the backend may write
    through.  Returns the state and [i]. *)
Fixpoint alloc_rx_refill_loop (batch : list sk_buff) (req_prod i : Z)
    (np : netfront_info) : kres (netfront_info * Z) :=
  match batch with
  | [] => Done (set_rx_batch [] np, i)
  | skb :: rest =>
      let id := u16 (xennet_rxidx (u32 (req_prod + i))) in
      s ← slot_at (rx_slots np) id;
      _ ← BUG_ON (bool_decide (is_Some (rx_skb s)));
      let '(ref, pool) := gnttab_claim_grant_reference (gref_rx_head np) in
      let ref := u32 ref in
      _ ← BUG_ON (s16 ref <? 0);
      let np := set_gref_rx_head pool
                  (set_rx_slots (<[Z.to_nat id := mk_rx_slot (Some skb) ref]> (rx_slots np)) np) in
      let gt := gnttab_grant_foreign_access_ref ref
                  (page_to_mfn (frag_page (frag0 skb))) false (gnttab np) in
      r ← RING_PUT_REQUEST (rx np) (u32 (req_prod + i)) (mk_rx_request id ref);
      alloc_rx_refill_loop rest req_prod (i + 1) (set_rx r (set_gnttab gt np))
  end.

(** From the [refill] label to the end. *)
Definition alloc_rx_refill (req_prod : Z) (np : netfront_info) : kres netfront_info :=
  '(np, i) ← alloc_rx_refill_loop (rx_batch np) req_prod 0 np;
  Done (alloc_rx_push (set_rx (set_req_prod_pvt (u32 (req_prod + i)) (rx np)) np)).

(** The adjustment of the fill target in [xennet_alloc_rx_buffers]. *)
Definition rx_target_grows (req_prod : Z) (np : netfront_info) : bool :=
  u32 (req_prod - sring_rsp_prod (rx np)) <? rx_target np / 4.

Definition rx_target_grow (req_prod : Z) (np : netfront_info) : netfront_info :=
  if rx_target_grows req_prod np then
    let np := set_rx_target (u32 (rx_target np * 2)) np in
    if rx_target np >? rx_max_target np
    then set_rx_target (rx_max_target np) np
    else np
  else np.

(** [fresh] is what the allocator can still hand out: each entry is a
    buffer as [__netdev_alloc_skb] and [skb_reserve] leave it and a page
    from [alloc_page]; an allocation fails when the list is used up. *)
Definition xennet_alloc_rx_buffers (fresh : list (sk_buff * Z))
    (np : netfront_info) : kres netfront_info :=
  let req_prod := req_prod_pvt (rx np) in
  if negb (carrier_ok (netdev np)) then Done np
  else
    let batch_target := s32 (rx_target np - u32 (req_prod - rsp_cons (rx np))) in
    let i0 := Z.of_nat (length (rx_batch np)) in
    let wanted := Z.to_nat (batch_target - i0) in
    let got := take wanted fresh in
    let np := set_rx_batch
                (rx_batch np ++
                 map (fun b => set_skb_frags [mk_frag (snd b) 0 0] (fst b)) got) np in
    let i := i0 + Z.of_nat (length got) in
    let no_skb := bool_decide (length got < wanted)%nat in
    if no_skb && negb (i =? 0) then alloc_rx_refill req_prod np
    else
      let np := if no_skb then set_rx_refill_timer true np else np in
      if i <? rx_target np / 2 then
        if req_prod >? sring_req_prod (rx np)
        then Done (alloc_rx_push np)
        else Done np
      else alloc_rx_refill req_prod (rx_target_grow req_prod np).

(** ** Receive: the poll pass *)

(** The adjustment of the fill target in [xennet_poll]. *)
Definition rx_target_shrinks (np : netfront_info) : bool :=
  u32 (req_prod_pvt (rx np) - sring_rsp_prod (rx np))
    >? u32 (3 * rx_target np) / 4.

Definition rx_target_shrink (np : netfront_info) : netfront_info :=
  if rx_target_shrinks np then
    let np := set_rx_target (u32 (rx_target np - 1)) np in
    if rx_target np <? rx_min_target np
    then set_rx_target (rx_min_target np) np
    else np
  else np.

(** [xennet_poll] up to the end of the [while] loop and the purge of the
    error queue: the state, the packets to hand up and [work_done]. *)
Definition poll_receive (budget : Z) (np : netfront_info)
  : kres (netfront_info * list sk_buff * Z) :=
  let rp := sring_rsp_prod (rx np) in
  let i := rsp_cons (rx np) in
  ps ← poll_loop (Z.to_nat (u32 (rp - i))) rp budget (mk_poll_state np i 0 [] []);
  Done (poll_np ps, poll_rxq ps, poll_work_done ps).

(** Returns the state and [work_done]. *)
Definition xennet_poll (budget : Z) (fresh : list (sk_buff * Z))
    (np : netfront_info) : kres (netfront_info * Z) :=
  if negb (carrier_ok (netdev np)) then Done (np, 0)
  else
    '(np, rxq, work_done) ← poll_receive budget np;
    let '(np, dropped) := handle_incoming_queue rxq np in
    let work_done := work_done - dropped in
    let np := rx_target_shrink np in
    np ← xennet_alloc_rx_buffers fresh np;
    if work_done <? budget then
      let '(r, more_to_do) := RING_FINAL_CHECK_FOR_RESPONSES (rx np) in
      let np := set_rx r np in
      Done (if more_to_do then np else set_napi_scheduled false np, work_done)
    else Done (np, work_done).

(** ** The fill-target tunables

    [store_rxbuf_min] and [store_rxbuf_max] after the number has been
    parsed. *)
Definition store_rxbuf_min (target : Z) (fresh : list (sk_buff * Z))
    (np : netfront_info) : kres netfront_info :=
  let target := if target <? RX_MIN_TARGET then RX_MIN_TARGET else target in
  let target := if target >? RX_MAX_TARGET then RX_MAX_TARGET else target in
  let np := if target >? rx_max_target np then set_rx_max_target (u32 target) np else np in
  let np := set_rx_min_target (u32 target) np in
  let np := if target >? rx_target np then set_rx_target (u32 target) np else np in
  xennet_alloc_rx_buffers fresh np.

Definition store_rxbuf_max (target : Z) (fresh : list (sk_buff * Z))
    (np : netfront_info) : kres netfront_info :=
  let target := if target <? RX_MIN_TARGET then RX_MIN_TARGET else target in
  let target := if target >? RX_MAX_TARGET then RX_MAX_TARGET else target in
  let np := if target <? rx_min_target np then set_rx_min_target (u32 target) np else np in
  let np := set_rx_max_target (u32 target) np in
  let np := if target <? rx_target np then set_rx_target (u32 target) np else np in
  xennet_alloc_rx_buffers fresh np.

(** ** Set-up

    The state [xennet_create_dev] and [setup_netfront] leave behind, with
    the carrier switched on by [xennet_connect]: the memory of the two
    ring pages, the two grant pools and the device are what the kernel
    provided. *)
Definition setup_netfront (txmem : list (ring_slot xen_netif_tx_request xen_netif_tx_response))
    (rxmem : list (ring_slot xen_netif_rx_request xen_netif_rx_response))
    (gref_tx_head gref_rx_head : list Z) (dev : net_device) : netfront_info :=
  {| stats := mk_netfront_stats 0 0 0 0;
     tx_skb_freelist := 0;
     tx := mk_front_ring 0 0 NET_TX_RING_SIZE 0 1 0 1 txmem;
     gref_tx_head := gref_tx_head;
     netdev := dev;
     tx_slots := map (fun i => mk_tx_slot (u16 (Z.of_nat i + 1)) GRANT_INVALID_REF)
                   (seq 0 (Z.to_nat NET_TX_RING_SIZE));
     napi_scheduled := true;
     gref_rx_head := gref_rx_head;
     rx := mk_front_ring 0 0 NET_RX_RING_SIZE 0 1 0 1 rxmem;
     rx_gso_checksum_fixup := 0;
     rx_min_target := RX_DFL_MIN_TARGET;
     rx_target := RX_DFL_MIN_TARGET;
     rx_max_target := u32 RX_MAX_TARGET;
     rx_batch := [];
     rx_slots := replicate (Z.to_nat NET_RX_RING_SIZE) (mk_rx_slot None GRANT_INVALID_REF);
     rx_refill_timer := false;
     gnttab := ∅;
     evtchn_kicks := 0;
     delivered := [] |}.

Definition xennet_change_mtu (mtu' : Z) (dev : net_device) : net_device * Z :=
  let max := if xennet_can_sg dev then 65535 - ETH_HLEN else ETH_DATA_LEN in
  if mtu' >? max then (dev, - EINVAL)
  else (set_mtu mtu' dev, 0).

End Driver.

(** ** Readings of the transmit ring *)

Definition tx_reqs (np : netfront_info) : list xen_netif_tx_request :=
  slot_req <$> ring (tx np).

Definition tx_extras (np : netfront_info) : list xen_netif_extra_info :=
  slot_extra <$> ring (tx np).

Definition tx_rsps (np : netfront_info) : list xen_netif_tx_response :=
  slot_rsp <$> ring (tx np).

(** The request, and the extra-info record, in the slot of ring index
    [idx]. *)
Definition tx_req_at (np : netfront_info) (idx : Z) : option xen_netif_tx_request :=
  tx_reqs np !! Z.to_nat (ring_pos (tx np) idx).

Definition tx_extra_at (np : netfront_info) (idx : Z) : option xen_netif_extra_info :=
  tx_extras np !! Z.to_nat (ring_pos (tx np) idx).

(** ** Shapes used to state what the transmit path does *)

Section Shapes.
Context `{Config} `{Kernel}.

(** What the collection of one response leaves alone. *)
Definition gc_frame (np np' : netfront_info) : Prop :=
  tx np' = tx np /\ netdev np' = netdev np /\ stats np' = stats np /\
  length (tx_slots np') = length (tx_slots np).

(** The parts of the transmit ring a submission does not move while it
    fills requests. *)
Definition tx_hdr (np : netfront_info) : Z * Z * Z * Z * Z :=
  (rsp_cons (tx np), nr_ents (tx np), sring_req_event (tx np),
   sring_rsp_prod (tx np), sring_rsp_event (tx np)).

(** [np'] is [np] with new request and extra-info readings of the
    transmit ring; the device, the counters, the ring indices and the
    receive side are the same. *)
Definition tx_wrote (np np' : netfront_info)
    (reqs : list xen_netif_tx_request) (extras : list xen_netif_extra_info) : Prop :=
  netdev np' = netdev np /\ stats np' = stats np /\ tx_hdr np' = tx_hdr np /\
  tx_rsps np' = tx_rsps np /\ tx_reqs np' = reqs /\ tx_extras np' = extras.

Definition tx_kept_but_extras (np np' : netfront_info) : Prop :=
  netdev np' = netdev np /\ stats np' = stats np /\ tx_hdr np' = tx_hdr np /\
  tx_rsps np' = tx_rsps np.

Definition tx_kept (np np' : netfront_info) : Prop :=
  netdev np' = netdev np /\ stats np' = stats np /\ tx_hdr np' = tx_hdr np /\
  tx_rsps np' = tx_rsps np /\ tx_extras np' = tx_extras np.

(** A packet whose first request sits at ring index [i0] puts its other
    requests after the extra-info slot, if it has one ([g] is 1) or right
    after the first ([g] is 0): request [j] is at [pkt_idx i0 g j]. *)
Definition pkt_idx (i0 g j : Z) : Z :=
  if j =? 0 then i0 else u32 (i0 + g + j).

(** The flags of request [j]: the first request carries [f0], and every
    request but the last carries the more-data bit. *)
Definition pkt_flags (f0 j : Z) (more : bool) : Z :=
  Z.lor (if j =? 0 then f0 else 0) (if more then XEN_NETTXF_more_data else 0).

(** The first [j] requests of the packet are in the ring, the last of
    them without the more-data bit. *)
Definition tx_chain (i0 g f0 j : Z) (np : netfront_info) : Prop :=
  forall j', 0 <= j' < j ->
    exists q, tx_req_at np (pkt_idx i0 g j') = Some q /\
      txreq_flags q = pkt_flags f0 j' (j' <? j - 1).

(** The shape of the packet [xennet_start_xmit] puts on the ring: whether
    it has an extra-info slot, the flags of its first request before the
    more-data bit, and the number of its requests. *)
Definition xmit_g (skb : sk_buff) : Z := if skb_gso_size skb =? 0 then 0 else 1.

Definition xmit_f0 (skb : sk_buff) : Z :=
  if skb_gso_size skb =? 0 then Z.lor 0 (xmit_csum_flags skb)
  else Z.lor (Z.lor 0 (xmit_csum_flags skb)) XEN_NETTXF_extra_info.

Definition xmit_requests (skb : sk_buff) : Z :=
  1 + head_splits (Z.to_nat (skb_headlen skb)) (offset_in_page (skb_data skb))
        (skb_headlen skb)
    + nr_frags skb.

(** The freelist of the transmit slot table: from [head], every id on it
    names a slot that holds a link, the link of the next id; the list
    ends at a head outside the table. *)
Inductive freelist_chain (slots : list tx_slot) : Z -> list Z -> Prop :=
  | freelist_end head :
      0 <= head < 2 ^ 16 -> (length slots <= Z.to_nat head)%nat ->
      freelist_chain slots head []
  | freelist_cons head s l :
      0 <= head -> slots !! Z.to_nat head = Some s ->
      skb_entry_is_link s = true ->
      freelist_chain slots (tx_link s) l ->
      freelist_chain slots head (head :: l).

(** The freelist is a chain without repetition, in a table whose ids fit
    16 bits, and the two response indices are 32-bit values. *)
Definition tx_inv (np : netfront_info) : Prop :=
  Z.of_nat (length (tx_slots np)) <= 2 ^ 16 /\
  (exists l, freelist_chain (tx_slots np) (tx_skb_freelist np) l /\ NoDup l) /\
  0 <= rsp_cons (tx np) < 2 ^ 32 /\
  0 <= sring_rsp_prod (tx np) < 2 ^ 32.

(** Slot [id] holds a buffer: it was handed out and not given back. *)
Definition tx_owned (np : netfront_info) (id : Z) (s : tx_slot) : Prop :=
  0 <= id /\ tx_slots np !! Z.to_nat id = Some s /\ skb_entry_is_link s = false.

(** Every slot that holds a buffer in [np] holds the same in [np']. *)
Definition owned_kept (np np' : netfront_info) : Prop :=
  forall id s, tx_owned np id s -> tx_owned np' id s.

Definition on_freelist (np : netfront_info) (id : Z) : Prop :=
  exists l, freelist_chain (tx_slots np) (tx_skb_freelist np) l /\ id ∈ l.

(** A response with a status other than [XEN_NETIF_RSP_NULL] that names
    [id] sits in the response ring between the consumer index and the
    response producer. *)
Definition completion_observed (np : netfront_info) (id : Z) : Prop :=
  exists n rsp,
    0 <= n < u32 (sring_rsp_prod (tx np) - rsp_cons (tx np)) /\
    RING_GET_RESPONSE (tx np) (u32 (rsp_cons (tx np) + n)) = Done rsp /\
    txrsp_id rsp = id /\ txrsp_status rsp <> XEN_NETIF_RSP_NULL.

(** The steps of the transmit side: a submission, and a collection pass
    from the interrupt handler. *)
Inductive tx_step : netfront_info -> netfront_info -> Prop :=
  | tx_step_xmit skb np np' rc :
      xennet_start_xmit skb np = Done (np', rc) -> tx_step np np'
  | tx_step_gc np np' :
      xennet_tx_buf_gc np = Done np' -> tx_step np np'.

(** Anything the backend, the hypervisor and the receive side may do in
    between leaves the slot table, the freelist head and the response
    consumer alone; the response producer the backend writes is a 32-bit
    value. *)
Definition tx_env_step (np np' : netfront_info) : Prop :=
  tx_slots np' = tx_slots np /\ tx_skb_freelist np' = tx_skb_freelist np /\
  rsp_cons (tx np') = rsp_cons (tx np) /\
  0 <= sring_rsp_prod (tx np') < 2 ^ 32.

Inductive tx_reachable : netfront_info -> Prop :=
  | tx_reach_setup txmem rxmem tx_pool rx_pool dev :
      tx_reachable (setup_netfront txmem rxmem tx_pool rx_pool dev)
  | tx_reach_env np np' :
      tx_reachable np -> tx_env_step np np' -> tx_reachable np'
  | tx_reach_step np np' :
      tx_reachable np -> tx_step np np' -> tx_reachable np'.

(** A step that leaves the slot table, the freelist head and the two
    response indices alone as they are. *)
Definition tx_table_same (np np' : netfront_info) : Prop :=
  tx_slots np' = tx_slots np /\ tx_skb_freelist np' = tx_skb_freelist np /\
  rsp_cons (tx np') = rsp_cons (tx np) /\
  sring_rsp_prod (tx np') = sring_rsp_prod (tx np).

(** ** Shapes of the receive side *)

Definition rx_rsps (np : netfront_info) : list xen_netif_rx_response :=
  slot_rsp <$> ring (rx np).

(** The three fill-target tunables. *)
Definition rx_tunables (np : netfront_info) : Z * Z * Z :=
  (rx_min_target np, rx_target np, rx_max_target np).

(** What the receive side reads from the shared page and never writes:
    the ring size, the response producer and the responses. *)
Definition rx_page (np : netfront_info) : Z * Z * list xen_netif_rx_response :=
  (nr_ents (rx np), sring_rsp_prod (rx np), rx_rsps np).

Definition rx_kept (np np' : netfront_info) : Prop :=
  rx_tunables np' = rx_tunables np /\ rx_page np' = rx_page np.

(** The parser leaves the device and its counters alone as well. *)
Definition rx_parse_kept (np np' : netfront_info) : Prop :=
  rx_kept np np' /\ netdev np' = netdev np.

(** What the parser keeps besides the shared page: the device, the
    tunables and the consumer index. *)
Definition rx_walk_kept (np np' : netfront_info) : Prop :=
  rx_parse_kept np np' /\ rsp_cons (rx np') = rsp_cons (rx np).

(** A response the parser rejects, given the grant reference of its
    slot. *)
Definition rx_bad (rsp : xen_netif_rx_response) (ref : Z) : bool :=
  (rxrsp_status rsp <? 0) || (rxrsp_offset rsp + rxrsp_status rsp >? PAGE_SIZE)
  || (ref =? GRANT_INVALID_REF).

(** The number of responses of a chain, read from the ring: the response
    with flags [flags] is number [frags], and the chain goes on at index
    [cons + frags] while the more-data flag is set and the response
    producer [rp] is not reached. *)
Fixpoint rx_chain_len (n : nat) (r : rx_front_ring) (rp cons flags frags : Z) : Z :=
  if negb (has_flag flags XEN_NETRXF_more_data) then frags
  else if u32 (cons + frags) =? rp then frags
  else
    match n with
    | O => frags
    | S n' =>
        match RING_GET_RESPONSE r (u32 (cons + frags)) with
        | Done rsp => rx_chain_len n' r rp cons (rxrsp_flags rsp) (frags + 1)
        | Oops _ => frags
        end
    end.

(** The fill target lies between its two bounds, which lie between the
    least and the largest value the driver allows. *)
Definition rx_inv (np : netfront_info) : Prop :=
  RX_MIN_TARGET <= rx_min_target np /\ rx_min_target np <= rx_target np /\
  rx_target np <= rx_max_target np /\ rx_max_target np <= RX_MAX_TARGET.




End Shapes.

(** * Features, interrupts and teardown *)

(** [gnttab_free_grant_reference] hands a reference back to the free
    list of the grant table; [gfree] is that list. *)
Definition gnttab_free_grant_reference (ref : Z) (gfree : list Z) : list Z :=
  ref :: gfree.

(** The [for] loop of [xennet_end_access] over [refs[0..nr_refs)]:
    returns the array, the grant table, the free list and [failed]. *)
Fixpoint end_access_loop (refs : list Z) (gt : gmap Z grant_entry)
    (gfree : list Z) (failed : bool)
  : list Z * gmap Z grant_entry * list Z * bool :=
  match refs with
  | [] => ([], gt, gfree, failed)
  | ref :: rest =>
      if ref =? GRANT_INVALID_REF then
        let '(rest, gt, gfree, failed) := end_access_loop rest gt gfree failed in
        (ref :: rest, gt, gfree, failed)
      else
        let '(ret, gt') := gnttab_end_foreign_access_ref ref gt in
        if ret then
          let '(rest, gt, gfree, failed) :=
            end_access_loop rest gt' (gnttab_free_grant_reference ref gfree) failed in
          (GRANT_INVALID_REF :: rest, gt, gfree, failed)
        else
          let '(rest, gt, gfree, failed) := end_access_loop rest gt gfree true in
          (ref :: rest, gt, gfree, failed)
  end.

(** [xennet_end_access(nr_refs, refs, base)] with [nr_refs] the length of
    [refs]: returns the array, the grant table, the free list, and
    whether [base] was handed to [vfree]. *)
Definition xennet_end_access (refs : list Z) (gt : gmap Z grant_entry)
    (gfree : list Z) : list Z * gmap Z grant_entry * list Z * bool :=
  let '(refs, gt, gfree, failed) := end_access_loop refs gt gfree false in
  (refs, gt, gfree, negb failed).

Section Lifecycle.
Context `{Config} `{Kernel}.

(** [NETIF_F_TSO] is a bit of [linux/netdev_features.h]. *)
Variable NETIF_F_TSO : Z.

(** [sg] and [gso] are what [xenbus_scanf] reads from the keys
    [feature-sg] and [feature-gso-tcpv4] of the backend: [None] when it
    returns a negative value. *)
Definition xennet_fix_features (sg gso : option Z) (features : Z) : Z :=
  let features :=
    if has_flag features NETIF_F_SG then
      let val := match sg with Some v => v | None => 0 end in
      if val =? 0 then Z.land features (Z.lnot NETIF_F_SG) else features
    else features in
  if has_flag features NETIF_F_TSO then
    let val := match gso with Some v => v | None => 0 end in
    if val =? 0 then Z.land features (Z.lnot NETIF_F_TSO) else features
  else features.

(** [features] is the set the stack is about to install. *)
Definition xennet_set_features (features : Z) (dev : net_device)
  : net_device * Z :=
  if negb (has_flag features NETIF_F_SG) && (mtu dev >? ETH_DATA_LEN)
  then (set_mtu ETH_DATA_LEN dev, 0)
  else (dev, 0).

Definition napi_schedule (np : netfront_info) : netfront_info :=
  set_napi_scheduled true np.

Definition xennet_interrupt (np : netfront_info) : kres netfront_info :=
  if carrier_ok (netdev np) then
    np ← xennet_tx_buf_gc np;
    Done (if RING_HAS_UNCONSUMED_RESPONSES (rx np) then napi_schedule np else np)
  else Done np.

(** The body of the loop over [tx_slots] in [xennet_disconnect_backend]:
    a slot that holds a buffer has its grant ended and released, or
    left alone when the backend still uses it, and its buffer freed. *)
Definition disconnect_tx_slot (s : tx_slot) (np : netfront_info)
  : kres netfront_info :=
  if skb_entry_is_link s then Done np
  else
    let np :=
      if negb (tx_gref s =? GRANT_INVALID_REF) then
        let '(ret, gt) := gnttab_end_foreign_access_ref (tx_gref s) (gnttab np) in
        if ret
        then set_gref_tx_head
               (gnttab_release_grant_reference (gref_tx_head np) (tx_gref s))
               (set_gnttab gt np)
        else np
      else np in
    if negb (tx_skb s =? 0) then dev_kfree_skb_irq (tx_skb s) np else Done np.

(** [for (i = 0; i < NET_TX_RING_SIZE; i++)], from [i] with [n] turns
    left. *)
Fixpoint disconnect_tx_loop (n : nat) (i : Z) (np : netfront_info)
  : kres netfront_info :=
  match n with
  | O => Done np
  | S n' =>
      s ← slot_at (tx_slots np) i;
      np ← disconnect_tx_slot s np;
      disconnect_tx_loop n' (i + 1) np
  end.

(** The transmit part of [xennet_disconnect_backend] when the table is
    there: the loop, then the table is freed and the freelist head
    cleared. *)
Definition disconnect_tx_slots (np : netfront_info) : kres netfront_info :=
  np ← disconnect_tx_loop (Z.to_nat NET_TX_RING_SIZE) 0 np;
  Done (set_tx_skb_freelist 0 (set_tx_slots [] np)).

(** The body of the loop over [rx_slots]: the grant goes to
    [gref_tx_head], as the source has it.  [kfree_skb] on the buffer of
    the slot drops a reference that lives in the buffer, outside this
    state. *)
Definition disconnect_rx_slot (s : rx_slot) (np : netfront_info) : netfront_info :=
  if negb (rx_gref s =? GRANT_INVALID_REF) then
    let '(ret, gt) := gnttab_end_foreign_access_ref (rx_gref s) (gnttab np) in
    if ret
    then set_gref_tx_head
           (gnttab_release_grant_reference (gref_tx_head np) (rx_gref s))
           (set_gnttab gt np)
    else np
  else np.

Fixpoint disconnect_rx_loop (n : nat) (i : Z) (np : netfront_info)
  : kres netfront_info :=
  match n with
  | O => Done np
  | S n' =>
      s ← slot_at (rx_slots np) i;
      disconnect_rx_loop n' (i + 1) (disconnect_rx_slot s np)
  end.

(** The receive part of [xennet_disconnect_backend] when the table is
    there. *)
Definition disconnect_rx_slots (np : netfront_info) : kres netfront_info :=
  np ← disconnect_rx_loop (Z.to_nat NET_RX_RING_SIZE) 0 np;
  Done (set_rx_slots [] np).

End Lifecycle.

(** * Scenarios

    A device on an x86-64 guest with one-page rings, and the packets and
    backend moves the examples below run on. *)

Section Scenarios.
#[local] Existing Instance x86_64.

(** A kernel whose helpers do the least: no packet needs software
    segmentation, frames are page numbers, and the header checks pass. *)
#[local] Instance demo_kernel : Kernel := {|
  netif_needs_gso := fun _ _ => false;
  virt_to_mfn := fun a => a / 4096;
  page_to_mfn := fun p => p;
  pskb_pull_tail := fun skb _ => skb;
  checksum_headers := fun _ => 0 |}.

Definition demo_txslot : ring_slot xen_netif_tx_request xen_netif_tx_response :=
  mk_ring_slot (mk_tx_request 0 0 0 0 0) (mk_tx_response 0 0) no_extra.

Definition demo_rxslot : ring_slot xen_netif_rx_request xen_netif_rx_response :=
  mk_ring_slot (mk_rx_request 0 0) (mk_rx_response 0 0 0 0) no_extra.

Definition demo_dev : net_device := mk_net_device true true false NETIF_F_SG 1500 0 0.

(** The state after set-up: grant references 8..263 for transmit and
    264..519 for receive. *)
Definition demo_np : netfront_info :=
  setup_netfront (replicate 256 demo_txslot) (replicate 256 demo_rxslot)
    (Z.of_nat <$> seq 8 256) (Z.of_nat <$> seq 264 256) demo_dev.

(** A packet with 500 bytes of head at offset 0x40 of its page and two
    page fragments, whose checksum is left to the backend. *)
Definition demo_pkt : sk_buff :=
  mk_sk_buff 0xffff880000100000 0xffff880000200040 1000 500 0 CHECKSUM_PARTIAL
    [mk_frag 77 0 200; mk_frag 78 16 300] 0 0 0 0.

(** A packet whose head is empty and starts a page. *)
Definition demo_pkt_empty_head : sk_buff :=
  mk_sk_buff 0xffff880000100000 0xffff880000200000 500 500 0 CHECKSUM_NONE
    [mk_frag 77 0 200; mk_frag 78 16 300] 0 0 0 0.

Definition state_of {A} (r : kres (netfront_info * A)) : netfront_info :=
  match r with Done (np, _) => np | Oops _ => demo_np end.

Definition demo_sent : netfront_info := state_of (xennet_start_xmit demo_pkt demo_np).

Definition demo_sent_empty_head : netfront_info :=
  state_of (xennet_start_xmit demo_pkt_empty_head demo_np).

(** The backend answers one transmit request. *)
Definition backend_tx_respond (rsp : xen_netif_tx_response) (np : netfront_info)
  : netfront_info :=
  let r := tx np in
  let pos := Z.to_nat (ring_pos r (sring_rsp_prod r)) in
  set_tx (mk_front_ring (req_prod_pvt r) (rsp_cons r) (nr_ents r) (sring_req_prod r)
            (sring_req_event r) (u32 (sring_rsp_prod r + 1)) (sring_rsp_event r)
            (alter (fun s => mk_ring_slot (slot_req s) rsp (slot_extra s)) pos (ring r)))
    np.

(** The three requests of [demo_pkt] answered. *)
Definition demo_answered : netfront_info :=
  backend_tx_respond (mk_tx_response 2 0)
    (backend_tx_respond (mk_tx_response 1 0)
       (backend_tx_respond (mk_tx_response 0 0) demo_sent)).

Definition demo_collected : netfront_info :=
  match xennet_tx_buf_gc demo_answered with Done np => np | Oops _ => demo_np end.

(** Receive buffers as the allocator hands them out, with their pages. *)
Definition demo_fresh (first : nat) (n : nat) : list (sk_buff * Z) :=
  (fun i => (mk_sk_buff (0xffff880001000000 + 4096 * Z.of_nat i)
               (0xffff880002000000 + 4096 * Z.of_nat i) 0 0 256 CHECKSUM_NONE
               [] 0 0 0 0,
             1000 + Z.of_nat i)) <$> seq first n.

Definition demo_filled : netfront_info :=
  match xennet_alloc_rx_buffers (demo_fresh 0 64) demo_np with
  | Done np => np | Oops _ => demo_np end.

(** The backend answers one receive request. *)
Definition backend_rx_respond (rsp : xen_netif_rx_response) (np : netfront_info)
  : netfront_info :=
  let r := rx np in
  let pos := Z.to_nat (ring_pos r (sring_rsp_prod r)) in
  set_rx (mk_front_ring (req_prod_pvt r) (rsp_cons r) (nr_ents r) (sring_req_prod r)
            (sring_req_event r) (u32 (sring_rsp_prod r + 1)) (sring_rsp_event r)
            (alter (fun s => mk_ring_slot (slot_req s) rsp (slot_extra s)) pos (ring r)))
    np.







(** Fifty responses produced and none consumed yet. *)
Definition demo_backlog : netfront_info :=
  Nat.iter 50 (backend_rx_respond (mk_rx_response 0 0 0 60)) demo_filled.


End Scenarios.

(** ** More scenarios *)

Section MoreScenarios.
#[local] Existing Instance x86_64.
#[local] Existing Instance demo_kernel.

Definition demo_two_slots : list tx_slot := [mk_tx_slot 1 0; mk_tx_slot 2 0].

(** The slot and the buffer at receive index 0 after the first fill. *)
Definition demo_slot0 : rx_slot :=
  default (mk_rx_slot None GRANT_INVALID_REF) (rx_slots demo_filled !! 0%nat).

Definition demo_buf0 : sk_buff := default demo_pkt (rx_skb demo_slot0).

Definition demo_moved : netfront_info :=
  match xennet_move_rx_slot (Some demo_pkt) 300 demo_np with
  | Done np => np | Oops _ => demo_np end.

(** The backend writes an extra-info record in the next response slot. *)
Definition backend_rx_extra (e : xen_netif_extra_info) (np : netfront_info)
  : netfront_info :=
  let r := rx np in
  let pos := Z.to_nat (ring_pos r (sring_rsp_prod r)) in
  set_rx (mk_front_ring (req_prod_pvt r) (rsp_cons r) (nr_ents r) (sring_req_prod r)
            (sring_req_event r) (u32 (sring_rsp_prod r + 1)) (sring_rsp_event r)
            (alter (fun s => mk_ring_slot (slot_req s) (slot_rsp s) e) pos (ring r)))
    np.

(** A packet of one response followed by a segmentation record whose
    size is zero. *)
Definition demo_gso_rsp : xen_netif_rx_response :=
  mk_rx_response 0 0 XEN_NETRXF_extra_info 100.

Definition demo_gso_record : xen_netif_extra_info :=
  mk_extra_info XEN_NETIF_EXTRA_TYPE_GSO 0 0 XEN_NETIF_GSO_TYPE_TCPV4 0 0.

Definition demo_gso : poll_state :=
  mk_poll_state
    (backend_rx_extra demo_gso_record (backend_rx_respond demo_gso_rsp demo_filled))
    0 0 [] [].

Definition demo_gso_extras
  : netfront_info * list xen_netif_extra_info * Z :=
  match xennet_get_extras (replicate 1 no_extra) 2 (poll_np demo_gso) with
  | Done r => r | Oops _ => (demo_np, [], 0) end.

Definition demo_gso_parsed
  : netfront_info * list xen_netif_extra_info * list sk_buff * Z :=
  match xennet_get_responses demo_gso_rsp
          (replicate (Z.to_nat (XEN_NETIF_EXTRA_TYPE_MAX - 1)) no_extra) 2 []
          (poll_np demo_gso) with
  | Done r => r | Oops _ => (demo_np, [], [], 0) end.


Definition demo_polled : netfront_info * Z :=
  match xennet_poll 16 [] demo_backlog with
  | Done r => r | Oops _ => (demo_np, 0) end.

(** One well-formed response for the buffer at index 0. *)
Definition demo_good_rsp : xen_netif_rx_response := mk_rx_response 0 0 0 60.

Definition demo_good : netfront_info := backend_rx_respond demo_good_rsp demo_filled.

(** Two buffers staged for posting on the fresh device. *)
Definition demo_staged : netfront_info :=
  set_rx_batch
    ((fun b => set_skb_frags [mk_frag (snd b) 0 0] (fst b)) <$> demo_fresh 0 2) demo_np.

Definition demo_posted : netfront_info :=
  match alloc_rx_refill 0 demo_staged with Done np => np | Oops _ => demo_np end.

Definition demo_min_stored : netfront_info :=
  match store_rxbuf_min 1000 [] demo_np with Done np => np | Oops _ => demo_np end.

(** The backend maps the frame behind a grant. *)
Definition backend_map (ref : Z) (np : netfront_info) : netfront_info :=
  set_gnttab
    (alter (fun e => mk_grant_entry (gnt_frame e) (gnt_readonly e) true) ref (gnttab np))
    np.

Definition demo_mapped : netfront_info := backend_map 8 demo_answered.

Definition demo_one : netfront_info :=
  backend_tx_respond (mk_tx_response 0 0) demo_sent.

(** Ring page grants: 5 is let go of, 6 is still mapped. *)
Definition demo_gt : gmap Z grant_entry :=
  <[5 := mk_grant_entry 50 false false]> (<[6 := mk_grant_entry 60 false true]> ∅).

Definition demo_dev_jumbo : net_device := mk_net_device true true false NETIF_F_SG 9000 0 0.

Definition demo_irq : netfront_info :=
  match xennet_interrupt demo_answered with Done np => np | Oops _ => demo_np end.

End MoreScenarios.

(** * Properties *)

(** ** Machine integers and the outcome monad *)

Lemma u16_range x : 0 <= u16 x < 2^16.
Proof. unfold u16. apply Z.mod_pos_bound. lia. Qed.

Lemma u32_range x : 0 <= u32 x < 2^32.
Proof. unfold u32. apply Z.mod_pos_bound. lia. Qed.

Lemma u16_small x : 0 <= x < 2^16 -> u16 x = x.
Proof. intros. unfold u16. apply Z.mod_small. lia. Qed.

Lemma u32_small x : 0 <= x < 2^32 -> u32 x = x.
Proof. intros. unfold u32. apply Z.mod_small. lia. Qed.

Lemma u32_u16 x : u32 (u16 x) = u16 x.
Proof. apply u32_small. pose proof (u16_range x). lia. Qed.

Lemma s16_small x : 0 <= x < 2^15 -> s16 x = x.
Proof.
  intros. unfold s16. rewrite Z.mod_small by lia.
  destruct (Z.ltb_spec x (2^15)); lia.
Qed.

Lemma s32_small x : 0 <= x < 2^31 -> s32 x = x.
Proof.
  intros. unfold s32. rewrite Z.mod_small by lia.
  destruct (Z.ltb_spec x (2^31)); lia.
Qed.

Ltac ksimpl := cbn [mbind mret kres_bind kres_ret kbind].
Tactic Notation "ksimpl" "in" hyp(H) :=
  cbn [mbind mret kres_bind kres_ret kbind] in H.

Lemma kbind_Done {A B} (m : kres A) (f : A -> kres B) b :
  m ≫= f = Done b -> exists a, m = Done a /\ f a = Done b.
Proof. destruct m; simpl; [eauto | discriminate]. Qed.

Lemma BUG_ON_Done c u : BUG_ON c = Done u -> c = false.
Proof. destruct c; simpl; [discriminate | reflexivity]. Qed.

Lemma slot_at_Done {A} (l : list A) i a :
  slot_at l i = Done a <-> 0 <= i /\ l !! Z.to_nat i = Some a.
Proof.
  unfold slot_at. destruct (Z.ltb_spec i 0).
  - split; [discriminate | lia].
  - destruct (l !! Z.to_nat i); split; intros E;
      try discriminate; try (split; [lia | congruence]).
    + destruct E as [_ E]. congruence.
    + destruct E as [_ E]. discriminate.
Qed.

Lemma slot_at_in_range {A} (l : list A) i :
  0 <= i -> (Z.to_nat i < length l)%nat -> exists a, slot_at l i = Done a.
Proof.
  intros H0 Hi. destruct (lookup_lt_is_Some_2 l _ Hi) as [a Ha].
  exists a. by apply slot_at_Done.
Qed.

Lemma slot_at_insert_eq {A} (l : list A) i a :
  0 <= i -> (Z.to_nat i < length l)%nat ->
  slot_at (<[Z.to_nat i := a]> l) i = Done a.
Proof. intros. apply slot_at_Done. split; [done|]. by apply list_lookup_insert_eq. Qed.

(** C10 (as amended). For every freelist head that fits the 16 bits of a
    slot id, every slot table and every id inside the table,
    [add_id_to_freelist] followed by [get_id_from_freelist] returns that id
    and puts the head back to its prior value. *)
Theorem freelist_add_get_inverse (head : Z) (slots : list tx_slot) (id : Z) :
  0 <= head < 2^16 ->
  0 <= id < 2^16 ->
  (Z.to_nat id < length slots)%nat ->
  exists list1,
    add_id_to_freelist head slots id = Done (id, list1) /\
    get_id_from_freelist id list1 = Done (id, head).
Proof.
  intros Hhead Hid Hlen.
  unfold add_id_to_freelist, get_id_from_freelist.
  rewrite (u16_small id) by lia.
  destruct (slot_at_in_range slots id (proj1 Hid) Hlen) as [s Hs]. rewrite Hs. ksimpl.
  eexists. split; [reflexivity|].
  rewrite slot_at_insert_eq by (done || lia). ksimpl.
  cbn [skb_entry_set_link tx_link].
  rewrite (u16_small head), (u32_small head) by lia.
  reflexivity.
Qed.

Lemma freelist_add_get_inverse_witness :
  exists list1,
    add_id_to_freelist 1 [mk_tx_slot 4 0; mk_tx_slot 2 0; mk_tx_slot 0 0] 2
      = Done (2, list1) /\
    get_id_from_freelist 2 list1 = Done (2, 1).
Proof.
  apply (freelist_add_get_inverse 1 [mk_tx_slot 4 0; mk_tx_slot 2 0; mk_tx_slot 0 0] 2).
  - lia.
  - lia.
  - simpl. lia.
Defined.

(** C10 as stated fails: the head is an [unsigned], the link parameter of
    [skb_entry_set_link] an [unsigned short].  With the head at 65536 the
    stored link is 0, and the head read back is 0, not 65536. *)
Lemma freelist_add_get_wide_head :
  add_then_get 65536 [mk_tx_slot 1 0; mk_tx_slot 2 0; mk_tx_slot 3 0; mk_tx_slot 4 0] 3
    = Done (3, 0, [mk_tx_slot 1 0; mk_tx_slot 2 0; mk_tx_slot 3 0; mk_tx_slot 0 0])
  /\ (0 : Z) <> 65536.
Proof. split; [reflexivity | discriminate]. Qed.

(** ** Tactics for the outcome monad *)

Lemma kbind_Done_pair {A B C} (m : kres (A * B)) (f : A * B -> kres C) c :
  m ≫= f = Done c -> exists a b, m = Done (a, b) /\ f (a, b) = Done c.
Proof. destruct m as [[a b]|]; simpl; [eauto | discriminate]. Qed.

(** Splits a hypothesis [x ← m; k = Done r] into [m = Done a] and the
    rest. *)
Tactic Notation "kinv" hyp(H) :=
  let a := fresh "a" in
  let E := fresh "E" in
  apply kbind_Done in H; destruct H as (a & E & H); cbn beta iota in H.

Tactic Notation "kinv" hyp(H) "as" ident(a) ident(E) :=
  apply kbind_Done in H; destruct H as (a & E & H); cbn beta iota in H.

Tactic Notation "kinv2" hyp(H) "as" ident(a) ident(b) ident(E) :=
  apply kbind_Done_pair in H; destruct H as (a & b & E & H); cbn beta iota in H.


(** ** The MTU bound *)

Section Mtu.
Context `{Config}.


End Mtu.

(** ** Completion collection *)

Section TxGc.
Context `{Config} `{Kernel}.

Lemma gc_frame_refl np : gc_frame np np.
Proof. by repeat split. Qed.

Lemma gc_frame_trans a b c : gc_frame a b -> gc_frame b c -> gc_frame a c.
Proof. unfold gc_frame. intros (?&?&?&?) (?&?&?&?). repeat split; congruence. Qed.

Lemma add_id_to_freelist_length head slots id head' slots' :
  add_id_to_freelist head slots id = Done (head', slots') ->
  length slots' = length slots.
Proof.
  unfold add_id_to_freelist. intros E. kinv E. inversion E; subst.
  by rewrite length_insert.
Qed.

Lemma dev_kfree_skb_irq_Done skb np np' :
  dev_kfree_skb_irq skb np = Done np' -> np' = np /\ PAGE_OFFSET <= skb.
Proof.
  unfold dev_kfree_skb_irq. destruct (Z.ltb_spec skb PAGE_OFFSET); [discriminate|].
  intros [= <-]. done.
Qed.

Lemma tx_buf_gc_one_frame cons np np' :
  tx_buf_gc_one cons np = Done np' -> gc_frame np np'.
Proof.
  unfold tx_buf_gc_one. intros E. kinv E.
  destruct (txrsp_status a =? XEN_NETIF_RSP_NULL).
  { inversion E; subst. apply gc_frame_refl. }
  kinv E. kinv E. apply kbind_Done_pair in E as (head & slots & Eadd & E).
  cbn beta iota in E. apply dev_kfree_skb_irq_Done in E as [-> _].
  apply add_id_to_freelist_length in Eadd. rewrite length_insert in Eadd.
  by repeat split.
Qed.

Lemma tx_buf_gc_scan_frame n cons np np' :
  tx_buf_gc_scan n cons np = Done np' -> gc_frame np np'.
Proof.
  revert cons np. induction n as [|n IH]; intros cons np E; simpl in E.
  - inversion E; subst. apply gc_frame_refl.
  - kinv E. eapply gc_frame_trans; [by eapply tx_buf_gc_one_frame | by eapply IH].
Qed.

(** The shared page is fixed during one call, so the test that ends the
    [do ... while] loop fails after the first turn. *)
Lemma tx_buf_gc_pass_once np np' again :
  tx_buf_gc_pass np = Done (np', again) -> again = false.
Proof.
  unfold tx_buf_gc_pass. intros E. kinv E. inversion E; subst.
  apply tx_buf_gc_scan_frame in E0 as (-> & _).
  cbn. rewrite !Z.eqb_refl. reflexivity.
Qed.

Lemma xennet_maybe_wake_tx_tx np : tx (xennet_maybe_wake_tx np) = tx np.
Proof.
  unfold xennet_maybe_wake_tx.
  by destruct (queue_stopped (netdev np) && netfront_tx_slot_available np
               && running (netdev np)).
Qed.

(** C6. A collection pass that runs to its end has consumed every
    response up to the response producer it observed, and has set the
    response event marker to the new consumer plus half the requests
    still outstanding plus one, in the 32-bit arithmetic of ring indices;
    the outstanding requests are the shared request producer minus the new
    consumer. *)
Theorem tx_buf_gc_event_marker (np np' : netfront_info) :
  xennet_tx_buf_gc np = Done np' ->
  let cons := rsp_cons (tx np') in
  let outstanding_requests := u32 (sring_req_prod (tx np') - cons) in
  cons = sring_rsp_prod (tx np) /\
  sring_rsp_event (tx np') = u32 (cons + outstanding_requests / 2 + 1).
Proof.
  unfold xennet_tx_buf_gc. intros E. kinv E. kinv E. inversion E; subst; clear E.
  rewrite xennet_maybe_wake_tx_tx.
  simpl in E1. apply kbind_Done_pair in E1 as (np1 & again & Epass & E1).
  pose proof (tx_buf_gc_pass_once _ _ _ Epass) as ->. inversion E1; subst; clear E1.
  unfold tx_buf_gc_pass in Epass. kinv Epass. inversion Epass; subst; clear Epass.
  apply tx_buf_gc_scan_frame in E as (Etx & _). cbn. rewrite Etx.
  rewrite Z.shiftr_div_pow2 by lia. change (2 ^ 1) with 2. done.
Qed.

End TxGc.

(** ** Transmit: what a submission writes *)

Lemma land_le_r a b : 0 <= b -> Z.land a b <= b.
Proof.
  intros Hb.
  assert (E : Z.land a b + Z.land (Z.lnot a) b = b).
  { rewrite Z.add_nocarry_lxor.
    - apply Z.bits_inj'. intros n Hn.
      rewrite Z.lxor_spec, !Z.land_spec, Z.lnot_spec by lia.
      destruct (Z.testbit a n), (Z.testbit b n); reflexivity.
    - apply Z.bits_inj'. intros n Hn.
      rewrite !Z.land_spec, Z.lnot_spec, Z.bits_0 by lia.
      destruct (Z.testbit a n), (Z.testbit b n); reflexivity. }
  assert (0 <= Z.land (Z.lnot a) b) by (apply Z.land_nonneg; lia).
  lia.
Qed.

Lemma ring_pos_pow2 {Req Rsp} (r : front_ring Req Rsp) k idx :
  0 <= k -> nr_ents r = 2 ^ k -> ring_pos r idx = idx mod 2 ^ k.
Proof.
  intros Hk E. unfold ring_pos. rewrite E.
  replace (2 ^ k - 1) with (Z.ones k) by (rewrite Z.ones_equiv; lia).
  by apply Z.land_ones.
Qed.

Section TxSubmit.
Context `{Config} `{Kernel}.

Lemma offset_in_page_range p :
  0 < PAGE_SIZE -> 0 <= p -> 0 <= offset_in_page p < PAGE_SIZE.
Proof.
  intros HP Hp. unfold offset_in_page. split.
  - apply Z.land_nonneg. lia.
  - pose proof (land_le_r p (PAGE_SIZE - 1)). lia.
Qed.

Lemma tx_hdr_nr_ents np np' : tx_hdr np' = tx_hdr np -> nr_ents (tx np') = nr_ents (tx np).
Proof. unfold tx_hdr. intros [=]. done. Qed.

Lemma tx_hdr_ring_pos np np' idx :
  tx_hdr np' = tx_hdr np -> ring_pos (tx np') idx = ring_pos (tx np) idx.
Proof. intros E. unfold ring_pos. by rewrite (tx_hdr_nr_ents _ _ E). Qed.

Lemma RING_GET_Done {Req Rsp} (r : front_ring Req Rsp) idx s :
  RING_GET r idx = Done s ->
  ring r !! Z.to_nat (ring_pos r idx) = Some s.
Proof. unfold RING_GET. intros E. by apply slot_at_Done in E as [_ E]. Qed.

Lemma RING_PUT_Done {Req Rsp} (r : front_ring Req Rsp) idx s r' :
  RING_PUT r idx s = Done r' ->
  r' = set_ring (<[Z.to_nat (ring_pos r idx) := s]> (ring r)) r.
Proof. unfold RING_PUT. intros E. kinv E. by inversion E. Qed.

Lemma RING_PUT_REQUEST_Done {Req Rsp} (r : front_ring Req Rsp) idx q r' :
  RING_PUT_REQUEST r idx q = Done r' ->
  exists s, ring r !! Z.to_nat (ring_pos r idx) = Some s /\
    r' = set_ring (<[Z.to_nat (ring_pos r idx) :=
                       mk_ring_slot q (slot_rsp s) (slot_extra s)]> (ring r)) r.
Proof.
  unfold RING_PUT_REQUEST. intros E. kinv E.
  apply RING_GET_Done in E0. apply RING_PUT_Done in E. eauto.
Qed.

Lemma RING_PUT_EXTRA_Done {Req Rsp} (r : front_ring Req Rsp) idx e r' :
  RING_PUT_EXTRA r idx e = Done r' ->
  exists s, ring r !! Z.to_nat (ring_pos r idx) = Some s /\
    r' = set_ring (<[Z.to_nat (ring_pos r idx) :=
                       mk_ring_slot (slot_req s) (slot_rsp s) e]> (ring r)) r.
Proof.
  unfold RING_PUT_EXTRA. intros E. kinv E.
  apply RING_GET_Done in E0. apply RING_PUT_Done in E. eauto.
Qed.

Lemma insert_same_view {A B} (f : A -> B) (l : list A) i s s' :
  l !! i = Some s -> f s' = f s -> f <$> <[i := s']> l = f <$> l.
Proof.
  intros Hl Hf. rewrite list_fmap_insert, Hf.
  apply list_insert_id. by rewrite list_lookup_fmap, Hl.
Qed.

Lemma tx_put_request_wrote np idx q r' :
  RING_PUT_REQUEST (tx np) idx q = Done r' ->
  tx_wrote np (set_tx r' np)
    (<[Z.to_nat (ring_pos (tx np) idx) := q]> (tx_reqs np)) (tx_extras np) /\
  is_Some (tx_reqs np !! Z.to_nat (ring_pos (tx np) idx)).
Proof.
  intros E. apply RING_PUT_REQUEST_Done in E as (s & Hs & ->).
  unfold tx_wrote, tx_hdr, tx_reqs, tx_extras, tx_rsps. cbn.
  rewrite (insert_same_view slot_extra _ _ s) by done.
  rewrite (insert_same_view slot_rsp _ _ s) by done.
  rewrite list_fmap_insert. cbn.
  rewrite list_lookup_fmap, Hs. repeat split; eauto.
Qed.

Lemma tx_put_extra_wrote np idx e r' :
  RING_PUT_EXTRA (tx np) idx e = Done r' ->
  tx_wrote np (set_tx r' np) (tx_reqs np)
    (<[Z.to_nat (ring_pos (tx np) idx) := e]> (tx_extras np)) /\
  is_Some (tx_extras np !! Z.to_nat (ring_pos (tx np) idx)).
Proof.
  intros E. apply RING_PUT_EXTRA_Done in E as (s & Hs & ->).
  unfold tx_wrote, tx_hdr, tx_reqs, tx_extras, tx_rsps. cbn.
  rewrite (insert_same_view slot_req _ _ s) by done.
  rewrite (insert_same_view slot_rsp _ _ s) by done.
  rewrite list_fmap_insert. cbn.
  rewrite list_lookup_fmap, Hs. repeat split; eauto.
Qed.

Lemma tx_wrote_req_at np np' reqs extras idx :
  tx_wrote np np' reqs extras ->
  tx_req_at np' idx = reqs !! Z.to_nat (ring_pos (tx np) idx).
Proof.
  intros (_ & _ & Hh & _ & Hr & _). unfold tx_req_at.
  by rewrite Hr, (tx_hdr_ring_pos _ _ _ Hh).
Qed.

Lemma tx_wrote_extra_at np np' reqs extras idx :
  tx_wrote np np' reqs extras ->
  tx_extra_at np' idx = extras !! Z.to_nat (ring_pos (tx np) idx).
Proof.
  intros (_ & _ & Hh & _ & _ & He). unfold tx_extra_at.
  by rewrite He, (tx_hdr_ring_pos _ _ _ Hh).
Qed.

Lemma tx_modify_wrote f txi np np' :
  tx_modify f txi np = Done np' ->
  exists q, tx_reqs np !! Z.to_nat (ring_pos (tx np) txi) = Some q /\
    tx_wrote np np' (<[Z.to_nat (ring_pos (tx np) txi) := f q]> (tx_reqs np))
      (tx_extras np).
Proof.
  unfold tx_modify. intros E. kinv E. kinv E. inversion E; subst; clear E.
  unfold RING_GET_REQUEST in E0. kinv E0. inversion E0; subst; clear E0.
  apply RING_GET_Done in E. exists (slot_req a1). split.
  - unfold tx_reqs. by rewrite list_lookup_fmap, E.
  - by apply tx_put_request_wrote.
Qed.

Lemma tx_modify_req_prod f txi np np' :
  tx_modify f txi np = Done np' ->
  req_prod_pvt (tx np') = req_prod_pvt (tx np).
Proof.
  unfold tx_modify. intros E. kinv E as q Eq. kinv E as r Er.
  inversion E; subst; clear E.
  apply RING_PUT_REQUEST_Done in Er as (s & _ & ->). reflexivity.
Qed.

(** Changes to the slot table, the freelist, the pool and the grant
    table do not show in [tx_wrote]. *)
Lemma tx_slot_set_skb_same id skb np np' :
  tx_slot_set_skb id skb np = Done np' ->
  tx np' = tx np /\ netdev np' = netdev np /\ stats np' = stats np.
Proof. unfold tx_slot_set_skb. intros E. kinv E. by inversion E. Qed.

Lemma tx_slot_set_gref_same id ref np np' :
  tx_slot_set_gref id ref np = Done np' ->
  tx np' = tx np /\ netdev np' = netdev np /\ stats np' = stats np.
Proof. unfold tx_slot_set_gref. intros E. kinv E. by inversion E. Qed.

Lemma make_frag_request_wrote skb mfn offset size prod np np' :
  make_frag_request skb mfn offset size prod np = Done np' ->
  exists q, txreq_flags q = 0 /\
    is_Some (tx_reqs np !! Z.to_nat (ring_pos (tx np) prod)) /\
    tx_wrote np np' (<[Z.to_nat (ring_pos (tx np) prod) := q]> (tx_reqs np))
      (tx_extras np).
Proof.
  unfold make_frag_request. intros E.
  kinv2 E as id head Eget. kinv E as np1 Eskb.
  apply tx_slot_set_skb_same in Eskb as (Etx0 & Edev0 & Est0). cbn in *.
  destruct (gnttab_claim_grant_reference (gref_tx_head np1)) as [ref pool].
  kinv E as u Ebug. kinv E as np2 Egref.
  apply tx_slot_set_gref_same in Egref as (Etx1 & Edev1 & Est1). cbn in *.
  kinv E as r Eput. inversion E; subst; clear E.
  assert (Etx : tx np2 = tx np) by congruence.
  rewrite Etx in Eput.
  apply tx_put_request_wrote in Eput as [(W1 & W2 & W3 & Wr & W4 & W5) Hsome].
  exists (mk_tx_request (u32 ref) (u16 offset) 0 id (u16 size)).
  split; [reflexivity|]. split; [exact Hsome|].
  unfold tx_wrote, tx_hdr, tx_reqs, tx_extras, tx_rsps in *. cbn in *.
  repeat split; congruence.
Qed.


Lemma tx_kept_refl np : tx_kept np np.
Proof. by repeat split. Qed.

Lemma tx_kept_trans a b c : tx_kept a b -> tx_kept b c -> tx_kept a c.
Proof. unfold tx_kept. intros (?&?&?&?&?) (?&?&?&?&?). repeat split; congruence. Qed.

Lemma tx_wrote_kept np np' reqs : tx_wrote np np' reqs (tx_extras np) -> tx_kept np np'.
Proof. unfold tx_wrote, tx_kept. intros (?&?&?&?&?&?). by repeat split. Qed.

Lemma u32_succ x : u32 (u32 x + 1) = u32 (x + 1).
Proof. unfold u32. by rewrite Zplus_mod_idemp_l. Qed.

Lemma mod_pow2_u32 k x : 0 <= k <= 32 -> u32 x mod 2 ^ k = x mod 2 ^ k.
Proof.
  intros Hk. unfold u32. apply Z.mod_mod_divide.
  exists (2 ^ (32 - k)). rewrite <- Z.pow_add_r by lia. f_equal. lia.
Qed.

Lemma mod_add_inj i x y m :
  0 <= x < m -> 0 <= y < m -> (i + x) mod m = (i + y) mod m -> x = y.
Proof.
  intros Hx Hy E. apply Z.cong_iff_ex in E as [n En].
  assert (n = 0) by nia. subst n. lia.
Qed.

Lemma head_splits_nonneg n offset len : 0 <= head_splits n offset len.
Proof.
  revert offset len. induction n; intros o l; simpl;
    destruct (l >? PAGE_SIZE - o); try lia.
  specialize (IHn 0 (u32 (l - u16 (PAGE_SIZE - o)))). lia.
Qed.

Section Chain.
Variables (k i0 g f0 : Z).
Hypothesis Hk : 0 <= k <= 32.
Hypothesis Hg : 0 <= g.

Lemma pkt_idx_pos np j :
  nr_ents (tx np) = 2 ^ k -> 0 <= j ->
  ring_pos (tx np) (pkt_idx i0 g j) = (i0 + (if j =? 0 then 0 else g + j)) mod 2 ^ k.
Proof.
  intros En Hj. rewrite (ring_pos_pow2 _ k) by (done || lia).
  unfold pkt_idx. destruct (Z.eqb_spec j 0).
  - by rewrite Z.add_0_r.
  - rewrite mod_pow2_u32 by done. f_equal. lia.
Qed.

Lemma pkt_idx_distinct np a b :
  nr_ents (tx np) = 2 ^ k -> 0 <= a -> 0 <= b -> a + g < 2 ^ k -> b + g < 2 ^ k ->
  a <> b ->
  Z.to_nat (ring_pos (tx np) (pkt_idx i0 g a))
    <> Z.to_nat (ring_pos (tx np) (pkt_idx i0 g b)).
Proof.
  intros En Ha Hb Hak Hbk Hab E.
  rewrite !pkt_idx_pos in E by done.
  assert (0 < 2 ^ k) by (apply Z.pow_pos_nonneg; lia).
  apply Z2Nat.inj in E; try (apply Z.mod_pos_bound; lia).
  apply mod_add_inj in E.
  - destruct (Z.eqb_spec a 0), (Z.eqb_spec b 0); lia.
  - destruct (Z.eqb_spec a 0); lia.
  - destruct (Z.eqb_spec b 0); lia.
Qed.

(** One more request: the request [tx] points at gets the more-data bit,
    and a fresh request goes into the slot at [prod]. *)
Lemma tx_chain_step skb mfn off size f j np np1 np2 :
  nr_ents (tx np) = 2 ^ k -> 1 <= j -> j + g < 2 ^ k ->
  (forall q, txreq_flags (f q) = Z.lor (txreq_flags q) XEN_NETTXF_more_data) ->
  tx_chain i0 g f0 j np ->
  tx_modify f (pkt_idx i0 g (j - 1)) np = Done np1 ->
  make_frag_request skb mfn off size (u32 (i0 + g + j)) np1 = Done np2 ->
  tx_chain i0 g f0 (j + 1) np2 /\ tx_kept np np2.
Proof.
  intros En Hj Hjk Hf Hchain Emod Ereq.
  apply tx_modify_wrote in Emod as (q1 & Hq1 & W1).
  apply make_frag_request_wrote in Ereq as (q2 & Hq2 & Hsome & W2).
  pose proof (tx_wrote_kept _ _ _ W1) as K1.
  pose proof (tx_wrote_kept _ _ _ W2) as K2.
  split; [|by eapply tx_kept_trans].
  destruct W1 as (_ & _ & Hh1 & _ & Hr1 & _). destruct W2 as (_ & _ & Hh2 & _ & Hr2 & _).
  assert (Epos : forall idx, ring_pos (tx np2) idx = ring_pos (tx np) idx).
  { intros idx. rewrite (tx_hdr_ring_pos _ _ _ Hh2). by apply tx_hdr_ring_pos. }
  rewrite (tx_hdr_ring_pos _ _ _ Hh1) in Hr2, Hsome.
  assert (Eprod : u32 (i0 + g + j) = pkt_idx i0 g j).
  { unfold pkt_idx. destruct (Z.eqb_spec j 0); [lia | done]. }
  rewrite Eprod in Hr2, Hsome.
  intros j' Hj'. unfold tx_req_at. rewrite Epos, Hr2, Hr1.
  destruct (Z.eq_dec j' j) as [->|Hne].
  - exists q2. split.
    + apply list_lookup_insert_eq. rewrite Hr1 in Hsome.
      by apply lookup_lt_is_Some.
    + rewrite Hq2. unfold pkt_flags.
      destruct (Z.eqb_spec j 0); [lia|].
      destruct (Z.ltb_spec j (j + 1 - 1)); [lia | reflexivity].
  - rewrite list_lookup_insert_ne
      by (apply pkt_idx_distinct; (done || lia)).
    destruct (Z.eq_dec j' (j - 1)) as [->|Hne'].
    + exists (f q1). split.
      * apply list_lookup_insert_eq. by eapply lookup_lt_Some.
      * rewrite Hf. destruct (Hchain (j - 1)) as (q & Hq & Hfl); [lia|].
        unfold tx_req_at in Hq. rewrite Hq in Hq1. inversion Hq1; subst.
        rewrite Hfl. unfold pkt_flags.
        destruct (Z.ltb_spec (j - 1) (j - 1)); [lia|].
        destruct (Z.ltb_spec (j - 1) (j + 1 - 1)); [|lia].
        by rewrite Z.lor_0_r.
    + rewrite list_lookup_insert_ne
        by (apply pkt_idx_distinct; (done || lia)).
      destruct (Hchain j') as (q & Hq & Hfl); [lia|].
      exists q. split; [exact Hq|]. rewrite Hfl. f_equal.
      destruct (Z.ltb_spec j' (j - 1)), (Z.ltb_spec j' (j + 1 - 1)); (done || lia).
Qed.

Lemma make_frags_pages_chain skb frags :
  forall j txi prod np np' txi' prod',
    nr_ents (tx np) = 2 ^ k -> 1 <= j -> j + Z.of_nat (length frags) + g <= 2 ^ k ->
    txi = pkt_idx i0 g (j - 1) -> prod = u32 (i0 + g + j) ->
    tx_chain i0 g f0 j np ->
    make_frags_pages frags skb txi prod np = Done (np', txi', prod') ->
    tx_chain i0 g f0 (j + Z.of_nat (length frags)) np' /\ tx_kept np np' /\
    txi' = pkt_idx i0 g (j + Z.of_nat (length frags) - 1) /\
    prod' = u32 (i0 + g + j + Z.of_nat (length frags)).
Proof.
  induction frags as [|frag rest IH]; intros j txi prod np np' txi' prod'
    En Hj Hfit -> -> Hchain E; simpl in E.
  - inversion E; subst. cbn [length Z.of_nat]. rewrite !Z.add_0_r.
    split; [exact Hchain|]. split; [apply tx_kept_refl|]. done.
  - kinv E as np1 Emod. kinv E as np2 Ereq.
    cbn [length] in *. rewrite Nat2Z.inj_succ in *.
    destruct (tx_chain_step skb _ _ _ (or_flags XEN_NETTXF_more_data)
                j np np1 np2 En Hj ltac:(lia)
                (fun q => eq_refl) Hchain Emod Ereq) as [Hchain2 K2].
    assert (En2 : nr_ents (tx np2) = 2 ^ k).
    { destruct K2 as (_ & _ & Kh & _). by rewrite (tx_hdr_nr_ents _ _ Kh). }
    assert (Etxi : u32 (i0 + g + j) = pkt_idx i0 g (j + 1 - 1)).
    { unfold pkt_idx. destruct (Z.eqb_spec (j + 1 - 1) 0); [lia|]. f_equal. lia. }
    rewrite u32_succ in E.
    replace (u32 (i0 + g + j + 1)) with (u32 (i0 + g + (j + 1))) in E by (f_equal; lia).
    destruct (IH (j + 1) _ _ np2 np' txi' prod' En2 ltac:(lia) ltac:(lia)
                Etxi eq_refl Hchain2 E) as (Hc & K & -> & ->).
    replace (j + 1 + Z.of_nat (length rest))
      with (j + Z.succ (Z.of_nat (length rest))) in * by lia.
    split; [exact Hc|]. split; [by eapply tx_kept_trans|].
    split; f_equal; lia.
Qed.


Lemma make_frags_head_chain skb n :
  forall j txi prod data offset len np np' txi' prod',
    nr_ents (tx np) = 2 ^ k -> 1 <= j ->
    j + head_splits n offset len + g <= 2 ^ k ->
    txi = pkt_idx i0 g (j - 1) -> prod = u32 (i0 + g + j) ->
    tx_chain i0 g f0 j np ->
    make_frags_head n skb txi prod data offset len np = Done (np', txi', prod') ->
    tx_chain i0 g f0 (j + head_splits n offset len) np' /\ tx_kept np np' /\
    txi' = pkt_idx i0 g (j + head_splits n offset len - 1) /\
    prod' = u32 (i0 + g + j + head_splits n offset len).
Proof.
  induction n as [|n IH]; intros j txi prod data offset len np np' txi' prod'
    En Hj Hfit -> -> Hchain E; simpl in E, Hfit |- *;
    destruct (len >? PAGE_SIZE - offset); try discriminate.
  1,3: inversion E; subst; rewrite !Z.add_0_r;
       (split; [exact Hchain|]); (split; [apply tx_kept_refl|]); done.
  kinv E as np1 Emod. kinv E as np2 Ereq.
  pose proof (head_splits_nonneg n 0 (u32 (len - u16 (PAGE_SIZE - offset)))).
  remember (head_splits n 0 (u32 (len - u16 (PAGE_SIZE - offset)))) as hs eqn:Ehs.
  destruct (tx_chain_step skb _ _ _
              (fun q => or_flags XEN_NETTXF_more_data
                          (with_size (u16 (PAGE_SIZE - offset)) q))
              j np np1 np2 En Hj ltac:(lia)
              (fun q => eq_refl) Hchain Emod Ereq) as [Hchain2 K2].
  assert (En2 : nr_ents (tx np2) = 2 ^ k).
  { destruct K2 as (_ & _ & Kh & _). by rewrite (tx_hdr_nr_ents _ _ Kh). }
  assert (Etxi : u32 (i0 + g + j) = pkt_idx i0 g (j + 1 - 1)).
  { unfold pkt_idx. destruct (Z.eqb_spec (j + 1 - 1) 0); [lia|]. f_equal. lia. }
  rewrite u32_succ in E.
  replace (u32 (i0 + g + j + 1)) with (u32 (i0 + g + (j + 1))) in E by (f_equal; lia).
  destruct (IH (j + 1) _ _ _ _ _ np2 np' txi' prod' En2 ltac:(lia)
              ltac:(rewrite <- Ehs; lia)
              Etxi eq_refl Hchain2 E) as (Hc & K & -> & ->).
  rewrite <- Ehs in *.
  replace (j + 1 + hs) with (j + (1 + hs)) in * by lia.
  split; [exact Hc|]. split; [by eapply tx_kept_trans|].
  split; f_equal; lia.
Qed.

(** A write through [tx] that keeps the flags keeps the chain. *)
Lemma tx_chain_modify f txi j np np' :
  (forall q, txreq_flags (f q) = txreq_flags q) ->
  tx_chain i0 g f0 j np ->
  tx_modify f txi np = Done np' ->
  tx_chain i0 g f0 j np' /\ tx_kept np np'.
Proof.
  intros Hf Hchain E. apply tx_modify_wrote in E as (q1 & Hq1 & W).
  split; [|by eapply tx_wrote_kept].
  destruct W as (_ & _ & Hh & _ & Hr & _).
  intros j' Hj'. destruct (Hchain j' Hj') as (q & Hq & Hfl).
  unfold tx_req_at in *. rewrite (tx_hdr_ring_pos _ _ _ Hh), Hr.
  destruct (decide (Z.to_nat (ring_pos (tx np) txi)
                    = Z.to_nat (ring_pos (tx np) (pkt_idx i0 g j')))) as [Ep|Ep].
  - rewrite <- Ep in *. exists (f q1). split.
    + apply list_lookup_insert_eq. by eapply lookup_lt_Some.
    + rewrite Hf. congruence.
  - exists q. by rewrite list_lookup_insert_ne.
Qed.

End Chain.

(** The loop splits the head once per page boundary it crosses. *)
Lemma head_splits_count n offset len :
  0 < PAGE_SIZE < 2 ^ 16 -> 0 <= offset < PAGE_SIZE -> 0 <= len < 2 ^ 32 ->
  (Z.to_nat len <= n)%nat ->
  head_splits n offset len
    = Z.max 1 (DIV_ROUND_UP (offset + len) PAGE_SIZE) - 1.
Proof.
  intros HP. revert offset len.
  induction n as [|n IH]; intros offset len Ho Hl Hn; simpl;
    destruct (Z.gtb_spec len (PAGE_SIZE - offset)) as [Hgt|Hle].
  - lia.
  - unfold DIV_ROUND_UP.
    assert ((offset + len + PAGE_SIZE - 1) / PAGE_SIZE <= 1).
    { apply Z.lt_succ_r. apply Z.div_lt_upper_bound; lia. }
    lia.
  - rewrite (u16_small (PAGE_SIZE - offset)) by lia.
    rewrite (u32_small (len - (PAGE_SIZE - offset))) by lia.
    rewrite IH by lia. unfold DIV_ROUND_UP.
    replace (offset + len + PAGE_SIZE - 1)
      with (0 + (len - (PAGE_SIZE - offset)) + PAGE_SIZE - 1 + 1 * PAGE_SIZE) by lia.
    rewrite Z.div_add by lia.
    assert (1 <= (0 + (len - (PAGE_SIZE - offset)) + PAGE_SIZE - 1) / PAGE_SIZE).
    { apply Z.div_le_lower_bound; lia. }
    lia.
  - unfold DIV_ROUND_UP.
    assert ((offset + len + PAGE_SIZE - 1) / PAGE_SIZE <= 1).
    { apply Z.lt_succ_r. apply Z.div_lt_upper_bound; lia. }
    lia.
Qed.

Lemma tx_chain_ext i0 g f0 j np np' :
  tx_reqs np' = tx_reqs np -> nr_ents (tx np') = nr_ents (tx np) ->
  tx_chain i0 g f0 j np -> tx_chain i0 g f0 j np'.
Proof.
  intros Er En Hc j' Hj'. destruct (Hc j' Hj') as (q & Hq & Hfl).
  exists q. split; [|done]. unfold tx_req_at, ring_pos in *. by rewrite Er, En.
Qed.

Lemma xennet_make_frags_chain k i0 skb np np' :
  0 <= k <= 32 -> nr_ents (tx np) = 2 ^ k ->
  xmit_requests skb + xmit_g skb <= 2 ^ k ->
  req_prod_pvt (tx np) = u32 (i0 + xmit_g skb + 1) ->
  tx_chain i0 (xmit_g skb) (xmit_f0 skb) 1 np ->
  xennet_make_frags skb i0 np = Done np' ->
  tx_chain i0 (xmit_g skb) (xmit_f0 skb) (xmit_requests skb) np' /\
  tx_kept np np' /\
  req_prod_pvt (tx np') = u32 (i0 + xmit_g skb + xmit_requests skb).
Proof.
  intros Hk En Hfit Eprod Hchain E. unfold xennet_make_frags in E.
  assert (Hg : 0 <= xmit_g skb) by (unfold xmit_g; destruct (_ =? _); lia).
  pose proof (head_splits_nonneg (Z.to_nat (skb_headlen skb))
                (offset_in_page (skb_data skb)) (skb_headlen skb)) as Hhs.
  unfold xmit_requests, nr_frags in *.
  apply kbind_Done in E as ([[np1 txi1] prod1] & Ehead & E). cbn beta iota in E.
  apply kbind_Done in E as ([[np2 txi2] prod2] & Epages & E). cbn beta iota in E.
  inversion E; subst; clear E.
  assert (Hfit1 : 1 + head_splits (Z.to_nat (skb_headlen skb))
                         (offset_in_page (skb_data skb)) (skb_headlen skb)
                   + xmit_g skb <= 2 ^ k).
  { revert Hfit Hhs. generalize (head_splits (Z.to_nat (skb_headlen skb))
                         (offset_in_page (skb_data skb)) (skb_headlen skb)).
    intros. lia. }
  assert (Hj1 : 1 <= 1 + head_splits (Z.to_nat (skb_headlen skb))
                         (offset_in_page (skb_data skb)) (skb_headlen skb)).
  { revert Hhs. generalize (head_splits (Z.to_nat (skb_headlen skb))
                         (offset_in_page (skb_data skb)) (skb_headlen skb)).
    intros. lia. }
  assert (Etxi : i0 = pkt_idx i0 (xmit_g skb) (1 - 1)) by reflexivity.
  assert (Eprod' : req_prod_pvt (tx np) = u32 (i0 + xmit_g skb + 1)) by exact Eprod.
  destruct (make_frags_head_chain k i0 (xmit_g skb) (xmit_f0 skb) Hk Hg skb
              (Z.to_nat (skb_headlen skb)) 1 i0 (req_prod_pvt (tx np))
              (skb_data skb) (offset_in_page (skb_data skb)) (skb_headlen skb)
              np np1 txi1 prod1
              En ltac:(lia) Hfit1 Etxi Eprod' Hchain Ehead)
    as (Hc1 & K1 & -> & ->).
  assert (En1 : nr_ents (tx np1) = 2 ^ k).
  { destruct K1 as (_ & _ & Kh & _). by rewrite (tx_hdr_nr_ents _ _ Kh). }
  rewrite <- Z.add_assoc in Epages.
  destruct (make_frags_pages_chain k i0 (xmit_g skb) (xmit_f0 skb) Hk Hg skb (skb_frags skb)
              (1 + head_splits (Z.to_nat (skb_headlen skb))
                     (offset_in_page (skb_data skb)) (skb_headlen skb))
              _ _ np1 np2 txi2 prod2
              En1 Hj1 Hfit eq_refl eq_refl Hc1 Epages)
    as (Hc2 & K2 & -> & ->).
  split; [|split].
  - eapply tx_chain_ext; [| |exact Hc2]; reflexivity.
  - eapply tx_kept_trans; [exact K1|]. eapply tx_kept_trans; [exact K2|].
    by repeat split.
  - cbn. f_equal. lia.
Qed.

(** What [xmit_submit] leaves on the ring. *)
Lemma xmit_first_request skb np id ref np2 r :
  tx np2 = tx np -> netdev np2 = netdev np -> stats np2 = stats np ->
  RING_PUT_REQUEST (tx np2) (req_prod_pvt (tx np))
    (mk_tx_request ref (u16 (offset_in_page (skb_data skb)))
       (Z.lor 0 (xmit_csum_flags skb)) id (u16 (skb_headlen skb))) = Done r ->
  exists q0, txreq_flags q0 = Z.lor 0 (xmit_csum_flags skb) /\
    tx_req_at (set_tx r np2) (req_prod_pvt (tx np)) = Some q0 /\
    tx_kept np (set_tx r np2).
Proof.
  intros Etx Edev Est Eput. rewrite Etx in Eput.
  apply tx_put_request_wrote in Eput as [W Hsome].
  eexists. split; [|split].
  2:{ unfold tx_req_at. destruct W as (_ & _ & Hh & _ & Hr & _).
      unfold tx_hdr, tx_reqs in *. cbn in *. inversion Hh.
      unfold ring_pos in *. rewrite H3, Hr.
      apply list_lookup_insert_eq. by apply lookup_lt_is_Some. }
  - reflexivity.
  - destruct W as (W1 & W2 & W3 & Wr & W4 & W5).
    unfold tx_kept, tx_hdr, tx_reqs, tx_extras, tx_rsps in *. cbn in *.
    repeat split; congruence.
Qed.

Lemma xmit_gso_slot skb i0 q0 npa npb i :
  tx_req_at npa i0 = Some q0 ->
  txreq_flags q0 = Z.lor 0 (xmit_csum_flags skb) ->
  (if negb (skb_gso_size skb =? 0) then
     let i := u32 (i0 + 1) in
     np ← tx_modify (or_flags XEN_NETTXF_extra_info) i0 npa;
     r ← RING_PUT_EXTRA (tx np) i
           (mk_extra_info XEN_NETIF_EXTRA_TYPE_GSO 0 (u16 (skb_gso_size skb))
              XEN_NETIF_GSO_TYPE_TCPV4 0 0);
     Done (set_tx r np, i)
   else Done (npa, i0)) = Done (npb, i) ->
  tx_chain i0 (xmit_g skb) (xmit_f0 skb) 1 npb /\ tx_kept_but_extras npa npb /\
  u32 (i + 1) = u32 (i0 + xmit_g skb + 1) /\
  (xmit_g skb = 0 -> tx_extras npb = tx_extras npa) /\
  (xmit_g skb = 1 ->
   tx_extra_at npb (u32 (i0 + 1))
     = Some (mk_extra_info XEN_NETIF_EXTRA_TYPE_GSO 0 (u16 (skb_gso_size skb))
               XEN_NETIF_GSO_TYPE_TCPV4 0 0)).
Proof.
  intros Hq0 Hfl E. unfold xmit_g, xmit_f0.
  destruct (skb_gso_size skb =? 0); cbn [negb] in E.
  - inversion E; subst. split; [|repeat split; (done || (f_equal; lia))].
    intros j' Hj'. assert (j' = 0) as -> by lia.
    exists q0. split; [exact Hq0|]. unfold pkt_flags. cbn.
    by rewrite Z.lor_0_r.
  - cbn zeta in E. kinv E as npm Emod. kinv E as r' Eput.
    inversion E; subst; clear E.
    apply tx_modify_wrote in Emod as (q1 & Hq1 & M).
    unfold tx_req_at in Hq0. rewrite Hq0 in Hq1. inversion Hq1; subst q1.
    apply tx_put_extra_wrote in Eput as [X Hsome].
    split; [|split; [|split; [|split]]].
    + intros j' Hj'. assert (j' = 0) as -> by lia.
      exists (or_flags XEN_NETTXF_extra_info q0). split.
      * rewrite (tx_wrote_req_at _ _ _ _ _ X).
        change (tx_reqs npm !! Z.to_nat (ring_pos (tx npm) (pkt_idx i0 1 0)))
          with (tx_req_at npm i0).
        rewrite (tx_wrote_req_at _ _ _ _ _ M).
        apply list_lookup_insert_eq. by eapply lookup_lt_Some.
      * unfold pkt_flags. cbn. rewrite Hfl. by rewrite Z.lor_0_r.
    + destruct M as (M1 & M2 & M3 & M4 & _). destruct X as (X1 & X2 & X3 & X4 & _).
      unfold tx_kept_but_extras. repeat split; congruence.
    + apply u32_succ.
    + discriminate.
    + intros _. rewrite (tx_wrote_extra_at _ _ _ _ _ X).
      apply list_lookup_insert_eq. by apply lookup_lt_is_Some.
Qed.

Lemma xmit_publish_kept skb np :
  tx_reqs (xmit_publish skb np) = tx_reqs np /\
  tx_extras (xmit_publish skb np) = tx_extras np /\
  nr_ents (tx (xmit_publish skb np)) = nr_ents (tx np) /\
  req_prod_pvt (tx (xmit_publish skb np)) = req_prod_pvt (tx np) /\
  netdev (xmit_publish skb np) = netdev np /\
  tx_packets (stats (xmit_publish skb np)) = tx_packets (stats np) + 1.
Proof.
  unfold xmit_publish, RING_PUSH_REQUESTS_AND_CHECK_NOTIFY.
  destruct (u32 (req_prod_pvt (tx np) - sring_req_event (tx np))
            <? u32 (req_prod_pvt (tx np) - sring_req_prod (tx np))); done.
Qed.

Lemma xmit_submit_chain k skb np np' :
  0 <= k <= 32 -> nr_ents (tx np) = 2 ^ k ->
  xmit_requests skb + xmit_g skb <= 2 ^ k ->
  xmit_submit skb np = Done np' ->
  let i0 := req_prod_pvt (tx np) in
  tx_chain i0 (xmit_g skb) (xmit_f0 skb) (xmit_requests skb) np' /\
  req_prod_pvt (tx np') = u32 (i0 + xmit_g skb + xmit_requests skb) /\
  nr_ents (tx np') = nr_ents (tx np) /\
  netdev np' = netdev np /\
  tx_packets (stats np') = tx_packets (stats np) + 1 /\
  (xmit_g skb = 0 -> tx_extras np' = tx_extras np) /\
  (xmit_g skb = 1 ->
   tx_extra_at np' (u32 (i0 + 1))
     = Some (mk_extra_info XEN_NETIF_EXTRA_TYPE_GSO 0 (u16 (skb_gso_size skb))
               XEN_NETIF_GSO_TYPE_TCPV4 0 0)).
Proof.
  intros Hk En Hfit E i0. subst i0. unfold xmit_submit in E.
  kinv2 E as id head Eget. kinv E as np1 Eskb.
  apply tx_slot_set_skb_same in Eskb as (Etx1 & Edev1 & Est1).
  cbn in Etx1, Edev1, Est1.
  destruct (gnttab_claim_grant_reference (gref_tx_head np1)) as [ref pool].
  kinv E as u Ebug. kinv E as np2 Egref.
  apply tx_slot_set_gref_same in Egref as (Etx2 & Edev2 & Est2).
  cbn in Etx2, Edev2, Est2.
  kinv E as r Eput.
  apply (xmit_first_request skb np) in Eput
    as (q0 & Hfl0 & Hq0 & Ka); [|congruence..].
  apply kbind_Done_pair in E as (npb & i & Egso & E). cbn beta iota in E.
  apply (xmit_gso_slot skb _ q0) in Egso
    as (Hc1 & Kb & Ei & Hx0 & Hx1); [|done..].
  kinv E as npd Efrags. kinv E as npe Esize. inversion E; subst np'; clear E.
  set (npc := set_tx _ npb) in Efrags.
  assert (Enc : nr_ents (tx npc) = 2 ^ k).
  { destruct Ka as (_ & _ & Ha & _), Kb as (_ & _ & Hb & _).
    subst npc. cbn. rewrite (tx_hdr_nr_ents _ _ Hb), (tx_hdr_nr_ents _ _ Ha). done. }
  apply (xennet_make_frags_chain k) in Efrags as (Hcd & Kd & Ed);
    [|done|done|done|subst npc; cbn; exact Ei|
     by eapply tx_chain_ext; [| |exact Hc1]].
  pose proof (tx_modify_req_prod _ _ _ _ Esize) as Ee.
  destruct (tx_chain_modify _ _ _ (with_size (skb_len skb)) _ _ _ _
              (fun q => eq_refl) Hcd Esize)
    as (Hce & Ke).
  destruct (xmit_publish_kept skb npe) as (P1 & P2 & P3 & P4 & P5 & P6).
  destruct Ka as (Ka1 & Ka2 & Ka3 & Kar & Ka4), Kb as (Kb1 & Kb2 & Kb3 & Kbr),
    Kd as (Kd1 & Kd2 & Kd3 & Kdr & Kd4), Ke as (Ke1 & Ke2 & Ke3 & Ker & Ke4).
  assert (Ehe : tx_hdr npe = tx_hdr np).
  { rewrite Ke3, Kd3. subst npc. unfold tx_hdr in *. cbn. congruence. }
  assert (Ext : tx_extras npe = tx_extras npb).
  { rewrite Ke4, Kd4. reflexivity. }
  split; [by eapply tx_chain_ext; [| |exact Hce]|].
  split; [congruence|].
  split; [rewrite P3; by apply tx_hdr_nr_ents|].
  split; [rewrite P5, Ke1, Kd1; subst npc; cbn; congruence|].
  split; [rewrite P6, Ke2, Kd2; subst npc; cbn; congruence|].
  split.
  - intros Hg0. rewrite P2, Ext, (Hx0 Hg0). exact Ka4.
  - intros Hg1. rewrite <- (Hx1 Hg1). unfold tx_extra_at, ring_pos.
    rewrite P2, P3, Ext. f_equal. f_equal.
    rewrite (tx_hdr_nr_ents _ _ Ehe), (tx_hdr_nr_ents _ _ Kb3).
    by rewrite (tx_hdr_nr_ents _ _ Ka3).
Qed.

End TxSubmit.

(** ** Transmit: the submit operation *)

Section TxTheorems.
Context `{Config} `{Kernel}.

Lemma xmit_g_cases skb : xmit_g skb = 0 \/ xmit_g skb = 1.
Proof. unfold xmit_g. destruct (skb_gso_size skb =? 0); auto. Qed.

(** The flags of the first request never carry the more-data bit before
    [xennet_make_frags] sets it. *)
Lemma pkt_flags_more skb j more :
  has_flag (pkt_flags (xmit_f0 skb) j more) XEN_NETTXF_more_data = more.
Proof.
  unfold pkt_flags, xmit_f0, xmit_csum_flags.
  destruct (j =? 0), more, (skb_gso_size skb =? 0),
    (skb_ip_summed skb =? CHECKSUM_PARTIAL),
    (skb_ip_summed skb =? CHECKSUM_UNNECESSARY); reflexivity.
Qed.

Lemma pkt_flags_csum skb more :
  has_flag (pkt_flags (xmit_f0 skb) 0 more) XEN_NETTXF_csum_blank
    = (skb_ip_summed skb =? CHECKSUM_PARTIAL) /\
  has_flag (pkt_flags (xmit_f0 skb) 0 more) XEN_NETTXF_data_validated
    = (skb_ip_summed skb =? CHECKSUM_PARTIAL)
      || (skb_ip_summed skb =? CHECKSUM_UNNECESSARY).
Proof.
  unfold pkt_flags, xmit_f0, xmit_csum_flags.
  destruct more, (skb_gso_size skb =? 0),
    (skb_ip_summed skb =? CHECKSUM_PARTIAL),
    (skb_ip_summed skb =? CHECKSUM_UNNECESSARY); split; reflexivity.
Qed.

Lemma DIV_ROUND_UP_nonneg n d : 0 < d -> 0 <= n -> 0 <= DIV_ROUND_UP n d.
Proof. intros. unfold DIV_ROUND_UP. apply Z.div_pos; lia. Qed.

(** The number of requests of a packet, from the page boundaries its head
    crosses and its fragments. *)
Lemma xmit_requests_count skb :
  0 < PAGE_SIZE < 2 ^ 16 -> 0 <= skb_data skb -> 0 <= skb_headlen skb < 2 ^ 32 ->
  xmit_requests skb
    = Z.max 1 (DIV_ROUND_UP (offset_in_page (skb_data skb) + skb_headlen skb) PAGE_SIZE)
      + nr_frags skb.
Proof.
  intros HP Hd Hl. unfold xmit_requests.
  rewrite head_splits_count; [lia|done| |done|lia].
  apply offset_in_page_range; lia.
Qed.

(** An accepted packet fits a ring of [MAX_SKB_FRAGS + 3] slots. *)
Lemma xmit_accepted_fits skb np :
  0 < PAGE_SIZE < 2 ^ 16 -> 0 <= skb_data skb -> 0 <= skb_headlen skb < 2 ^ 32 ->
  xmit_must_drop skb np = false ->
  xmit_requests skb + xmit_g skb <= MAX_SKB_FRAGS + 3.
Proof.
  intros HP Hd Hl Hdrop. rewrite xmit_requests_count by done.
  unfold xmit_must_drop in Hdrop. apply orb_false_iff in Hdrop as [Hfr _].
  unfold xmit_frags in Hfr.
  pose proof (offset_in_page_range (skb_data skb) (proj1 HP) Hd) as Ho.
  assert (Hsum : 0 <= offset_in_page (skb_data skb) + skb_headlen skb) by lia.
  pose proof (DIV_ROUND_UP_nonneg _ PAGE_SIZE (proj1 HP) Hsum).
  destruct (xmit_g_cases skb); destruct (Z.gtb_spec
    (nr_frags skb + DIV_ROUND_UP (offset_in_page (skb_data skb) + skb_headlen skb) PAGE_SIZE)
    (MAX_SKB_FRAGS + 1)); try discriminate; lia.
Qed.

(** The collection pass leaves the requests on the ring alone. *)
Lemma xennet_tx_buf_gc_kept np np' :
  xennet_tx_buf_gc np = Done np' ->
  tx_reqs np' = tx_reqs np /\ tx_extras np' = tx_extras np /\
  nr_ents (tx np') = nr_ents (tx np) /\
  req_prod_pvt (tx np') = req_prod_pvt (tx np) /\
  stats np' = stats np /\
  tx_dropped (netdev np') = tx_dropped (netdev np).
Proof.
  unfold xennet_tx_buf_gc. intros Egc. kinv Egc as u Ebug. kinv Egc as np3 Eloop.
  inversion Egc; subst np'; clear Egc.
  simpl in Eloop. kinv2 Eloop as np4 again Epass.
  pose proof (tx_buf_gc_pass_once _ _ _ Epass) as ->.
  inversion Eloop; subst np4; clear Eloop.
  unfold tx_buf_gc_pass in Epass. kinv Epass as np5 Escan.
  inversion Epass; subst np3; clear Epass.
  apply tx_buf_gc_scan_frame in Escan as (Etx & Edev & Est & _).
  unfold xennet_maybe_wake_tx, tx_reqs, tx_extras.
  destruct (_ && _ && _); cbn; rewrite Etx; repeat split; congruence.
Qed.

(** The run of an accepted packet: [xmit_submit], then the collection. *)
Lemma xennet_start_xmit_accepted skb np np' rc :
  xmit_must_drop skb np = false ->
  xennet_start_xmit skb np = Done (np', rc) ->
  rc = NETDEV_TX_OK /\
  exists np1, xmit_submit skb np = Done np1 /\
    tx_reqs np' = tx_reqs np1 /\ tx_extras np' = tx_extras np1 /\
    nr_ents (tx np') = nr_ents (tx np1) /\
    req_prod_pvt (tx np') = req_prod_pvt (tx np1) /\
    stats np' = stats np1 /\
    tx_dropped (netdev np') = tx_dropped (netdev np1).
Proof.
  unfold xmit_must_drop, xennet_start_xmit. intros Hdrop E.
  apply orb_false_iff in Hdrop as [Ha Hb]. cbv zeta in E. rewrite Ha, Hb in E.
  kinv E as np1 Esub. kinv E as np2 Egc. inversion E; subst; clear E.
  split; [done|]. exists np1. split; [done|].
  apply xennet_tx_buf_gc_kept in Egc.
  destruct (negb (netfront_tx_slot_available np2)); exact Egc.
Qed.


(** The ring after an accepted packet, from [xmit_submit_chain]. *)
Lemma xmit_accepted_chain k skb np np' rc :
  0 < PAGE_SIZE < 2 ^ 16 -> 0 <= skb_data skb -> 0 <= skb_headlen skb < 2 ^ 32 ->
  0 <= k <= 32 -> nr_ents (tx np) = 2 ^ k -> MAX_SKB_FRAGS + 3 <= 2 ^ k ->
  xmit_must_drop skb np = false ->
  xennet_start_xmit skb np = Done (np', rc) ->
  let i0 := req_prod_pvt (tx np) in
  tx_chain i0 (xmit_g skb) (xmit_f0 skb) (xmit_requests skb) np' /\
  req_prod_pvt (tx np') = u32 (i0 + xmit_g skb + xmit_requests skb) /\
  (xmit_g skb = 0 -> tx_extras np' = tx_extras np) /\
  (xmit_g skb = 1 ->
   tx_extra_at np' (u32 (i0 + 1))
     = Some (mk_extra_info XEN_NETIF_EXTRA_TYPE_GSO 0 (u16 (skb_gso_size skb))
               XEN_NETIF_GSO_TYPE_TCPV4 0 0)).
Proof.
  intros HP Hd Hl Hk En Hring Hdrop E i0. subst i0.
  pose proof (xmit_accepted_fits skb np HP Hd Hl Hdrop) as Hfit.
  apply xennet_start_xmit_accepted in E as (_ & np1 & Esub & Er & Ex & Ee & Ep & _);
    [|done].
  apply (xmit_submit_chain k) in Esub as (Hc & Hp & Hn & _ & _ & Hx0 & Hx1);
    [|done|done|lia].
  split; [by eapply tx_chain_ext; [| |exact Hc]|].
  split; [congruence|]. split.
  - intros Hg. rewrite Ex. by apply Hx0.
  - intros Hg. rewrite <- (Hx1 Hg). unfold tx_extra_at, ring_pos.
    by rewrite Ex, Ee, Hn.
Qed.

(** C4 (as amended). An accepted packet puts on the ring one request for
    every page-spanning chunk of its head, and at least one for the head,
    and one for every fragment, plus one extra-info slot right after the
    first request if it uses segmentation offload; the more-data flag is
    set on every request of the packet except the last.  The number of
    requests is the fragment count the submit path computes whenever the
    head is not both empty and page-aligned. *)
Theorem xmit_descriptors k skb np np' rc :
  0 < PAGE_SIZE < 2 ^ 16 -> 0 <= skb_data skb -> 0 <= skb_headlen skb < 2 ^ 32 ->
  0 <= k <= 32 -> nr_ents (tx np) = 2 ^ k -> MAX_SKB_FRAGS + 3 <= 2 ^ k ->
  xmit_must_drop skb np = false ->
  xennet_start_xmit skb np = Done (np', rc) ->
  let i0 := req_prod_pvt (tx np) in
  let g := xmit_g skb in
  let head := offset_in_page (skb_data skb) + skb_headlen skb in
  let m := Z.max 1 (DIV_ROUND_UP head PAGE_SIZE) + nr_frags skb in
  req_prod_pvt (tx np') = u32 (i0 + m + g) /\
  (forall j, 0 <= j < m ->
     exists q, tx_req_at np' (pkt_idx i0 g j) = Some q /\
       has_flag (txreq_flags q) XEN_NETTXF_more_data = (j <? m - 1)) /\
  (skb_gso_size skb <> 0 ->
   g = 1 /\
   tx_extra_at np' (u32 (i0 + 1))
     = Some (mk_extra_info XEN_NETIF_EXTRA_TYPE_GSO 0 (u16 (skb_gso_size skb))
               XEN_NETIF_GSO_TYPE_TCPV4 0 0)) /\
  (skb_gso_size skb = 0 -> g = 0 /\ tx_extras np' = tx_extras np) /\
  (0 < head -> m = xmit_frags skb).
Proof.
  intros HP Hd Hl Hk En Hring Hdrop E i0 g head m.
  destruct (xmit_accepted_chain k skb np np' rc HP Hd Hl Hk En Hring Hdrop E)
    as (Hc & Hp & Hx0 & Hx1).
  fold i0 in Hc, Hp, Hx1. fold g in Hc, Hp.
  assert (Em : xmit_requests skb = m) by (by apply xmit_requests_count).
  rewrite Em in Hc, Hp.
  split; [rewrite Hp; f_equal; lia|]. split; [|split; [|split]].
  - intros j Hj. destruct (Hc j Hj) as (q & Hq & Hfl). exists q.
    split; [exact Hq|]. rewrite Hfl. apply pkt_flags_more.
  - intros Hgso. assert (Hg : xmit_g skb = 1).
    { unfold xmit_g. destruct (Z.eqb_spec (skb_gso_size skb) 0); done. }
    split; [exact Hg|]. by apply Hx1.
  - intros Hgso. assert (Hg : xmit_g skb = 0).
    { unfold xmit_g. destruct (Z.eqb_spec (skb_gso_size skb) 0); done. }
    split; [exact Hg|]. by apply Hx0.
  - intros Hhead. subst m. unfold xmit_frags. fold head.
    assert (1 <= DIV_ROUND_UP head PAGE_SIZE).
    { unfold DIV_ROUND_UP. apply Z.div_le_lower_bound; lia. }
    lia.
Qed.

(** C8 (as amended). On the first request of a submitted packet the
    checksum-blank flag is set exactly when the packet is
    checksum-partial, and the data-validated flag exactly when it is
    checksum-partial or checksum-unnecessary; a packet in neither state
    carries neither flag. *)
Theorem xmit_checksum_flags k skb np np' rc :
  0 < PAGE_SIZE < 2 ^ 16 -> 0 <= skb_data skb -> 0 <= skb_headlen skb < 2 ^ 32 ->
  0 <= k <= 32 -> nr_ents (tx np) = 2 ^ k -> MAX_SKB_FRAGS + 3 <= 2 ^ k ->
  xmit_must_drop skb np = false ->
  xennet_start_xmit skb np = Done (np', rc) ->
  exists q, tx_req_at np' (req_prod_pvt (tx np)) = Some q /\
    has_flag (txreq_flags q) XEN_NETTXF_csum_blank
      = (skb_ip_summed skb =? CHECKSUM_PARTIAL) /\
    has_flag (txreq_flags q) XEN_NETTXF_data_validated
      = (skb_ip_summed skb =? CHECKSUM_PARTIAL)
        || (skb_ip_summed skb =? CHECKSUM_UNNECESSARY).
Proof.
  intros HP Hd Hl Hk En Hring Hdrop E.
  destruct (xmit_accepted_chain k skb np np' rc HP Hd Hl Hk En Hring Hdrop E)
    as (Hc & _).
  assert (Hm : 0 <= 0 < xmit_requests skb).
  { unfold xmit_requests.
    pose proof (head_splits_nonneg (Z.to_nat (skb_headlen skb))
                  (offset_in_page (skb_data skb)) (skb_headlen skb)) as Hs.
    revert Hs. generalize (head_splits (Z.to_nat (skb_headlen skb))
                  (offset_in_page (skb_data skb)) (skb_headlen skb)).
    unfold nr_frags. intros. lia. }
  destruct (Hc 0 Hm) as (q & Hq & Hfl). exists q.
  split; [exact Hq|]. rewrite Hfl. apply pkt_flags_csum.
Qed.

(** The submit path leaves the device, the responses and the ring
    indices other than the request producers alone, and adds one to the
    packets sent. *)
Lemma tx_kbe_refl np : tx_kept_but_extras np np.
Proof. by repeat split. Qed.

Lemma tx_kbe_trans a b c :
  tx_kept_but_extras a b -> tx_kept_but_extras b c -> tx_kept_but_extras a c.
Proof.
  unfold tx_kept_but_extras. intros (?&?&?&?) (?&?&?&?). repeat split; congruence.
Qed.

Lemma tx_wrote_kbe np np' reqs extras :
  tx_wrote np np' reqs extras -> tx_kept_but_extras np np'.
Proof. unfold tx_wrote, tx_kept_but_extras. intros (?&?&?&?&?&?). by repeat split. Qed.

Lemma tx_kbe_same_tx np np' :
  tx np' = tx np -> netdev np' = netdev np -> stats np' = stats np ->
  tx_kept_but_extras np np'.
Proof.
  intros Et Ed Es. unfold tx_kept_but_extras, tx_hdr, tx_rsps.
  rewrite Et. by repeat split.
Qed.

Lemma tx_kbe_tx_modify f txi np np' :
  tx_modify f txi np = Done np' -> tx_kept_but_extras np np'.
Proof. intros E. apply tx_modify_wrote in E as (q & _ & W). by eapply tx_wrote_kbe. Qed.

Lemma tx_kbe_make_frag_request skb mfn off size prod np np' :
  make_frag_request skb mfn off size prod np = Done np' ->
  tx_kept_but_extras np np'.
Proof.
  intros E. apply make_frag_request_wrote in E as (q & _ & _ & W).
  by eapply tx_wrote_kbe.
Qed.

Lemma tx_kbe_make_frags_head skb n :
  forall txi prod data offset len np np' txi' prod',
    make_frags_head n skb txi prod data offset len np = Done (np', txi', prod') ->
    tx_kept_but_extras np np'.
Proof.
  induction n as [|n IH]; intros txi prod data offset len np np' txi' prod' E;
    simpl in E; destruct (len >? PAGE_SIZE - offset); try discriminate;
    try (inversion E; subst; apply tx_kbe_refl).
  kinv E as np1 Emod. kinv E as np2 Ereq.
  apply tx_kbe_tx_modify in Emod. apply tx_kbe_make_frag_request in Ereq.
  apply IH in E. eauto using tx_kbe_trans.
Qed.

Lemma tx_kbe_make_frags_pages skb frags :
  forall txi prod np np' txi' prod',
    make_frags_pages frags skb txi prod np = Done (np', txi', prod') ->
    tx_kept_but_extras np np'.
Proof.
  induction frags as [|frag rest IH]; intros txi prod np np' txi' prod' E;
    simpl in E; try (inversion E; subst; apply tx_kbe_refl).
  kinv E as np1 Emod. kinv E as np2 Ereq.
  apply tx_kbe_tx_modify in Emod. apply tx_kbe_make_frag_request in Ereq.
  apply IH in E. eauto using tx_kbe_trans.
Qed.

Lemma tx_kbe_xennet_make_frags skb txi np np' :
  xennet_make_frags skb txi np = Done np' -> tx_kept_but_extras np np'.
Proof.
  unfold xennet_make_frags. intros E.
  apply kbind_Done in E as ([[npf txi1] prod1] & Ehead & E). cbn beta iota in E.
  apply kbind_Done in E as ([[npg txi2] prod2] & Epages & E). cbn beta iota in E.
  inversion E; subst np'; clear E.
  apply tx_kbe_make_frags_head in Ehead. apply tx_kbe_make_frags_pages in Epages.
  eapply tx_kbe_trans; [exact Ehead|]. eapply tx_kbe_trans; [exact Epages|].
  by repeat split.
Qed.

(** [xmit_submit] up to the publication of the requests. *)
Lemma xmit_submit_Done skb np np' :
  xmit_submit skb np = Done np' ->
  exists npe, np' = xmit_publish skb npe /\ tx_kept_but_extras np npe.
Proof.
  unfold xmit_submit. intros E.
  kinv2 E as id head Eget. kinv E as np1 Eskb.
  apply tx_slot_set_skb_same in Eskb as (Etx1 & Edev1 & Est1).
  cbn in Etx1, Edev1, Est1.
  destruct (gnttab_claim_grant_reference (gref_tx_head np1)) as [ref pool].
  kinv E as u Ebug. kinv E as np2 Egref.
  apply tx_slot_set_gref_same in Egref as (Etx2 & Edev2 & Est2).
  cbn in Etx2, Edev2, Est2.
  kinv E as r Eput. kinv2 E as npb i Egso.
  assert (Ka : tx_kept_but_extras np (set_tx r np2)).
  { assert (Etx : tx np2 = tx np) by congruence. rewrite Etx in Eput.
    apply tx_put_request_wrote in Eput as [W _]. apply tx_wrote_kbe in W.
    eapply tx_kbe_trans; [exact W|]. unfold tx_kept_but_extras, tx_hdr, tx_rsps.
    cbn. repeat split; congruence. }
  assert (Kb : tx_kept_but_extras (set_tx r np2) npb).
  { destruct (negb (skb_gso_size skb =? 0)).
    - cbn zeta in Egso. kinv Egso as npm Emod. kinv Egso as r' Eput'.
      inversion Egso; subst; clear Egso.
      apply tx_kbe_tx_modify in Emod.
      apply tx_put_extra_wrote in Eput' as [W _]. apply tx_wrote_kbe in W.
      eauto using tx_kbe_trans.
    - inversion Egso; subst. apply tx_kbe_refl. }
  kinv E as npd Efrags. kinv E as npe Esize. inversion E; subst np'; clear E.
  exists npe. split; [done|].
  apply tx_kbe_xennet_make_frags in Efrags. apply tx_kbe_tx_modify in Esize.
  eapply tx_kbe_trans; [exact Ka|]. eapply tx_kbe_trans; [exact Kb|].
  eapply tx_kbe_trans; [|exact Esize]. eapply tx_kbe_trans; [|exact Efrags].
  by repeat split.
Qed.



End TxTheorems.
(** ** The transmit freelist *)

Section Freelist.
Context `{Config} `{Kernel}.

Lemma freelist_chain_head slots head l :
  Z.of_nat (length slots) <= 2 ^ 16 ->
  freelist_chain slots head l -> 0 <= head < 2 ^ 16.
Proof.
  intros Hlen Hc. destruct Hc as [head Hh _|head s l Hpos Hs _ _]; [done|].
  apply lookup_lt_Some in Hs. lia.
Qed.

(** Every id on the freelist names a slot that holds a link. *)
Lemma freelist_chain_links slots head l id :
  freelist_chain slots head l -> id ∈ l ->
  0 <= id /\ exists s, slots !! Z.to_nat id = Some s /\ skb_entry_is_link s = true.
Proof.
  induction 1 as [|head s l Hpos Hs Hl Hc IH]; intros Hin.
  - by apply elem_of_nil in Hin.
  - apply elem_of_cons in Hin as [->|Hin]; eauto.
Qed.

(** A write to a slot that is not on the freelist leaves the freelist as
    it is. *)
Lemma freelist_chain_insert slots head l id s' :
  0 <= id -> id ∉ l ->
  freelist_chain slots head l ->
  freelist_chain (<[Z.to_nat id := s']> slots) head l.
Proof.
  intros Hid Hnin. induction 1 as [head Hh Hlen|head s l Hpos Hs Hl Hc IH].
  - apply freelist_end; [done|]. by rewrite length_insert.
  - apply not_elem_of_cons in Hnin as [Hne Hnin].
    eapply freelist_cons; eauto.
    rewrite list_lookup_insert_ne; [done|]. intros E. apply Z2Nat.inj in E; lia.
Qed.

(** Taking an id: it is the head, its slot holds a link, and the rest of
    the freelist is the freelist from the new head. *)
Lemma get_id_from_freelist_chain slots head l id head' :
  Z.of_nat (length slots) <= 2 ^ 16 ->
  freelist_chain slots head l -> NoDup l ->
  get_id_from_freelist head slots = Done (id, head') ->
  exists s rest, l = id :: rest /\ id = head /\
    slots !! Z.to_nat id = Some s /\ skb_entry_is_link s = true /\
    freelist_chain slots head' rest /\ NoDup rest /\ id ∉ rest.
Proof.
  intros Hlen Hc Hnd E. unfold get_id_from_freelist in E.
  kinv E as s Es. apply slot_at_Done in Es as [Hpos Es]. inversion E; subst; clear E.
  destruct Hc as [head Hh Hge|head s' l Hpos' Hs Hl Hc].
  - apply lookup_lt_Some in Es. lia.
  - rewrite Hs in Es. inversion Es; subst s'.
    assert (Hh : 0 <= head < 2 ^ 16).
    { apply lookup_lt_Some in Hs. lia. }
    pose proof (freelist_chain_head _ _ _ Hlen Hc) as Hn.
    rewrite (u16_small head) by lia.
    rewrite (u32_small (tx_link s)) by lia.
    apply NoDup_cons in Hnd as [Hnin Hnd].
    exists s, l. repeat split; done.
Qed.

(** Giving an id back: it becomes the head, linked to the old one. *)
Lemma add_id_to_freelist_chain slots head l id head' slots' :
  2 ^ 16 <= PAGE_OFFSET ->
  Z.of_nat (length slots) <= 2 ^ 16 ->
  freelist_chain slots head l -> NoDup l -> 0 <= id < 2 ^ 16 -> id ∉ l ->
  add_id_to_freelist head slots id = Done (head', slots') ->
  head' = id /\ length slots' = length slots /\
  (forall i, i <> Z.to_nat id -> slots' !! i = slots !! i) /\
  (exists s, slots' !! Z.to_nat id = Some s /\ skb_entry_is_link s = true) /\
  freelist_chain slots' head' (id :: l) /\ NoDup (id :: l).
Proof.
  intros HPO Hlen Hc Hnd Hid Hnin E. unfold add_id_to_freelist in E.
  kinv E as s Es. apply slot_at_Done in Es as [_ Es].
  assert (Eid : u16 id = id) by (by apply u16_small).
  rewrite Eid in *. injection E as <- <-.
  pose proof (freelist_chain_head _ _ _ Hlen Hc) as Hh.
  assert (Hlt : (Z.to_nat id < length slots)%nat) by (by eapply lookup_lt_Some).
  split; [done|]. split; [by rewrite length_insert|]. split; [|split; [|split]].
  - intros i Hi. by rewrite list_lookup_insert_ne.
  - eexists. split; [by apply list_lookup_insert_eq|].
    unfold skb_entry_is_link, skb_entry_set_link. cbn.
    pose proof (u16_range head). apply Z.ltb_lt. lia.
  - eapply freelist_cons; [lia|by apply list_lookup_insert_eq| |].
    + unfold skb_entry_is_link, skb_entry_set_link. cbn.
      pose proof (u16_range head). apply Z.ltb_lt. lia.
    + cbn. rewrite (u16_small head) by done.
      apply freelist_chain_insert; (done || lia).
  - by apply NoDup_cons.
Qed.

End Freelist.

Section TxReuse.
Context `{Config} `{Kernel}.

Lemma owned_kept_refl np : owned_kept np np.
Proof. by intros id s. Qed.

Lemma owned_kept_trans a b c : owned_kept a b -> owned_kept b c -> owned_kept a c.
Proof. intros Hab Hbc id s Ho. eauto. Qed.

Lemma tx_table_same_inv np np' : tx_table_same np np' -> tx_inv np -> tx_inv np'.
Proof. unfold tx_inv. intros (-> & -> & -> & ->). done. Qed.

Lemma tx_table_same_owned np np' : tx_table_same np np' -> owned_kept np np'.
Proof. intros (E & _) id s. unfold tx_owned. by rewrite E. Qed.

Lemma tx_env_step_inv np np' : tx_env_step np np' -> tx_inv np -> tx_inv np'.
Proof. unfold tx_inv. intros (-> & -> & -> & Hp) (? & ? & ? & _). done. Qed.

Lemma kbe_table_same np np' :
  tx_kept_but_extras np np' ->
  tx_slots np' = tx_slots np -> tx_skb_freelist np' = tx_skb_freelist np ->
  tx_table_same np np'.
Proof.
  intros (_ & _ & Hh & _) Es Ef. unfold tx_hdr in Hh. inversion Hh.
  by repeat split.
Qed.

(** An owned slot is not on the freelist. *)
Lemma owned_not_on_freelist np id s :
  tx_owned np id s -> ~ on_freelist np id.
Proof.
  intros (Hid & Hs & Hown) (l & Hc & Hin).
  destruct (freelist_chain_links _ _ _ _ Hc Hin) as (_ & s' & Hs' & Hl).
  congruence.
Qed.

(** Taking an id from the freelist and filling its slot. *)
Lemma tx_alloc_slot np id head skb ref np1 npx np2 :
  tx_inv np ->
  get_id_from_freelist (tx_skb_freelist np) (tx_slots np) = Done (id, head) ->
  tx_slot_set_skb id skb (set_tx_skb_freelist head np) = Done np1 ->
  tx_slots npx = tx_slots np1 -> tx_skb_freelist npx = tx_skb_freelist np1 ->
  tx npx = tx np ->
  tx_slot_set_gref id ref npx = Done np2 ->
  tx_inv np2 /\ owned_kept np np2 /\ tx np2 = tx np.
Proof.
  intros (Hlen & (l & Hc & Hnd) & Hrc & Hrp) Eget Eskb Esx Efx Etx Egref.
  destruct (get_id_from_freelist_chain _ _ _ _ _ Hlen Hc Hnd Eget)
    as (s & rest & -> & -> & Hs & Hlink & Hc' & Hnd' & Hnin).
  unfold tx_slot_set_skb in Eskb. kinv Eskb as s1 Es1.
  inversion Eskb; subst np1; clear Eskb. cbn in Esx, Efx.
  unfold tx_slot_set_gref in Egref. kinv Egref as s2 Es2.
  inversion Egref; subst np2; clear Egref.
  apply slot_at_Done in Es1 as [Hpos _].
  split; [|split].
  - unfold tx_inv. cbn. rewrite Esx, Efx, Etx, !length_insert.
    split; [done|]. split; [|done]. exists rest. split; [|done].
    apply freelist_chain_insert; [done..|]. by apply freelist_chain_insert.
  - intros id s0 (Hid & Hs0 & Hown). unfold tx_owned. cbn. rewrite Esx.
    split; [done|]. split; [|done].
    assert (Z.to_nat id <> Z.to_nat (tx_skb_freelist np)).
    { intros E. rewrite E in Hs0. congruence. }
    by rewrite !list_lookup_insert_ne.
  - cbn. done.
Qed.

Lemma make_frag_request_inv skb mfn off size prod np np' :
  tx_inv np -> make_frag_request skb mfn off size prod np = Done np' ->
  tx_inv np' /\ owned_kept np np'.
Proof.
  intros Hinv E. unfold make_frag_request in E.
  kinv2 E as id head Eget. kinv E as np1 Eskb.
  destruct (gnttab_claim_grant_reference (gref_tx_head np1)) as [ref pool] eqn:Ecl.
  kinv E as u Ebug. kinv E as np2 Egref. kinv E as r Eput.
  inversion E; subst np'; clear E.
  assert (Etx1 : tx np1 = tx np).
  { by apply tx_slot_set_skb_same in Eskb as (? & _). }
  eapply (tx_alloc_slot np) in Egref as (Hinv2 & Hown & Etx2);
    [|done|done|exact Eskb|reflexivity|reflexivity|done].
  split.
  - eapply tx_table_same_inv; [|exact Hinv2].
    apply RING_PUT_REQUEST_Done in Eput as (s & _ & ->). by repeat split.
  - eapply owned_kept_trans; [exact Hown|]. apply tx_table_same_owned.
    apply RING_PUT_REQUEST_Done in Eput as (s & _ & ->). by repeat split.
Qed.

Lemma tx_modify_table_same f txi np np' :
  tx_modify f txi np = Done np' -> tx_table_same np np'.
Proof.
  unfold tx_modify. intros E. kinv E as q Eq. kinv E as r Er.
  inversion E; subst; clear E.
  apply RING_PUT_REQUEST_Done in Er as (s & _ & ->). by repeat split.
Qed.

Lemma make_frags_head_inv skb n :
  forall txi prod data offset len np np' txi' prod',
    tx_inv np ->
    make_frags_head n skb txi prod data offset len np = Done (np', txi', prod') ->
    tx_inv np' /\ owned_kept np np'.
Proof.
  induction n as [|n IH]; intros txi prod data offset len np np' txi' prod' Hinv E;
    simpl in E; destruct (len >? PAGE_SIZE - offset); try discriminate;
    try (inversion E; subst; split; [done|apply owned_kept_refl]).
  kinv E as np1 Emod. kinv E as np2 Ereq.
  apply tx_modify_table_same in Emod.
  pose proof (tx_table_same_inv _ _ Emod Hinv) as Hinv1.
  destruct (make_frag_request_inv _ _ _ _ _ _ _ Hinv1 Ereq) as [Hinv2 Ho2].
  destruct (IH _ _ _ _ _ _ _ _ _ Hinv2 E) as [Hinv3 Ho3].
  split; [done|]. eapply owned_kept_trans; [by apply tx_table_same_owned|].
  by eapply owned_kept_trans.
Qed.

Lemma make_frags_pages_inv skb frags :
  forall txi prod np np' txi' prod',
    tx_inv np ->
    make_frags_pages frags skb txi prod np = Done (np', txi', prod') ->
    tx_inv np' /\ owned_kept np np'.
Proof.
  induction frags as [|frag rest IH]; intros txi prod np np' txi' prod' Hinv E;
    simpl in E; try (inversion E; subst; split; [done|apply owned_kept_refl]).
  kinv E as np1 Emod. kinv E as np2 Ereq.
  apply tx_modify_table_same in Emod.
  pose proof (tx_table_same_inv _ _ Emod Hinv) as Hinv1.
  destruct (make_frag_request_inv _ _ _ _ _ _ _ Hinv1 Ereq) as [Hinv2 Ho2].
  destruct (IH _ _ _ _ _ _ Hinv2 E) as [Hinv3 Ho3].
  split; [done|]. eapply owned_kept_trans; [by apply tx_table_same_owned|].
  by eapply owned_kept_trans.
Qed.

Lemma xennet_make_frags_inv skb txi np np' :
  tx_inv np -> xennet_make_frags skb txi np = Done np' ->
  tx_inv np' /\ owned_kept np np'.
Proof.
  unfold xennet_make_frags. intros Hinv E.
  apply kbind_Done in E as ([[npf txi1] prod1] & Ehead & E). cbn beta iota in E.
  apply kbind_Done in E as ([[npg txi2] prod2] & Epages & E). cbn beta iota in E.
  inversion E; subst np'; clear E.
  destruct (make_frags_head_inv _ _ _ _ _ _ _ _ _ _ _ Hinv Ehead) as [Hi1 Ho1].
  destruct (make_frags_pages_inv _ _ _ _ _ _ _ _ Hi1 Epages) as [Hi2 Ho2].
  split.
  - eapply tx_table_same_inv; [|exact Hi2]. by repeat split.
  - eapply owned_kept_trans; [exact Ho1|]. eapply owned_kept_trans; [exact Ho2|].
    apply tx_table_same_owned. by repeat split.
Qed.

Lemma xmit_publish_table_same skb np : tx_table_same np (xmit_publish skb np).
Proof.
  unfold xmit_publish, RING_PUSH_REQUESTS_AND_CHECK_NOTIFY.
  destruct (_ <? _); by repeat split.
Qed.

(** A submission keeps the invariant and every slot that held a buffer. *)
Lemma xmit_submit_inv skb np np' :
  tx_inv np -> xmit_submit skb np = Done np' ->
  tx_inv np' /\ owned_kept np np'.
Proof.
  intros Hinv E. unfold xmit_submit in E.
  kinv2 E as id head Eget. kinv E as np1 Eskb.
  destruct (gnttab_claim_grant_reference (gref_tx_head np1)) as [ref pool] eqn:Ecl.
  kinv E as u Ebug. kinv E as np2 Egref. kinv E as r Eput.
  assert (Etx1 : tx np1 = tx np).
  { by apply tx_slot_set_skb_same in Eskb as (? & _). }
  eapply (tx_alloc_slot np) in Egref as (Hinv2 & Hown2 & Etx2);
    [|done|done|exact Eskb|reflexivity|reflexivity|done].
  assert (Ta : tx_table_same np2 (set_tx r np2)).
  { apply RING_PUT_REQUEST_Done in Eput as (s & _ & ->). by repeat split. }
  kinv2 E as npb i Egso.
  assert (Tb : tx_table_same (set_tx r np2) npb).
  { destruct (negb (skb_gso_size skb =? 0)).
    - cbn zeta in Egso. kinv Egso as npm Emod. kinv Egso as r' Eput'.
      inversion Egso; subst; clear Egso.
      apply tx_modify_table_same in Emod as (M1 & M2 & M3 & M4).
      apply RING_PUT_EXTRA_Done in Eput' as (s & _ & ->).
      cbn in M1, M2, M3, M4. repeat split; cbn; congruence.
    - inversion Egso; subst. by repeat split. }
  kinv E as npd Efrags. kinv E as npe Esize. inversion E; subst np'; clear E.
  assert (Hinvb : tx_inv npb) by eauto using tx_table_same_inv.
  assert (Hinvc : tx_inv (set_tx (set_req_prod_pvt (u32 (i + 1)) (tx npb)) npb)).
  { eapply tx_table_same_inv; [|exact Hinvb]. by repeat split. }
  destruct (xennet_make_frags_inv _ _ _ _ Hinvc Efrags) as [Hinvd Hod].
  apply tx_modify_table_same in Esize.
  pose proof (xmit_publish_table_same skb npe) as Tp.
  split; [eauto using tx_table_same_inv|].
  eapply owned_kept_trans; [exact Hown2|].
  eapply owned_kept_trans; [by apply tx_table_same_owned|].
  eapply owned_kept_trans; [by apply tx_table_same_owned|].
  eapply owned_kept_trans; [apply tx_table_same_owned|].
  { instantiate (1 := set_tx (set_req_prod_pvt (u32 (i + 1)) (tx npb)) npb).
    by repeat split. }
  eapply owned_kept_trans; [exact Hod|].
  eapply owned_kept_trans; by apply tx_table_same_owned.
Qed.

End TxReuse.

Section TxCollect.
Context `{Config} `{Kernel}.
Hypothesis HPO : 2 ^ 16 <= PAGE_OFFSET.

Lemma u32_add_l a b : u32 (u32 a + b) = u32 (a + b).
Proof. unfold u32. by rewrite Z.add_mod_idemp_l. Qed.

(** Reading a response depends on the ring size and on the response
    reading of the slots only. *)
Lemma RING_GET_RESPONSE_rsps {Req Rsp} (r r' : front_ring Req Rsp) idx :
  nr_ents r' = nr_ents r ->
  slot_rsp <$> ring r' = slot_rsp <$> ring r ->
  RING_GET_RESPONSE r' idx = RING_GET_RESPONSE r idx.
Proof.
  intros En Er. unfold RING_GET_RESPONSE, RING_GET, ring_pos, slot_at.
  rewrite En. destruct (_ <? 0); [done|].
  pose proof (f_equal (fun l => l !! Z.to_nat (Z.land idx (nr_ents r - 1))) Er) as E.
  cbn beta in E. rewrite !list_lookup_fmap in E.
  destruct (ring r' !! _), (ring r !! _); cbn in *; congruence.
Qed.

Lemma completion_observed_same np np' id :
  tx_hdr np' = tx_hdr np -> tx_rsps np' = tx_rsps np ->
  completion_observed np' id -> completion_observed np id.
Proof.
  intros Eh Er (n & rsp & Hn & Eg & Hid & Hst). unfold tx_hdr in Eh.
  injection Eh as Ec En _ Ep _.
  exists n, rsp. rewrite Ec, Ep in *.
  by rewrite <- (RING_GET_RESPONSE_rsps (tx np) (tx np')).
Qed.

(** One turn of the collection loop: the freelist stays a chain, and a
    slot that held a buffer still holds it unless the response read in
    this turn names it. *)
Lemma tx_buf_gc_one_inv cons np np' :
  tx_inv np -> tx_buf_gc_one cons np = Done np' ->
  tx_inv np' /\ tx np' = tx np /\
  forall id s, tx_owned np id s ->
    tx_owned np' id s \/
    exists rsp, RING_GET_RESPONSE (tx np) cons = Done rsp /\
      txrsp_id rsp = id /\ txrsp_status rsp <> XEN_NETIF_RSP_NULL.
Proof.
  intros Hinv E. unfold tx_buf_gc_one in E. kinv E as rsp Ersp.
  destruct (Z.eqb_spec (txrsp_status rsp) XEN_NETIF_RSP_NULL) as [|Hst].
  { inversion E; subst. eauto. }
  kinv E as s Es. kinv E as u Ebug.
  apply kbind_Done_pair in E as (head & slots & Eadd & E). cbn beta iota in E.
  apply dev_kfree_skb_irq_Done in E as [-> Hptr].
  destruct Hinv as (Hlen & (l & Hc & Hnd) & Hrc & Hrp).
  apply slot_at_Done in Es as [Hpos Es].
  assert (Hid : 0 <= txrsp_id rsp < 2 ^ 16).
  { apply lookup_lt_Some in Es. lia. }
  assert (Hnin : txrsp_id rsp ∉ l).
  { intros Hin. destruct (freelist_chain_links _ _ _ _ Hc Hin) as (_ & s' & Hs' & Hl).
    rewrite Es in Hs'. inversion Hs'; subst s'.
    unfold skb_entry_is_link in Hl. apply Z.ltb_lt in Hl.
    unfold tx_skb in Hptr. lia. }
  eapply (add_id_to_freelist_chain _ _ l) in Eadd
    as (-> & Elen & Hsame & _ & Hc' & Hnd');
    [|done|by rewrite length_insert|by apply freelist_chain_insert|done..].
  rewrite length_insert in Elen.
  split; [|split].
  - unfold tx_inv. cbn. rewrite Elen. eauto 10.
  - done.
  - intros id s1 (Hid1 & Hs1 & Hown).
    destruct (decide (id = txrsp_id rsp)) as [->|Hne]; [right; eauto|].
    left. unfold tx_owned. cbn. split; [done|]. split; [|done].
    assert (Z.to_nat id <> Z.to_nat (txrsp_id rsp)).
    { intros E. apply Z2Nat.inj in E; lia. }
    rewrite Hsame by done. by rewrite list_lookup_insert_ne.
Qed.

Lemma tx_buf_gc_scan_inv n :
  forall cons np np',
    tx_inv np -> 0 <= cons < 2 ^ 32 ->
    tx_buf_gc_scan n cons np = Done np' ->
    tx_inv np' /\ tx np' = tx np /\
    forall id s, tx_owned np id s ->
      tx_owned np' id s \/
      exists j rsp, 0 <= j < Z.of_nat n /\
        RING_GET_RESPONSE (tx np) (u32 (cons + j)) = Done rsp /\
        txrsp_id rsp = id /\ txrsp_status rsp <> XEN_NETIF_RSP_NULL.
Proof.
  induction n as [|n IH]; intros cons np np' Hinv Hcons E; simpl in E.
  { inversion E; subst. eauto. }
  kinv E as np1 Eone.
  destruct (tx_buf_gc_one_inv _ _ _ Hinv Eone) as (Hinv1 & Etx1 & Hown1).
  destruct (IH _ _ _ Hinv1 (u32_range _) E) as (Hinv2 & Etx2 & Hown2).
  split; [done|]. split; [congruence|].
  intros id s Ho. destruct (Hown1 _ _ Ho) as [Ho1|(rsp & Eg & Hr)].
  - destruct (Hown2 _ _ Ho1) as [Ho2|(j & rsp & Hj & Eg & Hr)]; [by left|].
    right. exists (j + 1), rsp. split; [lia|]. split; [|done].
    rewrite <- Eg, Etx1, u32_add_l. f_equal. f_equal. lia.
  - right. exists 0, rsp. split; [lia|]. split; [|done].
    rewrite Z.add_0_r, u32_small; done.
Qed.

(** A collection pass keeps the invariant; a slot that held a buffer
    still holds it unless a response awaiting collection names it. *)
Lemma xennet_tx_buf_gc_inv np np' :
  tx_inv np -> xennet_tx_buf_gc np = Done np' ->
  tx_inv np' /\
  forall id s, tx_owned np id s -> tx_owned np' id s \/ completion_observed np id.
Proof.
  intros Hinv E. unfold xennet_tx_buf_gc in E.
  kinv E as u Ebug. kinv E as np1 Eloop. injection E as <-.
  simpl in Eloop. apply kbind_Done_pair in Eloop as (np2 & again & Epass & Eloop).
  cbn beta iota in Eloop. rewrite (tx_buf_gc_pass_once _ _ _ Epass) in Eloop.
  injection Eloop as ->.
  unfold tx_buf_gc_pass in Epass. kinv Epass as np3 Escan.
  injection Epass as Enp1 _.
  assert (Hrc : 0 <= rsp_cons (tx np) < 2 ^ 32) by apply Hinv.
  assert (Hrp : 0 <= sring_rsp_prod (tx np) < 2 ^ 32) by apply Hinv.
  destruct (tx_buf_gc_scan_inv _ _ _ _ Hinv Hrc Escan) as (Hinv3 & Etx3 & Hown3).
  assert (Ts : tx_slots (xennet_maybe_wake_tx np1) = tx_slots np3
               /\ tx_skb_freelist (xennet_maybe_wake_tx np1) = tx_skb_freelist np3
               /\ rsp_cons (tx (xennet_maybe_wake_tx np1)) = sring_rsp_prod (tx np)
               /\ sring_rsp_prod (tx (xennet_maybe_wake_tx np1)) = sring_rsp_prod (tx np)).
  { rewrite xennet_maybe_wake_tx_tx. unfold xennet_maybe_wake_tx.
    destruct (_ && _ && _); subst np1; cbn; rewrite ?Etx3; done. }
  destruct Ts as (Es & Ef & Ec & Ep).
  split.
  - destruct Hinv3 as (Hlen & Hl & _ & _). unfold tx_inv.
    rewrite Es, Ef, Ec, Ep. done.
  - intros id s Ho. destruct (Hown3 _ _ Ho) as [(? & ? & ?)|(j & rsp & Hj & Eg & Hr)].
    + left. unfold tx_owned. by rewrite Es.
    + right. exists j, rsp. rewrite Z2Nat.id in Hj by apply u32_range. done.
Qed.

(** The state [setup_netfront] builds has every id on the freelist. *)
Lemma setup_netfront_chain (N : nat) :
  Z.of_nat N < 2 ^ 16 ->
  forall m k, (k + m = N)%nat ->
    freelist_chain
      (map (fun i => mk_tx_slot (u16 (Z.of_nat i + 1)) GRANT_INVALID_REF) (seq 0 N))
      (Z.of_nat k) (Z.of_nat <$> seq k m).
Proof.
  intros HN. induction m as [|m IH]; intros k Hk.
  - apply freelist_end; [lia|]. rewrite length_map, length_seq. lia.
  - cbn [seq fmap list_fmap].
    assert (Eu : u16 (Z.of_nat k + 1) = Z.of_nat (S k)).
    { rewrite u16_small; lia. }
    apply (freelist_cons _ _ (mk_tx_slot (u16 (Z.of_nat k + 1)) GRANT_INVALID_REF));
      [lia| |unfold skb_entry_is_link; cbn [tx_link]; apply Z.ltb_lt; lia|].
    + rewrite Nat2Z.id. change (map ?f ?l) with (f <$> l).
      rewrite list_lookup_fmap, lookup_seq_lt by lia. reflexivity.
    + cbn [tx_link]. rewrite Eu. apply IH. lia.
Qed.

Lemma setup_netfront_inv txmem rxmem tx_pool rx_pool dev :
  0 <= NET_TX_RING_SIZE < 2 ^ 16 ->
  tx_inv (setup_netfront txmem rxmem tx_pool rx_pool dev).
Proof.
  intros HN. unfold tx_inv, setup_netfront. cbn.
  rewrite length_map, length_seq.
  split; [lia|]. split; [|lia].
  exists (Z.of_nat <$> seq 0 (Z.to_nat NET_TX_RING_SIZE)). split.
  - apply (setup_netfront_chain (Z.to_nat NET_TX_RING_SIZE) ltac:(lia) _ 0%nat). lia.
  - apply NoDup_fmap; [apply Nat2Z.inj'|apply NoDup_seq].
Qed.

Lemma tx_step_inv np np' :
  tx_inv np -> tx_step np np' ->
  tx_inv np' /\
  forall id s, tx_owned np id s -> tx_owned np' id s \/ completion_observed np id.
Proof.
  intros Hinv Hs. destruct Hs as [skb np0 np1 rc E|np0 np1 E];
    [|by apply xennet_tx_buf_gc_inv].
  unfold xennet_start_xmit in E. cbv zeta in E.
  assert (Hdrop : forall r, xmit_drop np0 = Done r ->
            tx_inv r.1 /\ forall id s, tx_owned np0 id s ->
              tx_owned r.1 id s \/ completion_observed np0 id).
  { intros r [= <-]. cbn. split; [done|]. intros id s Ho. by left. }
  destruct (_ >? _); [by apply (Hdrop _ E)|].
  destruct (_ || _ || _); [by apply (Hdrop _ E)|].
  kinv E as npa Esub. kinv E as npb Egc. inversion E; subst np1 rc; clear E Hdrop.
  destruct (xmit_submit_inv _ _ _ Hinv Esub) as [Hinva Howna].
  destruct (xennet_tx_buf_gc_inv _ _ Hinva Egc) as [Hinvb Hownb].
  assert (Ts : forall b, tx_table_same npb
            (if b : bool then set_netdev (set_queue_stopped true (netdev npb)) npb
             else npb)).
  { intros [|]; by repeat split. }
  split; [by eapply tx_table_same_inv|].
  intros id s Ho. destruct (Hownb _ _ (Howna _ _ Ho)) as [Ho'|Hc].
  - left. by eapply tx_table_same_owned.
  - right. destruct (xmit_submit_Done _ _ _ Esub) as (npe & -> & (_ & _ & Eh & Er)).
    eapply (completion_observed_same _ npe); [done..|].
    eapply (completion_observed_same _ (xmit_publish skb npe)); [| |exact Hc].
    + unfold xmit_publish, RING_PUSH_REQUESTS_AND_CHECK_NOTIFY.
      destruct (_ <? _); reflexivity.
    + unfold xmit_publish, RING_PUSH_REQUESTS_AND_CHECK_NOTIFY.
      destruct (_ <? _); reflexivity.
Qed.

Lemma tx_reachable_inv np :
  0 <= NET_TX_RING_SIZE < 2 ^ 16 -> tx_reachable np -> tx_inv np.
Proof.
  intros HN. induction 1 as [| np np' _ IH He | np np' _ IH Hs].
  - by apply setup_netfront_inv.
  - by eapply tx_env_step_inv.
  - by apply (tx_step_inv np np').
Qed.

(** C2. In any state the driver reaches, a transmit slot that holds a
    buffer keeps holding that buffer, and its id stays off the freelist,
    through a submission or a collection pass, unless a response naming
    the id, with a status other than the null one, was waiting in the
    response ring between the consumer index and the response producer.
    The slot table has fewer than 2^16 entries, so that an id fits the
    [unsigned short] of a link, and kernel addresses lie above 2^16, so
    that a link is never taken for a buffer. *)
Theorem tx_id_kept_until_completion np np' id s :
  0 <= NET_TX_RING_SIZE < 2 ^ 16 ->
  tx_reachable np -> tx_owned np id s -> tx_step np np' ->
  (tx_owned np' id s /\ ~ on_freelist np' id) \/ completion_observed np id.
Proof.
  intros HN Hr Ho Hs.
  destruct (tx_step_inv np np' (tx_reachable_inv _ HN Hr) Hs) as [_ Hown].
  destruct (Hown _ _ Ho) as [Ho'|Hc]; [left|by right].
  split; [done|]. by eapply owned_not_on_freelist.
Qed.

End TxCollect.

(** ** The receive parser *)

Section RxParse.
Context `{Config} `{Kernel}.

Lemma rx_parse_kept_refl np : rx_parse_kept np np.
Proof. by repeat split. Qed.

Lemma rx_parse_kept_trans a b c :
  rx_parse_kept a b -> rx_parse_kept b c -> rx_parse_kept a c.
Proof.
  intros ((T1 & P1) & D1) ((T2 & P2) & D2). repeat split; congruence.
Qed.

(** The two accessors of the slot table write the slot table only. *)
Lemma xennet_get_rx_skb_Done ri np o np' :
  xennet_get_rx_skb ri np = Done (o, np') ->
  exists s, slot_at (rx_slots np) (xennet_rxidx ri) = Done s /\ o = rx_skb s /\
    np' = set_rx_slots (<[Z.to_nat (xennet_rxidx ri) := mk_rx_slot None (rx_gref s)]>
                          (rx_slots np)) np.
Proof.
  unfold xennet_get_rx_skb. intros E. kinv E as s Es. injection E as <- <-. eauto.
Qed.

Lemma xennet_get_rx_ref_Done ri np ref np' :
  xennet_get_rx_ref ri np = Done (ref, np') ->
  exists s, slot_at (rx_slots np) (xennet_rxidx ri) = Done s /\ ref = rx_gref s /\
    np' = set_rx_slots (<[Z.to_nat (xennet_rxidx ri) :=
                            mk_rx_slot (rx_skb s) GRANT_INVALID_REF]>
                          (rx_slots np)) np.
Proof.
  unfold xennet_get_rx_ref. intros E. kinv E as s Es. injection E as <- <-. eauto.
Qed.

Lemma rx_walk_kept_refl np : rx_walk_kept np np.
Proof. split; [apply rx_parse_kept_refl|done]. Qed.

Lemma rx_walk_kept_trans a b c :
  rx_walk_kept a b -> rx_walk_kept b c -> rx_walk_kept a c.
Proof.
  intros [P1 C1] [P2 C2]. split; [by eapply rx_parse_kept_trans|congruence].
Qed.

Lemma set_rx_slots_walk_kept sl np : rx_walk_kept np (set_rx_slots sl np).
Proof. by repeat split. Qed.

Lemma xennet_get_rx_skb_kept ri np o np' :
  xennet_get_rx_skb ri np = Done (o, np') -> rx_walk_kept np np'.
Proof.
  intros E. apply xennet_get_rx_skb_Done in E as (s & _ & _ & ->).
  apply set_rx_slots_walk_kept.
Qed.

Lemma xennet_get_rx_ref_kept ri np o np' :
  xennet_get_rx_ref ri np = Done (o, np') -> rx_walk_kept np np'.
Proof.
  intros E. apply xennet_get_rx_ref_Done in E as (s & _ & _ & ->).
  apply set_rx_slots_walk_kept.
Qed.

(** Requeuing a buffer writes a request: the responses stay, and so do
    the grant table and the pool. *)
Lemma xennet_move_rx_slot_Done skb ref np np' :
  xennet_move_rx_slot skb ref np = Done np' ->
  rx_walk_kept np np' /\ gnttab np' = gnttab np /\
  gref_rx_head np' = gref_rx_head np /\
  req_prod_pvt (rx np') = u32 (req_prod_pvt (rx np) + 1) /\
  rx_slots np' = <[Z.to_nat (xennet_rxidx (req_prod_pvt (rx np))) := mk_rx_slot skb ref]>
                   (rx_slots np).
Proof.
  unfold xennet_move_rx_slot. intros E. kinv E as s Es. kinv E as u Eb.
  kinv E as r Er. injection E as <-.
  apply RING_PUT_REQUEST_Done in Er as (s0 & Hs0 & ->). cbn in Hs0 |- *.
  repeat split. unfold rx_page, rx_rsps. cbn.
  by rewrite (insert_same_view slot_rsp _ _ s0).
Qed.

Lemma get_responses_check_Done rsp skb ref q err np np' q' err' :
  get_responses_check rsp skb ref q err np = Done (np', q', err') ->
  rx_walk_kept np np' /\
  (rx_bad rsp ref = true -> err' = - EINVAL /\ q' = q) /\
  (rx_bad rsp ref = false -> err' = err /\ exists b, skb = Some b /\ q' = q ++ [b]).
Proof.
  unfold get_responses_check, rx_bad. intros E.
  destruct ((rxrsp_status rsp <? 0) || _) eqn:Eoff; cbn [orb].
  - kinv E as np1 Emv. injection E as <- <- <-.
    apply xennet_move_rx_slot_Done in Emv as (K & _). split; [done|]. by split.
  - destruct (ref =? GRANT_INVALID_REF) eqn:Eref.
    + injection E as <- <- <-. split; [apply rx_walk_kept_refl|]. by split.
    + destruct (gnttab_end_foreign_access_ref ref (gnttab np)) as [ret gt].
      kinv E as u Eb. destruct skb as [b|]; [|discriminate].
      injection E as <- <- <-. split; [by repeat split|]. split; [done|]. eauto.
Qed.

Lemma rx_chain_len_ext n (r r' : rx_front_ring) rp cons :
  nr_ents r' = nr_ents r -> slot_rsp <$> ring r' = slot_rsp <$> ring r ->
  forall flags frags,
    rx_chain_len n r' rp cons flags frags = rx_chain_len n r rp cons flags frags.
Proof.
  intros En Er. induction n as [|n IH]; intros flags frags; simpl; [done|].
  rewrite (RING_GET_RESPONSE_rsps r r') by done.
  destruct (RING_GET_RESPONSE r _); [|done]. by rewrite IH.
Qed.

Lemma rx_chain_len_kept n np np' rp cons flags frags :
  rx_walk_kept np np' ->
  rx_chain_len n (rx np') rp cons flags frags
  = rx_chain_len n (rx np) rp cons flags frags.
Proof.
  intros (((_ & P) & _) & _). unfold rx_page, rx_rsps in P. injection P as En _ Er.
  by apply rx_chain_len_ext.
Qed.

Lemma RING_GET_RESPONSE_kept np np' idx :
  rx_walk_kept np np' ->
  RING_GET_RESPONSE (rx np') idx = RING_GET_RESPONSE (rx np) idx.
Proof.
  intros (((_ & P) & _) & _). unfold rx_page, rx_rsps in P. injection P as En _ Er.
  by apply RING_GET_RESPONSE_rsps.
Qed.

(** The loop of the parser: it counts the responses of the chain, an
    error once found is never cleared, and a chain without error hands
    over one buffer for each response. *)
Lemma get_responses_loop_Done n :
  forall rp cons rsp skb ref frags q err np np' q' err' frags',
    get_responses_loop n rp cons rsp skb ref frags q err np
      = Done (np', q', err', frags') ->
    rx_walk_kept np np' /\
    frags' = rx_chain_len n (rx np) rp cons (rxrsp_flags rsp) frags /\
    frags <= frags' /\
    (rx_bad rsp ref = true \/ err <> 0 -> err' <> 0) /\
    (err' = 0 ->
     Z.of_nat (length q') = Z.of_nat (length q) + (frags' - frags + 1)).
Proof.
  induction n as [|n IH];
    intros rp cons rsp skb ref frags q err np np' q' err' frags' E; simpl in E.
  - apply kbind_Done in E as ([[np1 q1] err1] & Echk & E). cbn beta iota in E.
    apply get_responses_check_Done in Echk as (K & Hbad & Hgood).
    assert (Herr : rx_bad rsp ref = true \/ err <> 0 -> err1 <> 0).
    { intros [Hb|He].
      - destruct (Hbad Hb) as [-> _]. done.
      - destruct (rx_bad rsp ref) eqn:Eb;
          [by destruct (Hbad eq_refl) as [-> _]|by destruct (Hgood eq_refl) as [-> _]]. }
    assert (Hlen : err1 = 0 -> Z.of_nat (length q1) = Z.of_nat (length q) + 1).
    { intros He. destruct (rx_bad rsp ref) eqn:Eb.
      - destruct (Hbad eq_refl) as [-> _]. done.
      - destruct (Hgood eq_refl) as (_ & b & _ & ->). rewrite length_app. cbn. lia. }
    simpl. destruct (negb (has_flag _ _)).
    { injection E as <- <- <- <-. split; [exact K|]. split; [done|].
      split; [lia|]. split; [done|]. intros He. rewrite (Hlen He). lia. }
    destruct (u32 (cons + frags) =? rp); [|discriminate].
    injection E as <- <- <- <-. split; [exact K|]. split; [done|].
    split; [lia|]. split; [done|]. intros He. by unfold ENOENT in He.
  - apply kbind_Done in E as ([[np1 q1] err1] & Echk & E). cbn beta iota in E.
    apply get_responses_check_Done in Echk as (K & Hbad & Hgood).
    assert (Herr : rx_bad rsp ref = true \/ err <> 0 -> err1 <> 0).
    { intros [Hb|He].
      - destruct (Hbad Hb) as [-> _]. done.
      - destruct (rx_bad rsp ref) eqn:Eb;
          [by destruct (Hbad eq_refl) as [-> _]|by destruct (Hgood eq_refl) as [-> _]]. }
    assert (Hlen : err1 = 0 -> Z.of_nat (length q1) = Z.of_nat (length q) + 1).
    { intros He. destruct (rx_bad rsp ref) eqn:Eb.
      - destruct (Hbad eq_refl) as [-> _]. done.
      - destruct (Hgood eq_refl) as (_ & b & _ & ->). rewrite length_app. cbn. lia. }
    simpl. destruct (negb (has_flag _ _)).
    { injection E as <- <- <- <-. split; [exact K|]. split; [done|].
      split; [lia|]. split; [done|]. intros He. rewrite (Hlen He). lia. }
    destruct (u32 (cons + frags) =? rp).
    { injection E as <- <- <- <-. split; [exact K|]. split; [done|].
      split; [lia|]. split; [done|]. intros He. by unfold ENOENT in He. }
    kinv E as rsp2 Ersp. kinv2 E as skb2 np2 Eskb. kinv2 E as ref2 np3 Eref.
    apply xennet_get_rx_skb_kept in Eskb. apply xennet_get_rx_ref_kept in Eref.
    apply IH in E as (K3 & Hfr & Hle & Herr' & Hlen').
    assert (K13 : rx_walk_kept np1 np3) by (by eapply rx_walk_kept_trans).
    rewrite (RING_GET_RESPONSE_kept _ _ _ K) in Ersp. rewrite Ersp.
    split; [eauto using rx_walk_kept_trans|].
    split.
    { rewrite Hfr. apply rx_chain_len_kept. by eapply rx_walk_kept_trans. }
    split; [lia|]. split; [tauto|].
    intros He. rewrite (Hlen' He), Hlen; [lia|].
    destruct (Z.eq_dec err1 0) as [|Hne]; [done|]. exfalso. apply Herr'; auto.
Qed.

Lemma get_extras_loop_kept n :
  forall rp cons extras err np np' extras' err' cons',
    get_extras_loop n rp cons extras err np = Done (np', extras', err', cons') ->
    rx_walk_kept np np'.
Proof.
  induction n as [|n IH]; intros rp cons extras err np np' extras' err' cons' E;
    simpl in E; destruct (u32 (cons + 1) =? rp);
    try (injection E as <- _ _ _; apply rx_walk_kept_refl); try discriminate.
  kinv E as s Es.
  destruct (_ || _).
  - kinv2 E as skb np1 Eskb. kinv2 E as ref np2 Eref. kinv E as np3 Emv.
    apply xennet_get_rx_skb_kept in Eskb. apply xennet_get_rx_ref_kept in Eref.
    apply xennet_move_rx_slot_Done in Emv as (Kmv & _).
    assert (K3 : rx_walk_kept np np3) by eauto using rx_walk_kept_trans.
    destruct (has_flag _ _).
    + apply IH in E. by eapply rx_walk_kept_trans.
    + by injection E as <- _ _ _.
  - kinv2 E as skb np1 Eskb. kinv2 E as ref np2 Eref. kinv E as np3 Emv.
    apply xennet_get_rx_skb_kept in Eskb. apply xennet_get_rx_ref_kept in Eref.
    apply xennet_move_rx_slot_Done in Emv as (Kmv & _).
    assert (K3 : rx_walk_kept np np3) by eauto using rx_walk_kept_trans.
    destruct (has_flag _ _).
    + apply IH in E. by eapply rx_walk_kept_trans.
    + by injection E as <- _ _ _.
Qed.

Lemma xennet_get_extras_kept extras rp np np' extras' err :
  xennet_get_extras extras rp np = Done (np', extras', err) ->
  rx_parse_kept np np'.
Proof.
  unfold xennet_get_extras. intros E.
  apply kbind_Done in E as ([[[np1 ex1] err1] cons1] & El & E). cbn beta iota in E.
  injection E as <- _ _. apply get_extras_loop_kept in El as [((T & P) & D) _].
  by repeat split.
Qed.

Lemma slot_at_length {A} (l : list A) i a :
  slot_at l i = Done a -> 0 <= i /\ (Z.to_nat i < length l)%nat.
Proof.
  intros E. apply slot_at_Done in E as [Hi E]. split; [done|].
  by apply lookup_lt_Some in E.
Qed.

(** The parser as a whole.  [cons] is the consumer index once the extra
    records are behind, and [frags] the number of responses of the
    chain. *)
Lemma xennet_get_responses_Done rsp extras rp q np np' extras' q' err :
  xennet_get_responses rsp extras rp q np = Done (np', extras', q', err) ->
  rx_kept np np' /\ netdev np' = netdev np /\
  exists cons frags,
    (has_flag (rxrsp_flags rsp) XEN_NETRXF_extra_info = false ->
     cons = rsp_cons (rx np) /\ extras' = extras) /\
    frags = rx_chain_len (Z.to_nat (u32 (rp - cons - 1))) (rx np) rp cons
              (rxrsp_flags rsp) 1 /\
    1 <= frags /\
    (rx_max_frags rsp < frags -> err = - E2BIG) /\
    (err = 0 ->
     frags <= rx_max_frags rsp /\
     Z.of_nat (length q') = Z.of_nat (length q) + frags /\
     rsp_cons (rx np') = cons) /\
    (err <> 0 -> rsp_cons (rx np') = u32 (cons + frags)) /\
    (forall s, slot_at (rx_slots np) (xennet_rxidx (rsp_cons (rx np))) = Done s ->
       rx_bad rsp (rx_gref s) = true -> err <> 0).
Proof.
  unfold xennet_get_responses. intros E.
  kinv2 E as skb np1 Eskb. kinv2 E as ref np2 Eref.
  apply kbind_Done in E as ([[np3 ex3] err3] & Eex & E). cbn beta iota in E.
  apply kbind_Done in E as ([[[np4 q4] err4] frags] & El & E). cbn beta iota in E.
  injection E as <- <- <- <-.
  pose proof (xennet_get_rx_skb_kept _ _ _ _ Eskb) as K1.
  apply xennet_get_rx_skb_Done in Eskb as (s1 & Hs1 & -> & ->).
  pose proof (xennet_get_rx_ref_kept _ _ _ _ Eref) as K2.
  apply xennet_get_rx_ref_Done in Eref as (s2 & Hs2 & -> & Enp2).
  assert (Es2 : rx_gref s2 = rx_gref s1).
  { destruct (slot_at_length _ _ _ Hs1) as [Hi Hlt]. cbn in Hs2.
    rewrite slot_at_insert_eq in Hs2 by done. by injection Hs2 as <-. }
  assert (K3 : rx_parse_kept np2 np3 /\
          (has_flag (rxrsp_flags rsp) XEN_NETRXF_extra_info = false ->
           np3 = np2 /\ ex3 = extras)).
  { destruct (has_flag (rxrsp_flags rsp) XEN_NETRXF_extra_info).
    - split; [by eapply xennet_get_extras_kept|done].
    - injection Eex as <- <- _. split; [apply rx_parse_kept_refl|done]. }
  destruct K3 as [K3 Hno].
  apply get_responses_loop_Done in El as (K4 & Hfr & Hle & Herr & Hlen).
  assert (K03 : rx_parse_kept np np3).
  { eapply rx_parse_kept_trans; [|exact K3].
    eapply rx_parse_kept_trans; [apply K1|apply K2]. }
  assert (K04 : rx_parse_kept np np4).
  { eapply rx_parse_kept_trans; [exact K03|apply K4]. }
  assert (Kf : rx_parse_kept np
            (if negb ((if frags >? rx_max_frags rsp then - E2BIG else err4) =? 0)
             then set_rx (set_rsp_cons (u32 (rsp_cons (rx np3) + frags)) (rx np4)) np4
             else np4)).
  { destruct (negb _); [|done]. destruct K04 as ((T & P) & D). by repeat split. }
  destruct Kf as [Kf Df]. split; [done|]. split; [done|].
  exists (rsp_cons (rx np3)), frags.
  split.
  { intros Hf. destruct (Hno Hf) as [-> ->]. split; [|done].
    destruct K1 as [_ C1], K2 as [_ C2]. congruence. }
  split.
  { rewrite Hfr. destruct K03 as ((_ & P) & _). unfold rx_page, rx_rsps in P.
    injection P as En _ Er. by apply rx_chain_len_ext. }
  split; [lia|].
  destruct (Z.gtb_spec frags (rx_max_frags rsp)) as [Hgt|Hle'].
  - split; [done|]. split; [done|]. split; [|done].
    intros _. cbn. done.
  - split; [lia|]. split.
    { intros ->. cbn. split; [lia|]. split; [|apply K4].
      rewrite (Hlen eq_refl). lia. }
    split.
    { intros Hne. apply Z.eqb_neq in Hne. rewrite Hne. done. }
    intros s Hs Hbad. apply Herr. left.
    rewrite Hs in Hs1. injection Hs1 as <-. by rewrite Es2.
Qed.


End RxParse.

(** ** Rejected responses *)

Section RxReject.
Context `{Config} `{Kernel}.





End RxReject.

(** ** The fill target *)

Section RxTarget.
Context `{Config} `{Kernel}.








Lemma alloc_rx_push_tunables np : rx_tunables (alloc_rx_push np) = rx_tunables np.
Proof.
  unfold alloc_rx_push, RING_PUSH_REQUESTS_AND_CHECK_NOTIFY.
  by destruct (_ <? _).
Qed.

Lemma alloc_rx_refill_loop_tunables batch :
  forall req_prod i np np' i',
    alloc_rx_refill_loop batch req_prod i np = Done (np', i') ->
    rx_tunables np' = rx_tunables np.
Proof.
  induction batch as [|skb rest IH]; intros req_prod i np np' i' E; simpl in E.
  { by injection E as <- _. }
  kinv E as s Es. kinv E as u Eb.
  destruct (gnttab_claim_grant_reference (gref_rx_head np)) as [ref pool].
  kinv E as u' Eb'. kinv E as r Er. apply IH in E. by rewrite E.
Qed.

Lemma alloc_rx_refill_tunables req_prod np np' :
  alloc_rx_refill req_prod np = Done np' -> rx_tunables np' = rx_tunables np.
Proof.
  unfold alloc_rx_refill. intros E. kinv2 E as np1 i El. injection E as <-.
  apply alloc_rx_refill_loop_tunables in El. by rewrite alloc_rx_push_tunables.
Qed.

(** The growth step in closed form. *)
Lemma rx_target_grow_spec req_prod np :
  0 <= rx_target np <= rx_max_target np -> rx_max_target np < 2 ^ 31 ->
  rx np = rx (rx_target_grow req_prod np) /\
  rx_tunables (rx_target_grow req_prod np)
  = (rx_min_target np,
     (if rx_target_grows req_prod np
      then Z.min (2 * rx_target np) (rx_max_target np) else rx_target np),
     rx_max_target np).
Proof.
  intros Ht Hm. unfold rx_target_grow. destruct (rx_target_grows req_prod np); [|done].
  cbn. rewrite u32_small by lia.
  destruct (Z.gtb_spec (rx_target np * 2) (rx_max_target np)); cbn;
    (split; [done|]); unfold rx_tunables; cbn; repeat f_equal; lia.
Qed.


Lemma rx_target_grow_ext req_prod np1 np2 :
  rx np1 = rx np2 -> rx_tunables np1 = rx_tunables np2 ->
  rx_tunables (rx_target_grow req_prod np1) = rx_tunables (rx_target_grow req_prod np2).
Proof.
  intros Er Et. unfold rx_tunables in Et. injection Et as Emin Et Emax.
  unfold rx_target_grow, rx_target_grows. rewrite Er, Et.
  destruct (_ <? _); [|unfold rx_tunables; congruence].
  cbn [rx_target rx_max_target set_rx_target]. rewrite Emax.
  destruct (_ >? _); unfold rx_tunables; cbn; congruence.
Qed.

(** A refill pass leaves the tunables as they are or takes the growth
    step. *)
Lemma xennet_alloc_rx_buffers_tunables fresh np np' :
  xennet_alloc_rx_buffers fresh np = Done np' ->
  rx_tunables np' = rx_tunables np \/
  rx_tunables np' = rx_tunables (rx_target_grow (req_prod_pvt (rx np)) np).
Proof.
  unfold xennet_alloc_rx_buffers. intros E. cbv zeta in E.
  destruct (negb (carrier_ok (netdev np))); [injection E as <-; by left|].
  destruct (_ && _).
  { apply alloc_rx_refill_tunables in E. left. by rewrite E. }
  destruct (_ <? _).
  { left. destruct (_ >? _); injection E as <-;
      rewrite ?alloc_rx_push_tunables; by destruct (bool_decide _). }
  apply alloc_rx_refill_tunables in E. right. rewrite E.
  apply rx_target_grow_ext; by destruct (bool_decide _).
Qed.

Lemma RX_MAX_TARGET_le : RX_MAX_TARGET <= 256.
Proof.
  unfold RX_MAX_TARGET, min_int. assert (E : s32 256 = 256) by reflexivity.
  rewrite E. lia.
Qed.

Lemma rx_inv_tunables np np' :
  rx_tunables np' = rx_tunables np -> rx_inv np -> rx_inv np'.
Proof.
  unfold rx_tunables, rx_inv. intros E. injection E as -> -> ->. done.
Qed.

(** A refill pass keeps the bounds, and moves the target only by the
    growth step. *)
Lemma xennet_alloc_rx_buffers_inv fresh np np' :
  rx_inv np -> xennet_alloc_rx_buffers fresh np = Done np' ->
  rx_inv np' /\
  rx_min_target np' = rx_min_target np /\ rx_max_target np' = rx_max_target np /\
  (rx_target np' = rx_target np \/
   (u32 (req_prod_pvt (rx np) - sring_rsp_prod (rx np)) < rx_target np / 4 /\
    rx_target np' = Z.min (2 * rx_target np) (rx_max_target np))).
Proof.
  intros Hinv E. pose proof RX_MAX_TARGET_le as Hmax.
  pose proof Hinv as (H8 & Hmin & Ht & Hm). unfold RX_MIN_TARGET in H8.
  destruct (xennet_alloc_rx_buffers_tunables _ _ _ E) as [Et|Et].
  { split; [by eapply rx_inv_tunables|]. unfold rx_tunables in Et.
    injection Et as -> -> ->. auto. }
  destruct (rx_target_grow_spec (req_prod_pvt (rx np)) np) as [_ Eg]; [lia..|].
  rewrite Eg in Et. unfold rx_tunables in Et. injection Et as Emin Etg Emax.
  unfold rx_target_grows in Etg.
  destruct (Z.ltb_spec (u32 (req_prod_pvt (rx np) - sring_rsp_prod (rx np)))
              (rx_target np / 4)) as [Hlt|Hge].
  - split; [unfold rx_inv, RX_MIN_TARGET; lia|]. split; [done|]. split; [done|].
    right. done.
  - split; [unfold rx_inv, RX_MIN_TARGET; lia|]. auto.
Qed.


Lemma store_rxbuf_min_inv target fresh np np' :
  RX_DFL_MIN_TARGET <= RX_MAX_TARGET ->
  0 <= target -> rx_inv np -> store_rxbuf_min target fresh np = Done np' ->
  rx_inv np'.
Proof.
  intros HRX Htg Hinv E. pose proof RX_MAX_TARGET_le as Hmax.
  unfold RX_DFL_MIN_TARGET in HRX.
  pose proof Hinv as (H8 & Hmin & Ht & Hm). unfold RX_MIN_TARGET in H8.
  unfold store_rxbuf_min in E. cbv zeta in E.
  apply xennet_alloc_rx_buffers_inv in E as [Hinv' _]; [done|].
  unfold RX_MIN_TARGET.
  destruct (Z.ltb_spec target 8);
    match goal with |- context [?a >? RX_MAX_TARGET] =>
      destruct (Z.gtb_spec a RX_MAX_TARGET) end;
    match goal with |- context [?a >? rx_max_target np] =>
      destruct (Z.gtb_spec a (rx_max_target np)) end;
    cbn [rx_target set_rx_min_target set_rx_max_target];
    match goal with |- context [?a >? rx_target np] =>
      destruct (Z.gtb_spec a (rx_target np)) end;
    unfold rx_inv, RX_MIN_TARGET; cbn; rewrite ?u32_small by lia; lia.
Qed.

Lemma store_rxbuf_max_inv target fresh np np' :
  RX_DFL_MIN_TARGET <= RX_MAX_TARGET ->
  0 <= target -> rx_inv np -> store_rxbuf_max target fresh np = Done np' ->
  rx_inv np'.
Proof.
  intros HRX Htg Hinv E. pose proof RX_MAX_TARGET_le as Hmax.
  unfold RX_DFL_MIN_TARGET in HRX.
  pose proof Hinv as (H8 & Hmin & Ht & Hm). unfold RX_MIN_TARGET in H8.
  unfold store_rxbuf_max in E. cbv zeta in E.
  apply xennet_alloc_rx_buffers_inv in E as [Hinv' _]; [done|].
  unfold RX_MIN_TARGET.
  destruct (Z.ltb_spec target 8);
    match goal with |- context [?a >? RX_MAX_TARGET] =>
      destruct (Z.gtb_spec a RX_MAX_TARGET) end;
    match goal with |- context [?a <? rx_min_target np] =>
      destruct (Z.ltb_spec a (rx_min_target np)) end;
    cbn [rx_target set_rx_min_target set_rx_max_target];
    match goal with |- context [?a <? rx_target np] =>
      destruct (Z.ltb_spec a (rx_target np)) end;
    unfold rx_inv, RX_MIN_TARGET; cbn; rewrite ?u32_small by lia; lia.
Qed.




End RxTarget.

(** * The properties at work on the scenarios *)

Section Examples.
#[local] Existing Instance x86_64.
#[local] Existing Instance demo_kernel.

Ltac calc := vm_compute; repeat split; (reflexivity || discriminate).

Lemma demo_sent_eq :
  xennet_start_xmit demo_pkt demo_np = Done (demo_sent, NETDEV_TX_OK).
Proof. vm_compute. reflexivity. Qed.

Lemma xmit_descriptors_witness :
  req_prod_pvt (tx demo_sent) = 3 /\
  forall j, 0 <= j < 3 ->
    exists q, tx_req_at demo_sent (pkt_idx 0 0 j) = Some q /\
      has_flag (txreq_flags q) XEN_NETTXF_more_data = (j <? 3 - 1).
Proof.
  destruct (xmit_descriptors 8 demo_pkt demo_np demo_sent NETDEV_TX_OK)
    as (Hprod & Hreq & _); [calc..| |].
  - vm_compute. reflexivity.
  - split; [exact Hprod | exact Hreq].
Defined.

(** A packet with an empty head at the start of a page counts two
    fragments and puts three requests on the ring. *)
Lemma xmit_descriptors_empty_head :
  xmit_must_drop demo_pkt_empty_head demo_np = false /\
  xennet_start_xmit demo_pkt_empty_head demo_np
    = Done (demo_sent_empty_head, NETDEV_TX_OK) /\
  xmit_frags demo_pkt_empty_head = 2 /\
  skb_gso_size demo_pkt_empty_head = 0 /\
  req_prod_pvt (tx demo_np) = 0 /\
  req_prod_pvt (tx demo_sent_empty_head) = 3 /\
  tx_req_at demo_sent_empty_head 0 = Some (mk_tx_request 8 0 4 0 500) /\
  tx_req_at demo_sent_empty_head 1 = Some (mk_tx_request 9 0 4 1 200) /\
  tx_req_at demo_sent_empty_head 2 = Some (mk_tx_request 10 16 0 2 300).
Proof. vm_compute. repeat split; reflexivity. Qed.

Lemma xmit_checksum_flags_witness :
  exists q, tx_req_at demo_sent (req_prod_pvt (tx demo_np)) = Some q /\
    has_flag (txreq_flags q) XEN_NETTXF_csum_blank
      = (skb_ip_summed demo_pkt =? CHECKSUM_PARTIAL).
Proof.
  destruct (xmit_checksum_flags 8 demo_pkt demo_np demo_sent NETDEV_TX_OK)
    as (q & Hq & Hblank & _); [calc..| |].
  - vm_compute. reflexivity.
  - exists q. split; [exact Hq | exact Hblank].
Defined.

(** The first request of a checksum-partial packet carries the
    data-validated flag as well. *)
Lemma xmit_partial_data_validated :
  skb_ip_summed demo_pkt = CHECKSUM_PARTIAL /\
  skb_ip_summed demo_pkt <> CHECKSUM_UNNECESSARY /\
  xmit_must_drop demo_pkt demo_np = false /\
  xennet_start_xmit demo_pkt demo_np = Done (demo_sent, NETDEV_TX_OK) /\
  exists q, tx_req_at demo_sent (req_prod_pvt (tx demo_np)) = Some q /\
    has_flag (txreq_flags q) XEN_NETTXF_data_validated = true.
Proof.
  split; [reflexivity|]. split; [discriminate|]. split; [vm_compute; reflexivity|].
  split; [vm_compute; reflexivity|].
  exists (mk_tx_request 8 64 7 0 1000). vm_compute. split; reflexivity.
Qed.

Lemma tx_buf_gc_event_marker_witness :
  rsp_cons (tx demo_collected) = sring_rsp_prod (tx demo_answered) /\
  sring_rsp_event (tx demo_collected)
  = u32 (rsp_cons (tx demo_collected)
         + u32 (sring_req_prod (tx demo_collected) - rsp_cons (tx demo_collected)) / 2
         + 1).
Proof.
  apply (tx_buf_gc_event_marker demo_answered demo_collected).
  vm_compute. reflexivity.
Defined.

Lemma demo_answered_reachable : tx_reachable demo_answered.
Proof.
  apply (tx_reach_env demo_sent).
  - apply (tx_reach_step demo_np).
    + apply tx_reach_setup.
    + exact (tx_step_xmit _ _ _ _ demo_sent_eq).
  - calc.
Qed.

Lemma tx_id_kept_until_completion_witness :
  (tx_owned demo_collected 0 (mk_tx_slot 0xffff880000100000 8)
   /\ ~ on_freelist demo_collected 0)
  \/ completion_observed demo_answered 0.
Proof.
  refine (tx_id_kept_until_completion _ demo_answered demo_collected _ _ _ _ _ _).
  - calc.
  - calc.
  - exact demo_answered_reachable.
  - calc.
  - apply tx_step_gc. vm_compute. reflexivity.
Defined.







End Examples.

(** * Further properties *)

(** ** The freelist and the receive slot table *)

Section Tables.
Context `{Config} `{Kernel}.

(** X1. Taking the head of the freelist and giving the same id back, with
    the head [get_id_from_freelist] left, restores both the head and the
    slot table, when the head and the link of its slot fit the 16 bits
    of an id. *)
Theorem freelist_get_add_inverse head slots s id head' :
  0 <= head < 2 ^ 16 ->
  slots !! Z.to_nat head = Some s -> 0 <= tx_link s < 2 ^ 16 ->
  get_id_from_freelist head slots = Done (id, head') ->
  id = head /\ head' = tx_link s /\
  add_id_to_freelist head' slots id = Done (head, slots).
Proof.
  intros Hh Hs Hl E. unfold get_id_from_freelist in E.
  assert (Es : slot_at slots head = Done s) by (apply slot_at_Done; split; [lia|done]).
  rewrite Es in E. ksimpl in E. injection E as <- <-.
  rewrite (u16_small head), (u32_small (tx_link s)) by lia.
  split; [done|]. split; [done|].
  unfold add_id_to_freelist. rewrite (u16_small head) by lia. rewrite Es. ksimpl.
  unfold skb_entry_set_link. rewrite (u16_small (tx_link s)) by lia.
  destruct s as [l g]. cbn. by rewrite list_insert_id.
Qed.

(** X2. Taking an id from a freelist that holds the ids [id0 :: rest]
    returns [id0] and leaves a freelist that holds [rest]: ids come out
    in the order of the chain. *)
Theorem freelist_get_pops_head slots head id0 rest id head' :
  Z.of_nat (length slots) <= 2 ^ 16 ->
  freelist_chain slots head (id0 :: rest) -> NoDup (id0 :: rest) ->
  get_id_from_freelist head slots = Done (id, head') ->
  id = id0 /\ id0 = head /\ freelist_chain slots head' rest /\ id0 ∉ rest.
Proof.
  intros Hlen Hc Hnd E.
  destruct (get_id_from_freelist_chain _ _ _ _ _ Hlen Hc Hnd E)
    as (s & rest' & El & Eid & _ & _ & Hc' & _ & Hnin).
  injection El as <- <-. done.
Qed.

(** X3. [setup_netfront] puts every id on the freelist, in increasing
    order, and leaves every receive slot empty. *)
Theorem setup_netfront_freelist txmem rxmem tx_pool rx_pool dev :
  0 <= NET_TX_RING_SIZE < 2 ^ 16 -> 2 ^ 16 <= PAGE_OFFSET ->
  let np := setup_netfront txmem rxmem tx_pool rx_pool dev in
  freelist_chain (tx_slots np) (tx_skb_freelist np)
    (Z.of_nat <$> seq 0 (Z.to_nat NET_TX_RING_SIZE)) /\
  (forall id s, tx_slots np !! id = Some s ->
     skb_entry_is_link s = true /\ tx_gref s = GRANT_INVALID_REF) /\
  (forall i s, rx_slots np !! i = Some s ->
     rx_skb s = None /\ rx_gref s = GRANT_INVALID_REF).
Proof.
  intros HN HPO np. split; [|split].
  - unfold np, setup_netfront. cbn [tx_slots tx_skb_freelist].
    apply (setup_netfront_chain HPO (Z.to_nat NET_TX_RING_SIZE) ltac:(lia) _ 0%nat).
    lia.
  - intros id s Hs. unfold np, setup_netfront in Hs. cbn [tx_slots] in Hs.
    change (map ?f ?l) with (f <$> l) in Hs. rewrite list_lookup_fmap in Hs.
    destruct (seq 0 (Z.to_nat NET_TX_RING_SIZE) !! id) as [i|] eqn:Ei; [|done].
    injection Hs as <-. apply lookup_seq in Ei as [-> Hi]. split; [|done].
    unfold skb_entry_is_link. cbn. apply Z.ltb_lt.
    pose proof (u16_range (Z.of_nat id + 1)). lia.
  - intros i s Hs. unfold np, setup_netfront in Hs. cbn [rx_slots] in Hs.
    apply lookup_replicate in Hs as [-> _]. done.
Qed.

Lemma xennet_rxidx_range k idx :
  0 <= k -> NET_RX_RING_SIZE = 2 ^ k -> 0 <= xennet_rxidx idx < 2 ^ k.
Proof.
  intros Hk E. unfold xennet_rxidx. rewrite E.
  replace (2 ^ k - 1) with (Z.ones k) by (rewrite Z.ones_equiv; lia).
  rewrite Z.land_ones by done. apply Z.mod_pos_bound. lia.
Qed.

(** X4. On a table of [NET_RX_RING_SIZE] slots, a power of two, every ring
    index names a slot: [xennet_get_rx_skb] and [xennet_get_rx_ref] run to
    their end, return what the slot holds and empty it, so that a second
    read at the same index, or at an index one ring size further, finds
    no buffer and the invalid grant reference. *)
Theorem rx_slot_taken_once k ri np :
  0 <= k -> NET_RX_RING_SIZE = 2 ^ k ->
  Z.of_nat (length (rx_slots np)) = 2 ^ k ->
  exists s np1 np2,
    rx_slots np !! Z.to_nat (xennet_rxidx ri) = Some s /\
    xennet_get_rx_skb ri np = Done (rx_skb s, np1) /\
    xennet_get_rx_ref ri np1 = Done (rx_gref s, np2) /\
    xennet_get_rx_skb ri np2 = Done (None, np2) /\
    xennet_get_rx_ref ri np2 = Done (GRANT_INVALID_REF, np2) /\
    xennet_get_rx_skb (ri + 2 ^ k) np2 = Done (None, np2).
Proof.
  intros Hk EN Hlen.
  pose proof (xennet_rxidx_range k ri Hk EN) as Hi.
  assert (Hlt : (Z.to_nat (xennet_rxidx ri) < length (rx_slots np))%nat) by lia.
  destruct (lookup_lt_is_Some_2 _ _ Hlt) as [s Hs].
  assert (Es : slot_at (rx_slots np) (xennet_rxidx ri) = Done s).
  { apply slot_at_Done. split; [lia|done]. }
  assert (Eper : xennet_rxidx (ri + 2 ^ k) = xennet_rxidx ri).
  { unfold xennet_rxidx. rewrite EN.
    replace (2 ^ k - 1) with (Z.ones k) by (rewrite Z.ones_equiv; lia).
    rewrite !Z.land_ones by done.
    rewrite <- (Z.mul_1_l (2 ^ k)) at 1. apply Z.mod_add. lia. }
  eexists s, _, _. split; [done|].
  unfold xennet_get_rx_skb, xennet_get_rx_ref. rewrite Eper.
  rewrite Es. ksimpl. split; [reflexivity|].
  cbn [rx_slots set_rx_slots]. rewrite slot_at_insert_eq by (lia || done). ksimpl.
  split; [reflexivity|]. cbn [rx_slots set_rx_slots rx_skb rx_gref].
  rewrite !list_insert_insert_eq.
  rewrite slot_at_insert_eq by (lia || done). ksimpl.
  cbn [rx_slots set_rx_slots rx_skb rx_gref]. rewrite !list_insert_insert_eq.
  done.
Qed.

(** X5. Requeuing a buffer puts it, with its grant, in the slot of the
    request producer and writes a request that names that slot and that
    grant: reading the slot back at that ring index returns the same
    buffer and the same grant. *)
Theorem rx_move_then_get skb ref np np1 :
  xennet_move_rx_slot skb ref np = Done np1 ->
  let idx := req_prod_pvt (rx np) in
  RING_GET_REQUEST (rx np1) idx = Done (mk_rx_request (xennet_rxidx idx) ref) /\
  req_prod_pvt (rx np1) = u32 (idx + 1) /\
  exists np2 np3,
    xennet_get_rx_skb idx np1 = Done (skb, np2) /\
    xennet_get_rx_ref idx np2 = Done (ref, np3).
Proof.
  intros E idx. unfold xennet_move_rx_slot in E. fold idx in E.
  kinv E as s Es. kinv E as u Eb. kinv E as r Er. injection E as <-.
  destruct (slot_at_length _ _ _ Es) as [Hi Hlt].
  unfold RING_PUT_REQUEST in Er. kinv Er as s0 Eg.
  apply RING_PUT_Done in Er as ->. cbn [rx set_rx_slots] in Eg.
  unfold RING_GET in Eg. destruct (slot_at_length _ _ _ Eg) as [Hp Hplt].
  split; [|split; [reflexivity|]].
  - unfold RING_GET_REQUEST, RING_GET. cbn.
    change (Z.land idx (nr_ents (rx np) - 1)) with (ring_pos (rx np) idx).
    rewrite slot_at_insert_eq by done. reflexivity.
  - eexists _, _. unfold xennet_get_rx_skb, xennet_get_rx_ref.
    cbn [rx_slots set_rx_slots set_rx]. rewrite slot_at_insert_eq by done. ksimpl.
    split; [reflexivity|].
    cbn [rx_slots set_rx_slots set_rx rx_skb rx_gref].
    rewrite slot_at_insert_eq by (by rewrite ?length_insert). ksimpl. reflexivity.
Qed.

End Tables.

(** ** The receive path *)

Section RxPath.
Context `{Config} `{Kernel}.

Lemma get_extras_loop_count n :
  forall rp cons extras err np np' extras' err' cons',
    get_extras_loop n rp cons extras err np = Done (np', extras', err', cons') ->
    exists k, 0 <= k /\
      (k = 0 -> cons' = cons /\ req_prod_pvt (rx np') = req_prod_pvt (rx np)) /\
      (0 < k -> cons' = u32 (cons + k) /\
                req_prod_pvt (rx np') = u32 (req_prod_pvt (rx np) + k)) /\
      (u32 (cons + 1) = rp -> k = 0 /\ err' = - EBADR /\ extras' = extras) /\
      gnttab np' = gnttab np /\ gref_rx_head np' = gref_rx_head np /\
      length extras' = length extras.
Proof.
  induction n as [|n IH]; intros rp cons extras err np np' extras' err' cons' E;
    simpl in E; destruct (Z.eqb_spec (u32 (cons + 1)) rp) as [Erp|Hrp];
    try discriminate;
    try (injection E as <- <- <- <-; exists 0; repeat split; (done || lia)).
  kinv E as s Es.
  destruct (if (extra_type (slot_extra s) =? 0) || _ then _ else _)
    as [ex1 err1] eqn:Eex.
  assert (Hlen1 : length ex1 = length extras).
  { destruct (_ || _); injection Eex as <- <-; by rewrite ?length_insert. }
  kinv2 E as skb np1 Eskb. kinv2 E as ref np2 Eref. kinv E as np3 Emv.
  apply xennet_get_rx_skb_Done in Eskb as (s1 & _ & _ & ->).
  apply xennet_get_rx_ref_Done in Eref as (s2 & _ & _ & ->).
  apply xennet_move_rx_slot_Done in Emv as (_ & Eg & Ep & Erq & _).
  cbn in Eg, Ep, Erq.
  destruct (has_flag _ _).
  - apply IH in E as (k & Hk & Hk0 & Hkp & _ & Eg' & Ep' & Hlen').
    exists (k + 1). split; [lia|]. split; [lia|]. split.
    { intros _. destruct (Z.eq_dec k 0) as [->|Hne].
      - destruct (Hk0 eq_refl) as [-> ->]. rewrite Erq. done.
      - destruct (Hkp ltac:(lia)) as [-> ->]. rewrite Erq, !u32_add_l.
        split; f_equal; lia. }
    split; [done|]. split; [congruence|]. split; [congruence|]. congruence.
  - injection E as <- <- <- <-. exists 1. split; [lia|]. split; [lia|].
    split; [done|]. split; [done|]. done.
Qed.

(** X6. [xennet_get_extras] gives back one request for every extra-info
    slot it consumes: the consumer index and the request producer move by
    the same count, no grant is ended or released, and the array of
    records keeps its size.  When the producer is reached at once,
    nothing is consumed and the error is [-EBADR]. *)
Theorem xennet_get_extras_requeues extras rp np np' extras' err :
  0 <= rsp_cons (rx np) < 2 ^ 32 -> 0 <= req_prod_pvt (rx np) < 2 ^ 32 ->
  xennet_get_extras extras rp np = Done (np', extras', err) ->
  exists k, 0 <= k /\
    rsp_cons (rx np') = u32 (rsp_cons (rx np) + k) /\
    req_prod_pvt (rx np') = u32 (req_prod_pvt (rx np) + k) /\
    gnttab np' = gnttab np /\ gref_rx_head np' = gref_rx_head np /\
    length extras' = length extras /\
    (u32 (rsp_cons (rx np) + 1) = rp -> k = 0 /\ err = - EBADR /\ extras' = extras).
Proof.
  intros Hc Hp E. unfold xennet_get_extras in E.
  apply kbind_Done in E as ([[[np1 ex1] err1] cons1] & El & E). cbn beta iota in E.
  injection E as <- <- <-.
  apply get_extras_loop_count in El as (k & Hk & Hk0 & Hkp & Hrp & Eg & Ep & Hlen).
  exists k. split; [done|]. cbn.
  destruct (Z.eq_dec k 0) as [->|Hne].
  - destruct (Hk0 eq_refl) as [-> ->]. rewrite !Z.add_0_r, !u32_small by done. done.
  - destruct (Hkp ltac:(lia)) as [-> ->]. done.
Qed.



Lemma checksum_setup_frame skb np :
  netdev (checksum_setup skb np).1.2 = netdev np /\
  stats (checksum_setup skb np).1.2 = stats np /\
  delivered (checksum_setup skb np).1.2 = delivered np.
Proof.
  unfold checksum_setup.
  destruct (negb (skb_ip_summed skb =? CHECKSUM_PARTIAL) && skb_is_gso skb); cbn;
    [done|]. by destruct (negb (skb_ip_summed skb =? CHECKSUM_PARTIAL)).
Qed.

(** X8. [handle_incoming_queue] hands up or drops every packet of the
    queue: the count it returns is the number dropped, each of which
    adds one receive error, and every other packet is counted as
    received and handed to the stack. *)
Theorem handle_incoming_queue_accounts rxq np :
  let np' := (handle_incoming_queue rxq np).1 in
  let dropped := (handle_incoming_queue rxq np).2 in
  0 <= dropped <= Z.of_nat (length rxq) /\
  Z.of_nat (length (delivered np'))
    = Z.of_nat (length (delivered np)) + Z.of_nat (length rxq) - dropped /\
  rx_errors (netdev np') = rx_errors (netdev np) + dropped /\
  rx_packets (stats np')
    = rx_packets (stats np) + Z.of_nat (length rxq) - dropped /\
  tx_packets (stats np') = tx_packets (stats np) /\
  tx_dropped (netdev np') = tx_dropped (netdev np).
Proof.
  revert np. induction rxq as [|skb rest IH]; intros np; cbn zeta.
  { cbn. repeat split; lia. }
  cbn [handle_incoming_queue length].
  pose proof (checksum_setup_frame
                (pskb_pull_tail skb (skb_pull_to skb - skb_headlen skb)) np) as Hc.
  destruct (checksum_setup _ np) as [[skb' np1] e]. cbn [fst snd] in Hc.
  destruct Hc as (D1 & S1 & L1).
  destruct (negb (e =? 0)).
  - match goal with |- context [handle_incoming_queue rest ?x] =>
      pose proof (IH x) as Hi; destruct (handle_incoming_queue rest x) as [np2 d] end.
    cbn [fst snd] in Hi |- *. cbn in Hi.
    rewrite D1, S1, L1 in Hi. destruct Hi as (? & ? & ? & ? & ? & ?).
    repeat split; lia.
  - match goal with |- context [handle_incoming_queue rest ?x] =>
      pose proof (IH x) as Hi; destruct (handle_incoming_queue rest x) as [np2 d] end.
    cbn [fst snd] in Hi |- *. cbn in Hi. rewrite length_app in Hi. cbn in Hi.
    rewrite D1, S1, L1 in Hi. destruct Hi as (? & ? & ? & ? & ? & ?).
    repeat split; lia.
Qed.

(** What the parser and the refill leave alone: the counters of the
    device and the packets handed up. *)
Lemma xennet_move_rx_slot_frame skb ref np np' :
  xennet_move_rx_slot skb ref np = Done np' ->
  delivered np' = delivered np /\ stats np' = stats np.
Proof.
  unfold xennet_move_rx_slot. intros E. kinv E as s Es. kinv E as u Eb.
  kinv E as r Er. by injection E as <-.
Qed.

Lemma get_extras_loop_frame n :
  forall rp cons extras err np np' extras' err' cons',
    get_extras_loop n rp cons extras err np = Done (np', extras', err', cons') ->
    delivered np' = delivered np /\ stats np' = stats np.
Proof.
  induction n as [|n IH]; intros rp cons extras err np np' extras' err' cons' E;
    simpl in E; destruct (u32 (cons + 1) =? rp);
    try discriminate; try (by injection E as <- _ _ _).
  kinv E as s Es.
  destruct (if (extra_type (slot_extra s) =? 0) || _ then _ else _) as [ex1 err1].
  kinv2 E as skb np1 Eskb. kinv2 E as ref np2 Eref. kinv E as np3 Emv.
  apply xennet_get_rx_skb_Done in Eskb as (s1 & _ & _ & ->).
  apply xennet_get_rx_ref_Done in Eref as (s2 & _ & _ & ->).
  apply xennet_move_rx_slot_frame in Emv as [D3 S3]. cbn in D3, S3.
  destruct (has_flag _ _).
  - apply IH in E as [D S]. split; congruence.
  - by injection E as <- _ _ _.
Qed.

Lemma get_responses_check_frame rsp skb ref q err np np' q' err' :
  get_responses_check rsp skb ref q err np = Done (np', q', err') ->
  delivered np' = delivered np /\ stats np' = stats np.
Proof.
  unfold get_responses_check. intros E.
  destruct (_ || _).
  { kinv E as np1 Emv. injection E as <- _ _. by eapply xennet_move_rx_slot_frame. }
  destruct (ref =? GRANT_INVALID_REF); [by injection E as <- _ _|].
  destruct (gnttab_end_foreign_access_ref ref (gnttab np)) as [ret gt].
  kinv E as u Eb. destruct skb; [|discriminate]. by injection E as <- _ _.
Qed.

Lemma get_responses_loop_frame n :
  forall rp cons rsp skb ref frags q err np r,
    get_responses_loop n rp cons rsp skb ref frags q err np = Done r ->
    delivered r.1.1.1 = delivered np /\ stats r.1.1.1 = stats np.
Proof.
  induction n as [|n IH]; intros rp cons rsp skb ref frags q err np r E; simpl in E.
  - apply kbind_Done in E as ([[np1 q1] err1] & Echk & E). cbn beta iota in E.
    apply get_responses_check_frame in Echk.
    destruct (negb _); [by injection E as <-|].
    destruct (_ =? rp); [by injection E as <-|discriminate].
  - apply kbind_Done in E as ([[np1 q1] err1] & Echk & E). cbn beta iota in E.
    apply get_responses_check_frame in Echk as [D1 S1].
    destruct (negb _); [by injection E as <-|].
    destruct (_ =? rp); [by injection E as <-|].
    kinv E as rsp2 Ersp. kinv2 E as skb2 np2 Eskb. kinv2 E as ref2 np3 Eref.
    apply xennet_get_rx_skb_Done in Eskb as (s1 & _ & _ & ->).
    apply xennet_get_rx_ref_Done in Eref as (s2 & _ & _ & ->).
    apply IH in E as [D S]. cbn in D, S. split; congruence.
Qed.

Lemma xennet_get_responses_frame rsp extras rp q np np' extras' q' err :
  xennet_get_responses rsp extras rp q np = Done (np', extras', q', err) ->
  delivered np' = delivered np /\ stats np' = stats np.
Proof.
  unfold xennet_get_responses. intros E.
  kinv2 E as skb np1 Eskb. kinv2 E as ref np2 Eref.
  apply kbind_Done in E as ([[np3 ex3] err3] & Eex & E). cbn beta iota in E.
  apply kbind_Done in E as ([[[np4 q4] err4] frags] & El & E). cbn beta iota in E.
  injection E as <- _ _ _.
  apply xennet_get_rx_skb_Done in Eskb as (s1 & _ & _ & ->).
  apply xennet_get_rx_ref_Done in Eref as (s2 & _ & _ & ->).
  apply get_responses_loop_frame in El as [D4 S4]. cbn [fst] in D4, S4.
  assert (K3 : delivered np3 = delivered np /\ stats np3 = stats np).
  { destruct (has_flag _ _); [|by injection Eex as <- _ _].
    unfold xennet_get_extras in Eex.
    apply kbind_Done in Eex as ([[[npa exa] erra] consa] & Ela & Eex).
    cbn beta iota in Eex. injection Eex as <- _ _.
    apply get_extras_loop_frame in Ela as [Da Sa]. cbn in Da, Sa |- *. done. }
  destruct K3 as [D3 S3].
  destruct (negb _); cbn; split; congruence.
Qed.

(** One turn of the poll loop adds at most one packet to the queue,
    exactly when it adds one to the work done. *)
Lemma poll_packet_work rp ps ps' :
  poll_packet rp ps = Done ps' ->
  delivered (poll_np ps') = delivered (poll_np ps) /\
  stats (poll_np ps') = stats (poll_np ps) /\
  poll_work_done ps <= poll_work_done ps' <= poll_work_done ps + 1 /\
  Z.of_nat (length (poll_rxq ps')) - poll_work_done ps'
  = Z.of_nat (length (poll_rxq ps)) - poll_work_done ps.
Proof.
  unfold poll_packet. intros E. kinv E as rsp Ersp.
  apply kbind_Done in E as ([[[np' ex'] q'] err] & Eg & E). cbn beta iota in E.
  apply xennet_get_responses_frame in Eg as [D S].
  destruct (negb (err =? 0)).
  { injection E as <-. cbn. repeat split; (done || lia). }
  destruct q' as [|skb tmpq]; [discriminate|].
  kinv E as gso Egso.
  destruct (if negb (extra_type gso =? 0) then _ else _) as [skb' gso_err].
  destruct (negb (gso_err =? 0)).
  { injection E as <-. cbn. repeat split; (done || lia). }
  kinv2 E as skb2 i Ef. injection E as <-. cbn. rewrite length_app. cbn.
  repeat split; (done || lia).
Qed.

Lemma poll_loop_work n :
  forall rp budget ps ps',
    poll_loop n rp budget ps = Done ps' ->
    delivered (poll_np ps') = delivered (poll_np ps) /\
    stats (poll_np ps') = stats (poll_np ps) /\
    poll_work_done ps <= poll_work_done ps' /\
    poll_work_done ps' <= Z.max budget (poll_work_done ps) /\
    Z.of_nat (length (poll_rxq ps')) - poll_work_done ps'
    = Z.of_nat (length (poll_rxq ps)) - poll_work_done ps.
Proof.
  induction n as [|n IH]; intros rp budget ps ps' E; simpl in E;
    destruct (negb (poll_i ps =? rp)) eqn:Ei;
    destruct (Z.ltb_spec (poll_work_done ps) budget) as [Hlt|Hge];
    cbn [andb] in E; try discriminate;
    try (injection E as <-; repeat split; (done || lia)).
  kinv E as ps1 E1. apply poll_packet_work in E1 as (D1 & S1 & W1 & L1).
  apply IH in E as (D & S & W & B & L).
  repeat split; (congruence || lia).
Qed.

Lemma alloc_rx_refill_loop_frame batch :
  forall req_prod i np np' i',
    alloc_rx_refill_loop batch req_prod i np = Done (np', i') ->
    delivered np' = delivered np /\ stats np' = stats np.
Proof.
  induction batch as [|skb rest IH]; intros req_prod i np np' i' E; simpl in E.
  { by injection E as <- _. }
  kinv E as s Es. kinv E as u Eb.
  destruct (gnttab_claim_grant_reference (gref_rx_head np)) as [ref pool].
  kinv E as u' Eb'. kinv E as r Er. apply IH in E as [D S]. done.
Qed.

Lemma alloc_rx_push_frame np :
  delivered (alloc_rx_push np) = delivered np /\ stats (alloc_rx_push np) = stats np.
Proof.
  unfold alloc_rx_push, RING_PUSH_REQUESTS_AND_CHECK_NOTIFY. by destruct (_ <? _).
Qed.

Lemma alloc_rx_refill_frame req_prod np np' :
  alloc_rx_refill req_prod np = Done np' ->
  delivered np' = delivered np /\ stats np' = stats np.
Proof.
  unfold alloc_rx_refill. intros E. kinv2 E as np1 i El. injection E as <-.
  apply alloc_rx_refill_loop_frame in El as [D S].
  destruct (alloc_rx_push_frame
              (set_rx (set_req_prod_pvt (u32 (req_prod + i)) (rx np1)) np1)) as [D' S'].
  rewrite D', S'. cbn. done.
Qed.

Lemma rx_target_grow_frame req_prod np :
  delivered (rx_target_grow req_prod np) = delivered np /\
  stats (rx_target_grow req_prod np) = stats np.
Proof.
  unfold rx_target_grow. destruct (rx_target_grows _ _); [|done].
  by destruct (_ >? _).
Qed.

Lemma xennet_alloc_rx_buffers_frame fresh np np' :
  xennet_alloc_rx_buffers fresh np = Done np' ->
  delivered np' = delivered np /\ stats np' = stats np.
Proof.
  unfold xennet_alloc_rx_buffers. intros E. cbv zeta in E.
  destruct (negb (carrier_ok (netdev np))); [by injection E as <-|].
  destruct (_ && _).
  { by apply alloc_rx_refill_frame in E. }
  destruct (_ <? _).
  { destruct (_ >? _); injection E as <-;
      rewrite ?(proj1 (alloc_rx_push_frame _)), ?(proj2 (alloc_rx_push_frame _));
      by destruct (bool_decide _). }
  apply alloc_rx_refill_frame in E as [D S].
  rewrite (proj1 (rx_target_grow_frame _ _)) in D.
  rewrite (proj2 (rx_target_grow_frame _ _)) in S.
  by destruct (bool_decide _).
Qed.

(** X9. The value [xennet_poll] returns is the number of packets it handed
    to the stack, which is never negative and never above the budget;
    with the carrier down it is 0 and nothing changes. *)
Theorem xennet_poll_budget budget fresh np np' work_done :
  0 <= budget ->
  xennet_poll budget fresh np = Done (np', work_done) ->
  0 <= work_done <= budget /\
  Z.of_nat (length (delivered np')) = Z.of_nat (length (delivered np)) + work_done /\
  rx_packets (stats np') = rx_packets (stats np) + work_done /\
  (carrier_ok (netdev np) = false -> np' = np /\ work_done = 0).
Proof.
  intros Hb E. unfold xennet_poll in E.
  destruct (carrier_ok (netdev np)); cbn [negb] in E;
    [|injection E as <- <-; repeat split; (done || lia)].
  apply kbind_Done in E as ([[np1 rxq] wd0] & Ercv & E). cbn beta iota in E.
  unfold poll_receive in Ercv. kinv Ercv as ps Ep. injection Ercv as <- <- <-.
  apply poll_loop_work in Ep as (D1 & S1 & W1 & B1 & L1). cbn in D1, S1, W1, B1, L1.
  pose proof (handle_incoming_queue_accounts (poll_rxq ps) (poll_np ps)) as Hq.
  cbv zeta in Hq.
  destruct (handle_incoming_queue (poll_rxq ps) (poll_np ps)) as [np2 dropped].
  cbn [fst snd] in Hq. destruct Hq as (Hd & Hl & _ & Hp & _).
  cbv zeta in E. kinv E as np4 Ealloc.
  apply xennet_alloc_rx_buffers_frame in Ealloc as [D4 S4].
  assert (D3 : delivered (rx_target_shrink np2) = delivered np2
               /\ stats (rx_target_shrink np2) = stats np2).
  { unfold rx_target_shrink. destruct (rx_target_shrinks np2); [|done].
    cbn [rx_target rx_min_target set_rx_target].
    by destruct (u32 (rx_target np2 - 1) <? rx_min_target np2). }
  destruct D3 as [D3 S3].
  assert (Ef : delivered np' = delivered np4 /\ stats np' = stats np4
               /\ work_done = poll_work_done ps - dropped).
  { destruct (_ <? budget); [|by injection E as <- <-].
    destruct (RING_FINAL_CHECK_FOR_RESPONSES (rx np4)) as [r more].
    injection E as <- <-. by destruct more. }
  destruct Ef as (-> & -> & ->).
  rewrite D4, S4, D3, S3, Hl, Hp, D1, S1.
  split; [lia|]. split; [lia|]. split; [lia|]. done.
Qed.

End RxPath.

(** ** Accepted responses and segmentation records *)

Section RxAccept.
Context `{Config} `{Kernel}.

(** X10. A chain of one well-formed response whose slot holds a buffer and a
    valid grant: when the backend has let go of the page, the grant is
    ended and goes back to the receive pool and the buffer is handed to
    the list, with the consumer index left for the caller to move; when
    the backend still maps the page, the parser halts the machine. *)
Theorem xennet_get_responses_single rsp extras rp q np s b :
  1 <= MAX_SKB_FRAGS ->
  has_flag (rxrsp_flags rsp) XEN_NETRXF_extra_info = false ->
  has_flag (rxrsp_flags rsp) XEN_NETRXF_more_data = false ->
  rx_bad rsp (rx_gref s) = false ->
  slot_at (rx_slots np) (xennet_rxidx (rsp_cons (rx np))) = Done s ->
  rx_skb s = Some b ->
  (gnttab_query_foreign_access (rx_gref s) (gnttab np) = true ->
   xennet_get_responses rsp extras rp q np = Oops BUG) /\
  (gnttab_query_foreign_access (rx_gref s) (gnttab np) = false ->
   exists np',
     xennet_get_responses rsp extras rp q np = Done (np', extras, q ++ [b], 0) /\
     gnttab np' = delete (rx_gref s) (gnttab np) /\
     gref_rx_head np' = rx_gref s :: gref_rx_head np /\
     rx np' = rx np /\
     rx_slots np' !! Z.to_nat (xennet_rxidx (rsp_cons (rx np)))
       = Some (mk_rx_slot None GRANT_INVALID_REF)).
Proof.
  intros Hmax Hex Hmore Hbad Hs Hb.
  destruct (slot_at_length _ _ _ Hs) as [Hi Hilt].
  unfold rx_bad in Hbad. apply orb_false_iff in Hbad as [Hoff Href].
  set (i := xennet_rxidx (rsp_cons (rx np))) in *.
  set (sl2 := <[Z.to_nat i := mk_rx_slot None GRANT_INVALID_REF]>
                (<[Z.to_nat i := mk_rx_slot None (rx_gref s)]> (rx_slots np))).
  assert (Estart : xennet_get_responses rsp extras rp q np
    = ('(np1, q1, err1, frags) ←
         get_responses_loop (Z.to_nat (u32 (rp - rsp_cons (rx np) - 1))) rp
           (rsp_cons (rx np)) rsp (Some b) (rx_gref s) 1 q 0 (set_rx_slots sl2 np);
       let err := if frags >? rx_max_frags rsp then - E2BIG else err1 in
       let np1 := if negb (err =? 0)
                  then set_rx (set_rsp_cons (u32 (rsp_cons (rx np) + frags)) (rx np1)) np1
                  else np1 in
       Done (np1, extras, q1, err))).
  { unfold xennet_get_responses, xennet_get_rx_skb, xennet_get_rx_ref.
    fold i. rewrite Hs. ksimpl. cbn [rx_slots set_rx_slots rx].
    rewrite slot_at_insert_eq by done. ksimpl. cbn [rx_gref rx_skb].
    rewrite Hex, Hb. ksimpl. reflexivity. }
  rewrite Estart. clear Estart.
  assert (Hfr : (1 >? rx_max_frags rsp) = false).
  { unfold rx_max_frags. destruct (_ <=? _); lia. }
  split; intros Hq.
  - assert (El : forall n, get_responses_loop n rp (rsp_cons (rx np)) rsp (Some b)
                  (rx_gref s) 1 q 0 (set_rx_slots sl2 np) = Oops BUG).
    { intros n. destruct n; simpl; unfold get_responses_check; rewrite Hoff, Href;
        cbn [gnttab set_rx_slots]; unfold gnttab_end_foreign_access_ref;
        rewrite Hq; reflexivity. }
    rewrite El. reflexivity.
  - eexists.
    assert (El : forall n, get_responses_loop n rp (rsp_cons (rx np)) rsp (Some b)
                  (rx_gref s) 1 q 0 (set_rx_slots sl2 np)
                  = Done (set_gref_rx_head
                            (gnttab_release_grant_reference (gref_rx_head np) (rx_gref s))
                            (set_gnttab (delete (rx_gref s) (gnttab np))
                               (set_rx_slots sl2 np)), q ++ [b], 0, 1)).
    { intros n. destruct n; simpl; unfold get_responses_check; rewrite Hoff, Href;
        cbn [gnttab set_rx_slots gref_rx_head]; unfold gnttab_end_foreign_access_ref;
        rewrite Hq; ksimpl; rewrite Hmore; reflexivity. }
    rewrite El. ksimpl. rewrite Hfr. cbn [Z.eqb negb].
    split; [reflexivity|]. cbn. split; [done|]. split; [done|]. split; [done|].
    unfold sl2. apply list_lookup_insert_eq. by rewrite length_insert.
Qed.

(** X11. A packet the parser accepts whose segmentation record has size zero
    or a type other than TCPv4 is not handed up: all its buffers go to
    the error queue, one receive error is counted, and the consumer
    index moves past every response of the packet. *)
Theorem poll_packet_bad_gso rp ps rsp np' extras' q' gso :
  RING_GET_RESPONSE (rx (poll_np ps)) (poll_i ps) = Done rsp ->
  xennet_get_responses rsp
    (replicate (Z.to_nat (XEN_NETIF_EXTRA_TYPE_MAX - 1)) no_extra) rp []
    (poll_np ps) = Done (np', extras', q', 0) ->
  slot_at extras' (XEN_NETIF_EXTRA_TYPE_GSO - 1) = Done gso ->
  extra_type gso <> 0 ->
  gso_size gso = 0 \/ gso_type gso <> XEN_NETIF_GSO_TYPE_TCPV4 ->
  exists ps',
    poll_packet rp ps = Done ps' /\
    rx_errors (netdev (poll_np ps')) = rx_errors (netdev (poll_np ps)) + 1 /\
    poll_errq ps' = poll_errq ps ++ q' /\
    poll_rxq ps' = poll_rxq ps /\ poll_work_done ps' = poll_work_done ps /\
    poll_i ps' = rsp_cons (rx (poll_np ps')) /\
    rsp_cons (rx (poll_np ps')) = u32 (rsp_cons (rx np') + Z.of_nat (length q')) /\
    0 < Z.of_nat (length q').
Proof.
  intros Ersp Eg Egso Hty Hgso.
  destruct (xennet_get_responses_Done _ _ _ _ _ _ _ _ _ Eg)
    as (_ & D & cons & frags & _ & _ & H1 & _ & Hok & _).
  destruct (Hok eq_refl) as (_ & Hlen & _). cbn in Hlen.
  destruct q' as [|skb tmpq]; [cbn in Hlen; lia|].
  assert (Eset : xennet_set_skb_gso skb gso = (skb, - EINVAL)).
  { unfold xennet_set_skb_gso. destruct (Z.eqb_spec (gso_size gso) 0); [done|].
    destruct Hgso as [|Hne]; [done|]. apply Z.eqb_neq in Hne. by rewrite Hne. }
  eexists. split.
  - unfold poll_packet. rewrite Ersp. ksimpl. rewrite Eg. ksimpl.
    cbn [Z.eqb negb]. rewrite Egso. ksimpl.
    apply Z.eqb_neq in Hty. rewrite Hty. cbn [negb]. rewrite Eset.
    cbn [Z.eqb negb EINVAL Z.opp]. reflexivity.
  - cbn. rewrite D. repeat split; (done || lia).
Qed.

End RxAccept.

(** ** Posting receive buffers *)

Section RxSupply.
Context `{Config} `{Kernel}.

(** A slot that holds a buffer is never written by the refill loop,
    which halts on it instead. *)
Lemma alloc_rx_refill_loop_posts batch :
  forall req_prod i np np' i',
    alloc_rx_refill_loop batch req_prod i np = Done (np', i') ->
    i' = i + Z.of_nat (length batch) /\
    rx_batch np' = [] /\
    gref_rx_head np' = drop (length batch) (gref_rx_head np) /\
    (length batch <= length (gref_rx_head np))%nat /\
    (forall idx s, rx_slots np !! idx = Some s -> is_Some (rx_skb s) ->
       rx_slots np' !! idx = Some s) /\
    (forall j skb, batch !! j = Some skb ->
       exists g, gref_rx_head np !! j = Some g /\
         rx_slots np' !! Z.to_nat (u16 (xennet_rxidx (u32 (req_prod + (i + Z.of_nat j)))))
         = Some (mk_rx_slot (Some skb) (u32 g))).
Proof.
  induction batch as [|skb rest IH]; intros req_prod i np np' i' E; simpl in E.
  { injection E as <- <-. cbn. rewrite drop_0. repeat split; try done; try lia. }
  kinv E as s Es. kinv E as u Eb. apply BUG_ON_Done in Eb.
  apply bool_decide_eq_false in Eb.
  destruct (gref_rx_head np) as [|g pool] eqn:Epool; cbn in E.
  { discriminate. }
  kinv E as u' Eb'. kinv E as r Er.
  apply IH in E as (Ei & Eb2 & Ep & Hlen & Hkeep & Hpost).
  cbn [gref_rx_head set_rx set_gnttab set_gref_rx_head rx_slots set_rx_slots] in *.
  destruct (slot_at_length _ _ _ Es) as [Hid Hidlt].
  split; [cbn [length]; lia|]. split; [done|]. split; [done|].
  split; [cbn [length]; lia|].
  split.
  { intros idx s0 Hs0 Hsome. apply Hkeep; [|done].
    rewrite list_lookup_insert_ne; [done|].
    intros <-. apply slot_at_Done in Es as [_ Es]. congruence. }
  intros [|j] skb0 Hj; cbn in Hj.
  - injection Hj as <-. exists g. split; [done|].
    rewrite Z.add_0_r. apply Hkeep; [|by eexists].
    by apply list_lookup_insert_eq.
  - destruct (Hpost _ _ Hj) as (g' & Hg' & Hs'). exists g'. split; [done|].
    rewrite <- Hs'. do 5 f_equal. lia.
Qed.

(** X12. From the [refill] label on, [xennet_alloc_rx_buffers] posts every
    staged buffer: the request producer moves by their number and is
    published, the staging list is left empty, every buffer sits in the
    slot its request names with a grant reference of its own taken from
    the front of the pool, and no slot that already held a buffer is
    overwritten. *)
Theorem alloc_rx_refill_posts req_prod np np' :
  alloc_rx_refill req_prod np = Done np' ->
  let n := length (rx_batch np) in
  req_prod_pvt (rx np') = u32 (req_prod + Z.of_nat n) /\
  sring_req_prod (rx np') = u32 (req_prod + Z.of_nat n) /\
  rx_batch np' = [] /\
  gref_rx_head np' = drop n (gref_rx_head np) /\
  (n <= length (gref_rx_head np))%nat /\
  (forall idx s, rx_slots np !! idx = Some s -> is_Some (rx_skb s) ->
     rx_slots np' !! idx = Some s) /\
  (forall j skb, rx_batch np !! j = Some skb ->
     exists g, gref_rx_head np !! j = Some g /\
       rx_slots np' !! Z.to_nat (u16 (xennet_rxidx (u32 (req_prod + Z.of_nat j))))
       = Some (mk_rx_slot (Some skb) (u32 g))).
Proof.
  intros E n. unfold alloc_rx_refill in E. kinv2 E as np1 i El. injection E as <-.
  apply alloc_rx_refill_loop_posts in El as (-> & Eb & Ep & Hlen & Hkeep & Hpost).
  assert (Epush : forall np0,
    rx_batch (alloc_rx_push np0) = rx_batch np0 /\
    gref_rx_head (alloc_rx_push np0) = gref_rx_head np0 /\
    rx_slots (alloc_rx_push np0) = rx_slots np0 /\
    req_prod_pvt (rx (alloc_rx_push np0)) = req_prod_pvt (rx np0) /\
    sring_req_prod (rx (alloc_rx_push np0)) = req_prod_pvt (rx np0)).
  { intros np0. unfold alloc_rx_push, RING_PUSH_REQUESTS_AND_CHECK_NOTIFY.
    by destruct (_ <? _). }
  destruct (Epush (set_rx (set_req_prod_pvt (u32 (req_prod + (0 + Z.of_nat (length (rx_batch np)))))
                             (rx np1)) np1)) as (B & P & S & R & Q).
  rewrite B, P, S, R, Q. cbn. rewrite Z.add_0_l.
  repeat split; done.
Qed.

(** X13. With a buffer staged, its slot free and the grant pool empty, the
    refill halts the machine. *)
Theorem alloc_rx_refill_pool_empty req_prod np skb rest s :
  rx_batch np = skb :: rest -> gref_rx_head np = [] ->
  slot_at (rx_slots np) (u16 (xennet_rxidx (u32 (req_prod + 0)))) = Done s ->
  rx_skb s = None ->
  alloc_rx_refill req_prod np = Oops BUG.
Proof.
  intros Eb Ep Es Hn. unfold alloc_rx_refill. rewrite Eb. simpl.
  rewrite Es. ksimpl. rewrite Hn. cbn. rewrite Ep. reflexivity.
Qed.

Lemma rx_target_grow_bounds req_prod np :
  rx_min_target (rx_target_grow req_prod np) = rx_min_target np /\
  rx_max_target (rx_target_grow req_prod np) = rx_max_target np.
Proof.
  unfold rx_target_grow. destruct (rx_target_grows req_prod np); [|done].
  cbn [rx_target rx_max_target set_rx_target].
  by destruct (u32 (rx_target np * 2) >? rx_max_target np).
Qed.

Lemma xennet_alloc_rx_buffers_bounds fresh np np' :
  xennet_alloc_rx_buffers fresh np = Done np' ->
  rx_min_target np' = rx_min_target np /\ rx_max_target np' = rx_max_target np.
Proof.
  intros E. destruct (rx_target_grow_bounds (req_prod_pvt (rx np)) np) as [G1 G2].
  destruct (xennet_alloc_rx_buffers_tunables _ _ _ E) as [Et|Et];
    unfold rx_tunables in Et; injection Et as -> _ ->; done.
Qed.

(** X14. A write to [rxbuf_min] or [rxbuf_max] stores the request clamped to
    [RX_MIN_TARGET .. RX_MAX_TARGET], moves the other bound only as far
    as needed to keep the two in order, and leaves the target between
    them. *)
Theorem store_rxbuf_clamps target fresh np :
  RX_DFL_MIN_TARGET <= RX_MAX_TARGET -> 0 <= target -> rx_inv np ->
  let clamped := Z.max RX_MIN_TARGET (Z.min target RX_MAX_TARGET) in
  (forall np', store_rxbuf_min target fresh np = Done np' ->
     rx_min_target np' = clamped /\
     rx_max_target np' = Z.max (rx_max_target np) clamped /\
     rx_min_target np' <= rx_target np' <= rx_max_target np') /\
  (forall np', store_rxbuf_max target fresh np = Done np' ->
     rx_max_target np' = clamped /\
     rx_min_target np' = Z.min (rx_min_target np) clamped /\
     rx_min_target np' <= rx_target np' <= rx_max_target np').
Proof.
  intros HRX Htg Hinv clamped. pose proof RX_MAX_TARGET_le as Hmax.
  pose proof Hinv as (H8 & Hmin & Ht & Hm).
  unfold RX_DFL_MIN_TARGET in HRX. unfold RX_MIN_TARGET in H8.
  split; intros np' E.
  - pose proof (store_rxbuf_min_inv _ _ _ _ HRX Htg Hinv E) as (_ & I1 & I2 & _).
    unfold store_rxbuf_min in E. cbv zeta in E.
    apply xennet_alloc_rx_buffers_bounds in E as [Emin Emax].
    rewrite Emin, Emax in *. clear Emin Emax.
    unfold clamped, RX_MIN_TARGET in *.
    destruct (Z.ltb_spec target 8);
      match goal with |- context [?a >? RX_MAX_TARGET] =>
        destruct (Z.gtb_spec a RX_MAX_TARGET) end;
      match goal with |- context [?a >? rx_max_target np] =>
        destruct (Z.gtb_spec a (rx_max_target np)) end;
      cbn [rx_target set_rx_min_target set_rx_max_target] in *;
      match goal with |- context [?a >? rx_target np] =>
        destruct (Z.gtb_spec a (rx_target np)) end;
      cbn in *; rewrite ?u32_small in * by lia; lia.
  - pose proof (store_rxbuf_max_inv _ _ _ _ HRX Htg Hinv E) as (_ & I1 & I2 & _).
    unfold store_rxbuf_max in E. cbv zeta in E.
    apply xennet_alloc_rx_buffers_bounds in E as [Emin Emax].
    rewrite Emin, Emax in *. clear Emin Emax.
    unfold clamped, RX_MIN_TARGET in *.
    destruct (Z.ltb_spec target 8);
      match goal with |- context [?a >? RX_MAX_TARGET] =>
        destruct (Z.gtb_spec a RX_MAX_TARGET) end;
      match goal with |- context [?a <? rx_min_target np] =>
        destruct (Z.ltb_spec a (rx_min_target np)) end;
      cbn [rx_target set_rx_min_target set_rx_max_target] in *;
      match goal with |- context [?a <? rx_target np] =>
        destruct (Z.ltb_spec a (rx_target np)) end;
      cbn in *; rewrite ?u32_small in * by lia; lia.
Qed.

End RxSupply.

(** ** Transmit: collection and ring room *)

Section TxMore.
Context `{Config} `{Kernel}.

(** X15. A response that names a slot whose grant the backend still maps
    makes the collection pass halt the machine. *)
Theorem tx_buf_gc_grant_in_use np rsp s :
  carrier_ok (netdev np) = true ->
  u32 (sring_rsp_prod (tx np) - rsp_cons (tx np)) <> 0 ->
  RING_GET_RESPONSE (tx np) (rsp_cons (tx np)) = Done rsp ->
  txrsp_status rsp <> XEN_NETIF_RSP_NULL ->
  slot_at (tx_slots np) (txrsp_id rsp) = Done s ->
  gnttab_query_foreign_access (tx_gref s) (gnttab np) = true ->
  xennet_tx_buf_gc np = Oops BUG.
Proof.
  intros Hc Hpend Ersp Hst Es Hq. unfold xennet_tx_buf_gc. rewrite Hc. cbn [negb BUG_ON].
  ksimpl. unfold tx_buf_gc_loop, tx_buf_gc_pass.
  destruct (Z.to_nat (u32 (sring_rsp_prod (tx np) - rsp_cons (tx np)))) as [|n] eqn:En.
  { pose proof (u32_range (sring_rsp_prod (tx np) - rsp_cons (tx np))). lia. }
  cbn [tx_buf_gc_scan]. unfold tx_buf_gc_one. rewrite Ersp. ksimpl.
  apply Z.eqb_neq in Hst. rewrite Hst. rewrite Es. ksimpl. rewrite Hq.
  reflexivity.
Qed.

(** X16. A collection pass over one response that names a slot holding a
    buffer whose grant the backend has let go of: the grant is ended and
    goes back to the transmit pool, the slot loses its grant reference
    and becomes the head of the freelist, linked to the old head, and the
    consumer index reaches the producer. *)
Theorem tx_buf_gc_collects_one np rsp s :
  carrier_ok (netdev np) = true ->
  u32 (sring_rsp_prod (tx np) - rsp_cons (tx np)) = 1 ->
  RING_GET_RESPONSE (tx np) (rsp_cons (tx np)) = Done rsp ->
  txrsp_status rsp <> XEN_NETIF_RSP_NULL ->
  0 <= txrsp_id rsp < 2 ^ 16 ->
  slot_at (tx_slots np) (txrsp_id rsp) = Done s ->
  PAGE_OFFSET <= tx_skb s ->
  gnttab_query_foreign_access (tx_gref s) (gnttab np) = false ->
  exists np',
    xennet_tx_buf_gc np = Done np' /\
    tx_skb_freelist np' = txrsp_id rsp /\
    tx_slots np'
    = <[Z.to_nat (txrsp_id rsp) :=
          mk_tx_slot (u16 (tx_skb_freelist np)) GRANT_INVALID_REF]> (tx_slots np) /\
    gref_tx_head np' = tx_gref s :: gref_tx_head np /\
    gnttab np' = delete (tx_gref s) (gnttab np) /\
    rsp_cons (tx np') = sring_rsp_prod (tx np).
Proof.
  intros Hc Hpend Ersp Hst Hid Es Hptr Hq.
  destruct (slot_at_length _ _ _ Es) as [_ Hlt].
  assert (Eone : tx_buf_gc_one (rsp_cons (tx np)) np
    = Done (set_tx_slots
              (<[Z.to_nat (txrsp_id rsp) :=
                   mk_tx_slot (u16 (tx_skb_freelist np)) GRANT_INVALID_REF]> (tx_slots np))
              (set_tx_skb_freelist (txrsp_id rsp)
                 (set_gref_tx_head (tx_gref s :: gref_tx_head np)
                    (set_gnttab (delete (tx_gref s) (gnttab np)) np))))).
  { unfold tx_buf_gc_one. rewrite Ersp. ksimpl.
    apply Z.eqb_neq in Hst. rewrite Hst. rewrite Es. ksimpl. rewrite Hq.
    cbn [BUG_ON]. ksimpl. unfold add_id_to_freelist.
    rewrite (u16_small (txrsp_id rsp)) by done.
    rewrite slot_at_insert_eq by (lia || done). ksimpl.
    unfold dev_kfree_skb_irq. destruct (Z.ltb_spec (tx_skb s) PAGE_OFFSET); [lia|].
    unfold gnttab_end_foreign_access_ref. rewrite Hq. cbn [snd].
    rewrite list_insert_insert_eq. reflexivity. }
  eexists. split.
  - unfold xennet_tx_buf_gc. rewrite Hc. cbn [negb BUG_ON]. ksimpl.
    unfold tx_buf_gc_loop, tx_buf_gc_pass. rewrite Hpend.
    change (Z.to_nat 1) with 1%nat. cbn [tx_buf_gc_scan]. rewrite Eone. ksimpl.
    cbn [tx set_tx_slots set_tx_skb_freelist set_gref_tx_head set_gnttab set_tx
         sring_rsp_prod set_rsp_cons set_sring_rsp_event].
    rewrite !Z.eqb_refl. cbn [andb negb]. reflexivity.
  - unfold xennet_maybe_wake_tx. destruct (_ && _ && _); cbn; done.
Qed.

Lemma mod_sub_idemp_l a b : u32 (u32 a - b) = u32 (a - b).
Proof. unfold u32. by rewrite Zminus_mod_idemp_l. Qed.

(** X17. A packet accepted while a transmit slot is available leaves at most
    [TX_MAX_TARGET] requests between the consumer index of before the
    call and the new request producer; and when the call returns with no
    slot available, the queue is stopped. *)
Theorem xmit_keeps_ring_room k skb np np' rc :
  0 < PAGE_SIZE < 2 ^ 16 -> 0 <= skb_data skb -> 0 <= skb_headlen skb < 2 ^ 32 ->
  0 <= k <= 32 -> nr_ents (tx np) = 2 ^ k -> MAX_SKB_FRAGS + 3 <= 2 ^ k ->
  xmit_must_drop skb np = false ->
  netfront_tx_slot_available np = true ->
  xennet_start_xmit skb np = Done (np', rc) ->
  u32 (req_prod_pvt (tx np') - rsp_cons (tx np)) <= TX_MAX_TARGET /\
  u32 (req_prod_pvt (tx np') - rsp_cons (tx np))
  = u32 (req_prod_pvt (tx np) - rsp_cons (tx np)) + xmit_requests skb + xmit_g skb /\
  (netfront_tx_slot_available np' = false -> queue_stopped (netdev np') = true).
Proof.
  intros HP Hd Hh Hk Hn Hfit Hacc Hav E.
  pose proof (xmit_accepted_fits skb np HP Hd Hh Hacc) as Hm.
  destruct (xmit_accepted_chain k skb np np' rc HP Hd Hh Hk Hn Hfit Hacc E)
    as (_ & Eprod & _).
  assert (Hreq : 1 <= xmit_requests skb).
  { rewrite xmit_requests_count by done. unfold nr_frags. lia. }
  assert (Hg : 0 <= xmit_g skb) by (destruct (xmit_g_cases skb); lia).
  assert (Htx : TX_MAX_TARGET <= 256).
  { unfold TX_MAX_TARGET, min_int. assert (E256 : s32 256 = 256) by reflexivity.
    rewrite E256. lia. }
  unfold netfront_tx_slot_available in Hav. apply Z.ltb_lt in Hav.
  pose proof (u32_range (req_prod_pvt (tx np) - rsp_cons (tx np))) as Hr.
  assert (Eout : u32 (req_prod_pvt (tx np') - rsp_cons (tx np))
    = u32 (req_prod_pvt (tx np) - rsp_cons (tx np)) + xmit_requests skb + xmit_g skb).
  { rewrite Eprod, mod_sub_idemp_l.
    replace (req_prod_pvt (tx np) + xmit_g skb + xmit_requests skb - rsp_cons (tx np))
      with (req_prod_pvt (tx np) - rsp_cons (tx np) + (xmit_requests skb + xmit_g skb))
      by lia.
    rewrite <- u32_add_l. rewrite u32_small; lia. }
  split; [lia|]. split; [done|].
  unfold xennet_start_xmit in E. cbv zeta in E.
  unfold xmit_must_drop in Hacc. apply orb_false_iff in Hacc as [Hbig Hrest].
  rewrite Hbig, Hrest in E.
  kinv E as np1 Esub. kinv E as np2 Egc. injection E as <- _.
  destruct (netfront_tx_slot_available np2) eqn:Eav; cbn [negb].
  - intros Hno. congruence.
  - intros _. reflexivity.
Qed.

Lemma tx_modify_pool f txi np np' :
  tx_modify f txi np = Done np' -> gref_tx_head np' = gref_tx_head np.
Proof.
  unfold tx_modify. intros E. kinv E as q Eq. kinv E as r Er. by injection E as <-.
Qed.

Lemma make_frag_request_pool skb mfn off size prod np np' :
  make_frag_request skb mfn off size prod np = Done np' ->
  exists g, gref_tx_head np = g :: gref_tx_head np'.
Proof.
  intros E. unfold make_frag_request in E.
  kinv2 E as id head Eget. kinv E as np1 Eskb.
  unfold tx_slot_set_skb in Eskb. kinv Eskb as s1 Es1. injection Eskb as <-.
  cbn [gref_tx_head set_tx_slots set_tx_skb_freelist] in E.
  destruct (gref_tx_head np) as [|g pool] eqn:Ep; cbn in E; [discriminate|].
  kinv E as u Ebug. kinv E as np2 Egref.
  unfold tx_slot_set_gref in Egref. kinv Egref as s2 Es2. injection Egref as <-.
  kinv E as r Eput. injection E as <-. by exists g.
Qed.

Lemma make_frags_head_pool skb n :
  forall txi prod data offset len np np' txi' prod',
    make_frags_head n skb txi prod data offset len np = Done (np', txi', prod') ->
    exists taken, gref_tx_head np = taken ++ gref_tx_head np' /\
      Z.of_nat (length taken) = head_splits n offset len.
Proof.
  induction n as [|n IH]; intros txi prod data offset len np np' txi' prod' E;
    simpl in E |- *; destruct (len >? PAGE_SIZE - offset); try discriminate;
    try (injection E as <- _ _; by exists []).
  kinv E as np1 Emod. kinv E as np2 Ereq.
  apply tx_modify_pool in Emod. apply make_frag_request_pool in Ereq as (g & Eg).
  apply IH in E as (taken & Et & Hl). exists (g :: taken).
  split; [cbn; congruence|]. cbn [length]. lia.
Qed.

Lemma make_frags_pages_pool skb frags :
  forall txi prod np np' txi' prod',
    make_frags_pages frags skb txi prod np = Done (np', txi', prod') ->
    exists taken, gref_tx_head np = taken ++ gref_tx_head np' /\
      length taken = length frags.
Proof.
  induction frags as [|frag rest IH]; intros txi prod np np' txi' prod' E; simpl in E.
  { injection E as <- _ _. by exists []. }
  kinv E as np1 Emod. kinv E as np2 Ereq.
  apply tx_modify_pool in Emod. apply make_frag_request_pool in Ereq as (g & Eg).
  apply IH in E as (taken & Et & Hl). exists (g :: taken).
  split; [cbn; congruence|]. cbn [length]. lia.
Qed.

Lemma xmit_submit_pool skb np np' :
  xmit_submit skb np = Done np' ->
  exists taken, gref_tx_head np = taken ++ gref_tx_head np' /\
    Z.of_nat (length taken) = xmit_requests skb.
Proof.
  intros E. unfold xmit_submit in E.
  kinv2 E as id head Eget. kinv E as np1 Eskb.
  unfold tx_slot_set_skb in Eskb. kinv Eskb as s1 Es1. injection Eskb as <-.
  cbn [gref_tx_head set_tx_slots set_tx_skb_freelist] in E.
  destruct (gref_tx_head np) as [|g pool] eqn:Ep; [cbn in E; discriminate|].
  cbn [gnttab_claim_grant_reference] in E. cbn beta iota in E.
  kinv E as u Ebug. kinv E as np2 Egref.
  unfold tx_slot_set_gref in Egref. kinv Egref as s2 Es2. injection Egref as <-.
  kinv E as r Eput. kinv2 E as npb i Egso.
  assert (Pb : gref_tx_head npb = pool).
  { destruct (negb (skb_gso_size skb =? 0)).
    - cbn zeta in Egso. kinv Egso as npm Emod. kinv Egso as r' Eput'.
      injection Egso as <- _. apply tx_modify_pool in Emod. cbn in Emod |- *. done.
    - by injection Egso as <- _. }
  kinv E as npd Efrags. kinv E as npe Esize. injection E as <-.
  apply tx_modify_pool in Esize.
  unfold xennet_make_frags in Efrags.
  apply kbind_Done in Efrags as ([[npf txi1] prod1] & Ehead & Efrags).
  cbn beta iota in Efrags.
  apply kbind_Done in Efrags as ([[npg txi2] prod2] & Epages & Efrags).
  cbn beta iota in Efrags. injection Efrags as <-.
  apply make_frags_head_pool in Ehead as (t1 & E1 & L1).
  apply make_frags_pages_pool in Epages as (t2 & E2 & L2).
  cbn [gref_tx_head set_tx] in E1, Esize.
  exists (g :: t1 ++ t2). split.
  - assert (Epub : gref_tx_head (xmit_publish skb npe) = gref_tx_head npe).
    { unfold xmit_publish, RING_PUSH_REQUESTS_AND_CHECK_NOTIFY.
      by destruct (u32 (req_prod_pvt (tx npe) - sring_req_event (tx npe))
                   <? u32 (req_prod_pvt (tx npe) - sring_req_prod (tx npe))). }
    rewrite Epub, Esize. cbn [app]. f_equal.
    by rewrite <- app_assoc, <- E2, <- E1.
  - unfold xmit_requests, nr_frags. cbn [length]. rewrite length_app. lia.
Qed.

(** X18. With no response waiting, an accepted packet takes exactly one
    grant reference from the front of the transmit pool for each of its
    requests. *)
Theorem xmit_takes_grants skb np np' rc :
  0 < PAGE_SIZE < 2 ^ 16 -> 0 <= skb_data skb -> 0 <= skb_headlen skb < 2 ^ 32 ->
  xmit_must_drop skb np = false ->
  u32 (sring_rsp_prod (tx np) - rsp_cons (tx np)) = 0 ->
  xennet_start_xmit skb np = Done (np', rc) ->
  exists taken,
    gref_tx_head np = taken ++ gref_tx_head np' /\
    Z.of_nat (length taken)
    = Z.max 1 (DIV_ROUND_UP (offset_in_page (skb_data skb) + skb_headlen skb) PAGE_SIZE)
      + nr_frags skb.
Proof.
  intros HP Hd Hh Hacc Hnone E.
  unfold xennet_start_xmit in E. cbv zeta in E.
  unfold xmit_must_drop in Hacc. apply orb_false_iff in Hacc as [Hbig Hrest].
  rewrite Hbig, Hrest in E.
  kinv E as np1 Esub. kinv E as np2 Egc. injection E as <- _.
  destruct (xmit_submit_Done _ _ _ Esub) as (npe & Enp1 & (_ & _ & Eh & _)).
  apply xmit_submit_pool in Esub as (taken & Et & Hl).
  exists taken. rewrite <- xmit_requests_count by done. split; [|done].
  assert (Egc2 : gref_tx_head np2 = gref_tx_head np1).
  { unfold xennet_tx_buf_gc in Egc. kinv Egc as u Eb. kinv Egc as np3 Eloop.
    injection Egc as <-. simpl in Eloop.
    apply kbind_Done_pair in Eloop as (np4 & again & Epass & Eloop).
    cbn beta iota in Eloop. rewrite (tx_buf_gc_pass_once _ _ _ Epass) in Eloop.
    injection Eloop as ->. unfold tx_buf_gc_pass in Epass.
    assert (Eidx : u32 (sring_rsp_prod (tx np1) - rsp_cons (tx np1)) = 0).
    { subst np1. unfold tx_hdr in Eh. injection Eh as Ec _ _ Epr _.
      unfold xmit_publish, RING_PUSH_REQUESTS_AND_CHECK_NOTIFY.
      destruct (u32 (req_prod_pvt (tx npe) - sring_req_event (tx npe))
                <? u32 (req_prod_pvt (tx npe) - sring_req_prod (tx npe)));
        cbn; rewrite ?Ec, ?Epr; done. }
    rewrite Eidx in Epass. change (Z.to_nat 0) with 0%nat in Epass.
    cbn [tx_buf_gc_scan] in Epass. ksimpl in Epass. injection Epass as <- _.
    unfold xennet_maybe_wake_tx. by destruct (_ && _ && _). }
  rewrite Et. f_equal.
  destruct (negb (netfront_tx_slot_available np2)); cbn; congruence.
Qed.

End TxMore.

(** ** Teardown *)

Section Teardown.
Context `{Config} `{Kernel}.

(** Ending a grant the backend does not map changes no answer of
    [gnttab_query_foreign_access]. *)
Lemma gnttab_query_delete ref gt ref' :
  gnttab_query_foreign_access ref gt = false ->
  gnttab_query_foreign_access ref' (delete ref gt)
  = gnttab_query_foreign_access ref' gt.
Proof.
  unfold gnttab_query_foreign_access. intros Hq.
  destruct (decide (ref' = ref)) as [->|Hne].
  - by rewrite lookup_delete_eq, Hq.
  - by rewrite lookup_delete_ne.
Qed.

Lemma end_access_loop_spec refs :
  forall gt gfree failed refs' gt' gfree' failed',
    end_access_loop refs gt gfree failed = (refs', gt', gfree', failed') ->
    refs' = (fun ref => if gnttab_query_foreign_access ref gt
                        then ref else GRANT_INVALID_REF) <$> refs /\
    (forall ref, gnttab_query_foreign_access ref gt'
                 = gnttab_query_foreign_access ref gt) /\
    (failed' = true <->
     failed = true \/
     exists ref, ref ∈ refs /\ ref <> GRANT_INVALID_REF /\
       gnttab_query_foreign_access ref gt = true) /\
    (forall ref, ref ∈ gfree' <->
       ref ∈ gfree \/
       (ref ∈ refs /\ ref <> GRANT_INVALID_REF /\
        gnttab_query_foreign_access ref gt = false)).
Proof.
  induction refs as [|r rest IH]; intros gt gfree failed refs' gt' gfree' failed' E;
    simpl in E.
  { injection E as <- <- <- <-. split; [done|]. split; [done|]. split.
    - split; [auto|]. intros [?|(ref & Hin & _)]; [done|]. by apply elem_of_nil in Hin.
    - intros ref. split; [auto|]. intros [?|(Hin & _)]; [done|]. by apply elem_of_nil in Hin. }
  destruct (Z.eqb_spec r GRANT_INVALID_REF) as [Er|Hr].
  - destruct (end_access_loop rest gt gfree failed) as [[[rs g1] f1] fl] eqn:El.
    injection E as <- <- <- <-.
    apply IH in El as (-> & Hq & Hf & Hfree).
    split. { cbn. f_equal. subst r. by destruct (gnttab_query_foreign_access _ _). }
    split; [done|]. split.
    + rewrite Hf. split; (intros [?|(ref & Hin & Hne & Hm)]; [by left|right]);
        exists ref.
      * split; [by apply list_elem_of_further|done].
      * apply elem_of_cons in Hin as [->|Hin]; [done|]. done.
    + intros ref. rewrite Hfree.
      split; (intros [?|(Hin & Hne & Hm)]; [by left|right]).
      * split; [by apply list_elem_of_further|done].
      * apply elem_of_cons in Hin as [->|Hin]; [done|]. done.
  - unfold gnttab_end_foreign_access_ref in E.
    destruct (gnttab_query_foreign_access r gt) eqn:Eq.
    + destruct (end_access_loop rest gt gfree true) as [[[rs g1] f1] fl] eqn:El.
      injection E as <- <- <- <-.
      apply IH in El as (-> & Hq & Hf & Hfree).
      split. { cbn. by rewrite Eq. }
      split; [done|]. split.
      * split; [intros _|intros _; apply Hf; by left].
        right. exists r. split; [apply list_elem_of_here|done].
      * intros ref. rewrite Hfree.
        split; (intros [?|(Hin & Hne & Hm)]; [by left|right]).
        -- split; [by apply list_elem_of_further|done].
        -- apply elem_of_cons in Hin as [->|Hin]; [congruence|]. done.
    + destruct (end_access_loop rest (delete r gt)
                  (gnttab_free_grant_reference r gfree) failed)
        as [[[rs g1] f1] fl] eqn:El.
      injection E as <- <- <- <-.
      apply IH in El as (-> & Hq & Hf & Hfree).
      pose proof (gnttab_query_delete r gt) as Hd.
      split.
      { cbn. rewrite Eq. f_equal. apply list_fmap_ext. intros i x _.
        by rewrite Hd. }
      split. { intros ref. by rewrite Hq, Hd. }
      split.
      * rewrite Hf. split; (intros [?|(ref & Hin & Hne & Hm)]; [by left|right]);
          exists ref.
        -- rewrite Hd in Hm by done. split; [by apply list_elem_of_further|done].
        -- apply elem_of_cons in Hin as [->|Hin]; [congruence|].
           rewrite Hd by done. done.
      * intros ref. rewrite Hfree. unfold gnttab_free_grant_reference.
        rewrite elem_of_cons. rewrite Hd by done. split.
        -- intros [[->|?]|(Hin & Hne & Hm)].
           ++ right. split; [apply list_elem_of_here|done].
           ++ by left.
           ++ right. split; [by apply list_elem_of_further|done].
        -- intros [?|(Hin & Hne & Hm)]; [left; by right|].
           apply elem_of_cons in Hin as [->|Hin]; [left; by left|]. by right.
Qed.

(** X19. [xennet_end_access] ends and frees the grants of the ring pages the
    backend has let go of, and marks them invalid in the array; a grant
    the backend still maps is left bound and stays in the array.  The
    ring memory is freed exactly when no valid grant of the array was
    still mapped. *)
Theorem xennet_end_access_spec refs gt gfree refs' gt' gfree' freed :
  xennet_end_access refs gt gfree = (refs', gt', gfree', freed) ->
  refs' = (fun ref => if gnttab_query_foreign_access ref gt
                      then ref else GRANT_INVALID_REF) <$> refs /\
  (forall ref, gnttab_query_foreign_access ref gt'
               = gnttab_query_foreign_access ref gt) /\
  (freed = true <->
   forall ref, ref ∈ refs -> ref <> GRANT_INVALID_REF ->
     gnttab_query_foreign_access ref gt = false) /\
  (forall ref, ref ∈ gfree' <->
     ref ∈ gfree \/
     (ref ∈ refs /\ ref <> GRANT_INVALID_REF /\
      gnttab_query_foreign_access ref gt = false)).
Proof.
  unfold xennet_end_access. intros E.
  destruct (end_access_loop refs gt gfree false) as [[[rs g1] f1] fl] eqn:El.
  injection E as <- <- <- <-.
  apply end_access_loop_spec in El as (-> & Hq & Hf & Hfree).
  split; [done|]. split; [done|]. split; [|done].
  split.
  - intros Hfr ref Hin Hne. destruct (gnttab_query_foreign_access ref gt) eqn:Em; [|done].
    assert (fl = true) as -> by (apply Hf; right; eauto). done.
  - intros Hall. destruct fl; [|done]. exfalso.
    destruct (proj1 Hf eq_refl) as [?|(ref & Hin & Hne & Hm)]; [done|].
    rewrite (Hall _ Hin Hne) in Hm. done.
Qed.

Lemma disconnect_tx_slot_spec s np :
  exists np',
    disconnect_tx_slot s np = Done np' /\
    tx_slots np' = tx_slots np /\ gref_rx_head np' = gref_rx_head np /\
    (forall ref, gnttab_query_foreign_access ref (gnttab np')
                 = gnttab_query_foreign_access ref (gnttab np)) /\
    (forall g, g ∈ gref_tx_head np' <->
       g ∈ gref_tx_head np \/
       (skb_entry_is_link s = false /\ tx_gref s = g /\ g <> GRANT_INVALID_REF /\
        gnttab_query_foreign_access g (gnttab np) = false)).
Proof.
  unfold disconnect_tx_slot. destruct (skb_entry_is_link s) eqn:El.
  { exists np. repeat split; try done; [by left|]. intros [?|(? & _)]; done. }
  assert (Hfree : forall np0, (if negb (tx_skb s =? 0)
                               then dev_kfree_skb_irq (tx_skb s) np0 else Done np0)
                              = Done np0).
  { intros np0. unfold dev_kfree_skb_irq, skb_entry_is_link, tx_skb in *.
    rewrite El. by destruct (negb _). }
  rewrite Hfree. eexists. split; [reflexivity|].
  destruct (Z.eqb_spec (tx_gref s) GRANT_INVALID_REF) as [Eg|Hg]; cbn [negb].
  { repeat split; try done; [by left|]. intros [?|(_ & <- & ? & _)]; done. }
  unfold gnttab_end_foreign_access_ref.
  destruct (gnttab_query_foreign_access (tx_gref s) (gnttab np)) eqn:Eq.
  { repeat split; try done; [by left|]. intros [?|(_ & <- & _ & ?)]; [done|congruence]. }
  cbn. split; [done|]. split; [done|]. split.
  { intros ref. by apply gnttab_query_delete. }
  intros g. unfold gnttab_release_grant_reference. rewrite elem_of_cons. split.
  - intros [->|?]; [right; done|by left].
  - intros [?|(_ & <- & _)]; [by right|by left].
Qed.

Lemma disconnect_tx_loop_spec rest :
  forall pre np, tx_slots np = pre ++ rest ->
    exists np',
      disconnect_tx_loop (length rest) (Z.of_nat (length pre)) np = Done np' /\
      tx_slots np' = tx_slots np /\ gref_rx_head np' = gref_rx_head np /\
      (forall ref, gnttab_query_foreign_access ref (gnttab np')
                   = gnttab_query_foreign_access ref (gnttab np)) /\
      (forall g, g ∈ gref_tx_head np' <->
         g ∈ gref_tx_head np \/
         exists s, s ∈ rest /\ skb_entry_is_link s = false /\ tx_gref s = g /\
           g <> GRANT_INVALID_REF /\
           gnttab_query_foreign_access g (gnttab np) = false).
Proof.
  induction rest as [|s rest IH]; intros pre np Hsl; cbn [length disconnect_tx_loop].
  { exists np. repeat split; try done; [by left|].
    intros [?|(s & Hin & _)]; [done|]. by apply elem_of_nil in Hin. }
  assert (Es : slot_at (tx_slots np) (Z.of_nat (length pre)) = Done s).
  { apply slot_at_Done. split; [lia|]. rewrite Nat2Z.id, Hsl.
    by rewrite lookup_app_r, Nat.sub_diag by lia. }
  rewrite Es. ksimpl.
  destruct (disconnect_tx_slot_spec s np) as (np1 & E1 & S1 & R1 & Q1 & P1).
  rewrite E1. ksimpl.
  destruct (IH (pre ++ [s]) np1) as (np' & E' & S' & R' & Q' & P').
  { rewrite S1, Hsl, <- app_assoc. done. }
  rewrite length_app in E'. cbn [length] in E'.
  replace (Z.of_nat (length pre + 1)) with (Z.of_nat (length pre) + 1) in E' by lia.
  exists np'. split; [done|]. split; [congruence|]. split; [congruence|].
  split. { intros ref. by rewrite Q', Q1. }
  intros g. rewrite P', P1. split.
  - intros [[?|(Hl & Hg & Hne & Hq)]|(s' & Hin & Hl & Hg & Hne & Hq)].
    + by left.
    + right. exists s. split; [apply list_elem_of_here|done].
    + right. exists s'. rewrite Q1 in Hq. split; [by apply list_elem_of_further|done].
  - intros [?|(s' & Hin & Hl & Hg & Hne & Hq)]; [left; by left|].
    apply elem_of_cons in Hin as [->|Hin].
    + left. right. done.
    + right. exists s'. rewrite Q1. done.
Qed.

(** X20. The teardown of the transmit table runs to its end on a table of
    [NET_TX_RING_SIZE] slots.  Of the slots that hold a buffer, it ends
    and puts back in the transmit pool exactly the grants the backend
    has let go of; a grant the backend still maps is left bound and out
    of the pool.  The table is gone afterwards and the freelist head is
    0. *)
Theorem disconnect_tx_slots_spec np :
  Z.of_nat (length (tx_slots np)) = NET_TX_RING_SIZE ->
  exists np',
    disconnect_tx_slots np = Done np' /\
    tx_slots np' = [] /\ tx_skb_freelist np' = 0 /\
    gref_rx_head np' = gref_rx_head np /\
    (forall ref, gnttab_query_foreign_access ref (gnttab np')
                 = gnttab_query_foreign_access ref (gnttab np)) /\
    (forall g, g ∈ gref_tx_head np' <->
       g ∈ gref_tx_head np \/
       exists s, s ∈ tx_slots np /\ skb_entry_is_link s = false /\ tx_gref s = g /\
         g <> GRANT_INVALID_REF /\
         gnttab_query_foreign_access g (gnttab np) = false).
Proof.
  intros Hlen. unfold disconnect_tx_slots.
  destruct (disconnect_tx_loop_spec (tx_slots np) [] np eq_refl)
    as (np1 & E1 & S1 & R1 & Q1 & P1).
  rewrite <- Hlen, Nat2Z.id. change (Z.of_nat (length [])) with 0 in E1.
  rewrite E1. ksimpl.
  eexists. split; [reflexivity|]. cbn. done.
Qed.

Lemma disconnect_rx_slot_spec s np :
  tx_slots (disconnect_rx_slot s np) = tx_slots np /\
  rx_slots (disconnect_rx_slot s np) = rx_slots np /\
  gref_rx_head (disconnect_rx_slot s np) = gref_rx_head np /\
  (forall ref, gnttab_query_foreign_access ref (gnttab (disconnect_rx_slot s np))
               = gnttab_query_foreign_access ref (gnttab np)) /\
  (forall g, g ∈ gref_tx_head (disconnect_rx_slot s np) <->
     g ∈ gref_tx_head np \/
     (rx_gref s = g /\ g <> GRANT_INVALID_REF /\
      gnttab_query_foreign_access g (gnttab np) = false)).
Proof.
  unfold disconnect_rx_slot.
  destruct (Z.eqb_spec (rx_gref s) GRANT_INVALID_REF) as [Eg|Hg]; cbn [negb].
  { repeat split; try done; [by left|]. intros [?|(<- & ? & _)]; done. }
  unfold gnttab_end_foreign_access_ref.
  destruct (gnttab_query_foreign_access (rx_gref s) (gnttab np)) eqn:Eq.
  { repeat split; try done; [by left|]. intros [?|(<- & _ & ?)]; [done|congruence]. }
  cbn. split; [done|]. split; [done|]. split; [done|]. split.
  { intros ref. by apply gnttab_query_delete. }
  intros g. unfold gnttab_release_grant_reference. rewrite elem_of_cons. split.
  - intros [->|?]; [right; done|by left].
  - intros [?|(<- & _)]; [by right|by left].
Qed.

Lemma disconnect_rx_loop_spec rest :
  forall pre np, rx_slots np = pre ++ rest ->
    exists np',
      disconnect_rx_loop (length rest) (Z.of_nat (length pre)) np = Done np' /\
      rx_slots np' = rx_slots np /\ gref_rx_head np' = gref_rx_head np /\
      (forall ref, gnttab_query_foreign_access ref (gnttab np')
                   = gnttab_query_foreign_access ref (gnttab np)) /\
      (forall g, g ∈ gref_tx_head np' <->
         g ∈ gref_tx_head np \/
         exists s, s ∈ rest /\ rx_gref s = g /\ g <> GRANT_INVALID_REF /\
           gnttab_query_foreign_access g (gnttab np) = false).
Proof.
  induction rest as [|s rest IH]; intros pre np Hsl; cbn [length disconnect_rx_loop].
  { exists np. repeat split; try done; [by left|].
    intros [?|(s & Hin & _)]; [done|]. by apply elem_of_nil in Hin. }
  assert (Es : slot_at (rx_slots np) (Z.of_nat (length pre)) = Done s).
  { apply slot_at_Done. split; [lia|]. rewrite Nat2Z.id, Hsl.
    by rewrite lookup_app_r, Nat.sub_diag by lia. }
  rewrite Es. ksimpl.
  destruct (disconnect_rx_slot_spec s np) as (_ & S1 & R1 & Q1 & P1).
  destruct (IH (pre ++ [s]) (disconnect_rx_slot s np)) as (np' & E' & S' & R' & Q' & P').
  { rewrite S1, Hsl, <- app_assoc. done. }
  rewrite length_app in E'. cbn [length] in E'.
  replace (Z.of_nat (length pre + 1)) with (Z.of_nat (length pre) + 1) in E' by lia.
  exists np'. split; [done|]. split; [congruence|]. split; [congruence|].
  split. { intros ref. by rewrite Q', Q1. }
  intros g. rewrite P', P1. split.
  - intros [[?|(Hg & Hne & Hq)]|(s' & Hin & Hg & Hne & Hq)].
    + by left.
    + right. exists s. split; [apply list_elem_of_here|done].
    + right. exists s'. rewrite Q1 in Hq. split; [by apply list_elem_of_further|done].
  - intros [?|(s' & Hin & Hg & Hne & Hq)]; [left; by left|].
    apply elem_of_cons in Hin as [->|Hin].
    + left. right. done.
    + right. exists s'. rewrite Q1. done.
Qed.

(** X21. The teardown of the receive table ends the grants the backend has
    let go of and leaves the others bound; the references it ends go to
    the transmit pool, and the receive pool is as it was. *)
Theorem disconnect_rx_slots_spec np :
  Z.of_nat (length (rx_slots np)) = NET_RX_RING_SIZE ->
  exists np',
    disconnect_rx_slots np = Done np' /\
    rx_slots np' = [] /\
    gref_rx_head np' = gref_rx_head np /\
    (forall ref, gnttab_query_foreign_access ref (gnttab np')
                 = gnttab_query_foreign_access ref (gnttab np)) /\
    (forall g, g ∈ gref_tx_head np' <->
       g ∈ gref_tx_head np \/
       exists s, s ∈ rx_slots np /\ rx_gref s = g /\ g <> GRANT_INVALID_REF /\
         gnttab_query_foreign_access g (gnttab np) = false).
Proof.
  intros Hlen. unfold disconnect_rx_slots.
  destruct (disconnect_rx_loop_spec (rx_slots np) [] np eq_refl)
    as (np1 & E1 & S1 & R1 & Q1 & P1).
  rewrite <- Hlen, Nat2Z.id. change (Z.of_nat (length [])) with 0 in E1.
  rewrite E1. ksimpl.
  eexists. split; [reflexivity|]. cbn. done.
Qed.

End Teardown.

(** ** Features and the interrupt handler *)

Section Features.
Context `{Config} `{Kernel}.

Lemma land_clear_self f b : Z.land (Z.land f (Z.lnot b)) b = 0.
Proof. by rewrite <- Z.land_assoc, (Z.land_comm (Z.lnot b)), Z.land_lnot_diag, Z.land_0_r. Qed.

Lemma land_clear_other f b c :
  Z.land b c = 0 -> Z.land (Z.land f (Z.lnot b)) c = Z.land f c.
Proof.
  intros Hd. apply Z.bits_inj'. intros n Hn.
  rewrite !Z.land_spec, Z.lnot_spec by done.
  pose proof (f_equal (fun x => Z.testbit x n) Hd) as Hb. cbn beta in Hb.
  rewrite Z.land_spec, Z.bits_0 in Hb.
  destruct (Z.testbit f n), (Z.testbit b n), (Z.testbit c n); done.
Qed.

Lemma land_clear_sub f b : Z.land (Z.land f (Z.lnot b)) f = Z.land f (Z.lnot b).
Proof.
  apply Z.bits_inj'. intros n Hn. rewrite !Z.land_spec.
  by destruct (Z.testbit f n), (Z.testbit (Z.lnot b) n).
Qed.

(** X22. [xennet_fix_features] keeps scatter-gather and TSO only when they
    were asked for and the backend advertises them with a value other
    than zero, a key that cannot be read counting as zero; it changes no
    other bit and never adds one. *)
Theorem xennet_fix_features_spec NETIF_F_TSO sg gso features :
  Z.land NETIF_F_SG NETIF_F_TSO = 0 ->
  let r := xennet_fix_features NETIF_F_TSO sg gso features in
  let on v := match v with Some x => negb (x =? 0) | None => false end in
  has_flag r NETIF_F_SG = has_flag features NETIF_F_SG && on sg /\
  has_flag r NETIF_F_TSO = has_flag features NETIF_F_TSO && on gso /\
  Z.land r features = r /\
  (forall n, 0 <= n -> Z.testbit NETIF_F_SG n = false ->
     Z.testbit NETIF_F_TSO n = false -> Z.testbit r n = Z.testbit features n).
Proof.
  intros Hd r on. unfold r, xennet_fix_features.
  assert (Hd' : Z.land NETIF_F_TSO NETIF_F_SG = 0) by (by rewrite Z.land_comm).
  set (f1 := if has_flag features NETIF_F_SG
             then if (match sg with Some v => v | None => 0 end) =? 0
                  then Z.land features (Z.lnot NETIF_F_SG) else features
             else features).
  assert (H1 : has_flag f1 NETIF_F_SG = has_flag features NETIF_F_SG && on sg
               /\ has_flag f1 NETIF_F_TSO = has_flag features NETIF_F_TSO
               /\ Z.land f1 features = f1
               /\ forall n, 0 <= n -> Z.testbit NETIF_F_SG n = false ->
                    Z.testbit f1 n = Z.testbit features n).
  { unfold f1. destruct (has_flag features NETIF_F_SG) eqn:Esg.
    - destruct sg as [v|]; cbn [on]; [destruct (Z.eqb_spec v 0) as [Ev|Hv]|]; cbn [negb Z.eqb andb].
      + unfold has_flag. rewrite land_clear_self, land_clear_other by done.
        split; [done|]. split; [done|]. split; [apply land_clear_sub|].
        intros n Hn Hb. rewrite Z.land_spec, Z.lnot_spec, Hb by done.
        by rewrite andb_true_r.
      + rewrite Esg. split; [done|]. split; [done|]. split; [apply Z.land_diag|done].
      + unfold has_flag. rewrite land_clear_self, land_clear_other by done.
        split; [done|]. split; [done|]. split; [apply land_clear_sub|].
        intros n Hn Hb. rewrite Z.land_spec, Z.lnot_spec, Hb by done.
        by rewrite andb_true_r.
    - rewrite Esg. split; [done|]. split; [done|]. split; [apply Z.land_diag|done]. }
  destruct H1 as (Asg & Atso & Asub & Abits). fold f1.
  destruct (has_flag f1 NETIF_F_TSO) eqn:Etso.
  - destruct gso as [v|]; cbn [on]; [destruct (Z.eqb_spec v 0) as [Ev|Hv]|]; cbn [negb Z.eqb].
    + unfold has_flag in *. rewrite land_clear_self, land_clear_other by done.
      rewrite <- Atso. split; [done|]. split; [done|]. split.
      { apply Z.bits_inj'. intros n Hn. rewrite !Z.land_spec.
        pose proof (f_equal (fun x => Z.testbit x n) Asub) as Hb. cbn beta in Hb.
        rewrite Z.land_spec in Hb.
        destruct (Z.testbit f1 n), (Z.testbit features n),
          (Z.testbit (Z.lnot NETIF_F_TSO) n); done. }
      intros n Hn Hb1 Hb2. rewrite Z.land_spec, Z.lnot_spec, Hb2 by done.
      rewrite andb_true_r. by apply Abits.
    + rewrite Etso, <- Atso. rewrite andb_true_r. split; [done|]. split; [done|].
      split; [done|]. intros n Hn Hb1 _. by apply Abits.
    + unfold has_flag in *. rewrite land_clear_self, land_clear_other by done.
      rewrite <- Atso. split; [done|]. split; [done|]. split.
      { apply Z.bits_inj'. intros n Hn. rewrite !Z.land_spec.
        pose proof (f_equal (fun x => Z.testbit x n) Asub) as Hb. cbn beta in Hb.
        rewrite Z.land_spec in Hb.
        destruct (Z.testbit f1 n), (Z.testbit features n),
          (Z.testbit (Z.lnot NETIF_F_TSO) n); done. }
      intros n Hn Hb1 Hb2. rewrite Z.land_spec, Z.lnot_spec, Hb2 by done.
      rewrite andb_true_r. by apply Abits.
  - rewrite Etso, <- Atso. cbn [andb]. split; [done|]. split; [done|].
    split; [done|]. intros n Hn Hb1 _. by apply Abits.
Qed.

(** X23. After [xennet_set_features] the device has an MTU that
    [xennet_change_mtu] accepts under the new features: without
    scatter-gather an MTU above [ETH_DATA_LEN] is cut down to it, and
    nothing else changes. *)
Theorem xennet_set_features_mtu feats dev :
  ETH_DATA_LEN <= 65535 - ETH_HLEN -> mtu dev <= 65535 - ETH_HLEN ->
  let dev1 := (xennet_set_features feats dev).1 in
  let dev2 := mk_net_device (carrier_ok dev1) (running dev1) (queue_stopped dev1)
                feats (mtu dev1) (tx_dropped dev1) (rx_errors dev1) in
  (xennet_set_features feats dev).2 = 0 /\
  mtu dev1 = (if has_flag feats NETIF_F_SG then mtu dev
              else Z.min (mtu dev) ETH_DATA_LEN) /\
  dev1 = set_mtu (mtu dev1) dev /\
  xennet_change_mtu (mtu dev2) dev2 = (dev2, 0).
Proof.
  intros He Hm dev1 dev2. subst dev2 dev1. unfold xennet_set_features.
  assert (Hc : forall d, mtu d <= (if has_flag feats NETIF_F_SG
                                   then 65535 - ETH_HLEN else ETH_DATA_LEN) ->
            let d2 := mk_net_device (carrier_ok d) (running d) (queue_stopped d)
                        feats (mtu d) (tx_dropped d) (rx_errors d) in
            xennet_change_mtu (mtu d2) d2 = (d2, 0)).
  { intros d Hd d2. unfold d2, xennet_change_mtu, xennet_can_sg.
    cbn [features mtu set_mtu carrier_ok running queue_stopped tx_dropped rx_errors].
    destruct (has_flag feats NETIF_F_SG);
      match goal with |- context [?a >? ?b] => destruct (Z.gtb_spec a b) end;
      (lia || done). }
  destruct (has_flag feats NETIF_F_SG) eqn:Esg; cbn [negb andb].
  - cbn [fst snd]. split; [done|]. split; [done|]. split; [by destruct dev|].
    by apply Hc.
  - destruct (Z.gtb_spec (mtu dev) ETH_DATA_LEN) as [Hgt|Hle]; cbn [fst snd].
    + split; [done|]. split; [cbn; lia|]. split; [done|]. apply Hc. cbn. lia.
    + split; [done|]. split; [lia|]. split; [by destruct dev|]. by apply Hc.
Qed.

Lemma tx_buf_gc_one_rx cons np np' :
  tx_buf_gc_one cons np = Done np' ->
  rx np' = rx np /\ napi_scheduled np' = napi_scheduled np /\
  rx_slots np' = rx_slots np /\ gref_rx_head np' = gref_rx_head np.
Proof.
  unfold tx_buf_gc_one. intros E. kinv E as rsp Ersp.
  destruct (txrsp_status rsp =? XEN_NETIF_RSP_NULL); [by injection E as <-|].
  kinv E as s Es. kinv E as u Eb.
  apply kbind_Done_pair in E as (head & slots & Eadd & E). cbn beta iota in E.
  apply dev_kfree_skb_irq_Done in E as [-> _]. done.
Qed.

Lemma tx_buf_gc_scan_rx n :
  forall cons np np', tx_buf_gc_scan n cons np = Done np' ->
    rx np' = rx np /\ napi_scheduled np' = napi_scheduled np /\
    rx_slots np' = rx_slots np /\ gref_rx_head np' = gref_rx_head np.
Proof.
  induction n as [|n IH]; intros cons np np' E; simpl in E.
  { by injection E as <-. }
  kinv E as np1 E1. apply tx_buf_gc_one_rx in E1 as (A1 & B1 & C1 & D1).
  apply IH in E as (A & B & C & D). repeat split; congruence.
Qed.

(** X24. The interrupt handler does nothing when the carrier is down.  With
    the carrier up it collects the transmit responses up to the
    producer, leaves the receive ring and its slots alone, and schedules
    the poll exactly when a receive response is waiting. *)
Theorem xennet_interrupt_spec np np' :
  xennet_interrupt np = Done np' ->
  (carrier_ok (netdev np) = false -> np' = np) /\
  (carrier_ok (netdev np) = true ->
   rsp_cons (tx np') = sring_rsp_prod (tx np) /\
   rx np' = rx np /\ rx_slots np' = rx_slots np /\
   gref_rx_head np' = gref_rx_head np /\
   napi_scheduled np'
   = RING_HAS_UNCONSUMED_RESPONSES (rx np) || napi_scheduled np).
Proof.
  unfold xennet_interrupt. intros E.
  destruct (carrier_ok (netdev np)) eqn:Hc; [|by injection E as <-].
  split; [done|]. intros _.
  kinv E as np1 Egc. injection E as <-.
  unfold xennet_tx_buf_gc in Egc. kinv Egc as u Eb. kinv Egc as np2 Eloop.
  injection Egc as <-. simpl in Eloop.
  apply kbind_Done_pair in Eloop as (np3 & again & Epass & Eloop).
  cbn beta iota in Eloop. rewrite (tx_buf_gc_pass_once _ _ _ Epass) in Eloop.
  injection Eloop as ->. unfold tx_buf_gc_pass in Epass. kinv Epass as np4 Escan.
  injection Epass as <- _.
  pose proof (tx_buf_gc_scan_frame _ _ _ _ Escan) as (Etx & _).
  apply tx_buf_gc_scan_rx in Escan as (A & B & C & D).
  assert (W : forall x, tx (xennet_maybe_wake_tx x) = tx x /\
                        rx (xennet_maybe_wake_tx x) = rx x /\
                        rx_slots (xennet_maybe_wake_tx x) = rx_slots x /\
                        gref_rx_head (xennet_maybe_wake_tx x) = gref_rx_head x /\
                        napi_scheduled (xennet_maybe_wake_tx x) = napi_scheduled x).
  { intros x. unfold xennet_maybe_wake_tx. by destruct (_ && _ && _). }
  match goal with |- context [xennet_maybe_wake_tx ?x] =>
    destruct (W x) as (W1 & W2 & W3 & W4 & W5); set (y := xennet_maybe_wake_tx x) in * end.
  cbn in W1, W2, W3, W4, W5.
  rewrite W2, A. unfold napi_schedule.
  destruct (RING_HAS_UNCONSUMED_RESPONSES (rx np)); cbn;
    rewrite ?W1, ?W2, ?W3, ?W4, ?W5; cbn; rewrite ?Etx; repeat split; congruence.
Qed.

End Features.

(** * The further properties at work on the scenarios *)

Section MoreExamples.
#[local] Existing Instance x86_64.
#[local] Existing Instance demo_kernel.

Ltac calc := vm_compute; repeat split; (reflexivity || discriminate).

Lemma freelist_get_add_inverse_witness :
  add_id_to_freelist 1 demo_two_slots 0 = Done (0, demo_two_slots).
Proof.
  destruct (freelist_get_add_inverse 0 demo_two_slots (mk_tx_slot 1 0) 0 1)
    as (_ & _ & E); [calc..|exact E].
Defined.

Lemma demo_two_slots_chain : freelist_chain demo_two_slots 0 [0; 1].
Proof.
  apply (freelist_cons _ 0 (mk_tx_slot 1 0)); [lia|reflexivity|reflexivity|].
  apply (freelist_cons _ 1 (mk_tx_slot 2 0)); [lia|reflexivity|reflexivity|].
  apply freelist_end; [cbn; lia|cbn; lia].
Qed.

Lemma freelist_get_pops_head_witness :
  freelist_chain demo_two_slots 1 [1].
Proof.
  destruct (freelist_get_pops_head demo_two_slots 0 0 [1] 0 1)
    as (_ & _ & Hc & _).
  - calc.
  - exact demo_two_slots_chain.
  - apply NoDup_cons. split; [|apply NoDup_singleton].
    intros Hin. apply list_elem_of_singleton in Hin. discriminate.
  - calc.
  - exact Hc.
Defined.

Lemma setup_netfront_freelist_witness :
  freelist_chain (tx_slots demo_np) (tx_skb_freelist demo_np)
    (Z.of_nat <$> seq 0 (Z.to_nat NET_TX_RING_SIZE)).
Proof.
  refine (proj1 (setup_netfront_freelist (replicate 256 demo_txslot)
                   (replicate 256 demo_rxslot) (Z.of_nat <$> seq 8 256)
                   (Z.of_nat <$> seq 264 256) demo_dev _ _)); calc.
Defined.

Lemma rx_slot_taken_once_witness :
  exists s np1 np2,
    xennet_get_rx_skb 0 demo_filled = Done (rx_skb s, np1) /\
    xennet_get_rx_ref 0 np1 = Done (rx_gref s, np2) /\
    xennet_get_rx_skb 0 np2 = Done (None, np2).
Proof.
  destruct (rx_slot_taken_once 8 0 demo_filled) as (s & np1 & np2 & _ & A & B & C & _);
    [calc..|].
  exists s, np1, np2. split; [exact A|]. split; [exact B|exact C].
Defined.

Lemma rx_move_then_get_witness :
  exists np2 np3,
    xennet_get_rx_skb (req_prod_pvt (rx demo_np)) demo_moved = Done (Some demo_pkt, np2) /\
    xennet_get_rx_ref (req_prod_pvt (rx demo_np)) np2 = Done (300, np3).
Proof.
  destruct (rx_move_then_get (Some demo_pkt) 300 demo_np demo_moved)
    as (_ & _ & R); [calc|exact R].
Defined.

Lemma xennet_get_extras_requeues_witness :
  exists k, 0 <= k /\
    rsp_cons (rx demo_gso_extras.1.1) = u32 (rsp_cons (rx (poll_np demo_gso)) + k) /\
    req_prod_pvt (rx demo_gso_extras.1.1)
    = u32 (req_prod_pvt (rx (poll_np demo_gso)) + k).
Proof.
  destruct (xennet_get_extras_requeues (replicate 1 no_extra) 2 (poll_np demo_gso)
              demo_gso_extras.1.1 demo_gso_extras.1.2 demo_gso_extras.2)
    as (k & Hk & A & B & _); [calc..|].
  exists k. split; [exact Hk|]. split; [exact A|exact B].
Defined.


Lemma xennet_poll_budget_witness :
  0 <= demo_polled.2 <= 16 /\
  Z.of_nat (length (delivered demo_polled.1))
  = Z.of_nat (length (delivered demo_backlog)) + demo_polled.2.
Proof.
  destruct (xennet_poll_budget 16 [] demo_backlog demo_polled.1 demo_polled.2)
    as (A & B & _); [calc..|].
  split; [exact A|exact B].
Defined.

Lemma xennet_get_responses_single_witness :
  exists np',
    xennet_get_responses demo_good_rsp (replicate 1 no_extra) 1 [] demo_good
    = Done (np', replicate 1 no_extra, [] ++ [demo_buf0], 0) /\
    gref_rx_head np' = rx_gref demo_slot0 :: gref_rx_head demo_good.
Proof.
  destruct (xennet_get_responses_single demo_good_rsp (replicate 1 no_extra) 1 []
              demo_good demo_slot0 demo_buf0) as (_ & Hok); [calc..|].
  destruct Hok as (np' & E & _ & P & _); [calc|].
  exists np'. split; [exact E|exact P].
Defined.

Lemma poll_packet_bad_gso_witness :
  exists ps',
    poll_packet 2 demo_gso = Done ps' /\
    rx_errors (netdev (poll_np ps')) = rx_errors (netdev (poll_np demo_gso)) + 1 /\
    poll_errq ps' = poll_errq demo_gso ++ demo_gso_parsed.1.2.
Proof.
  destruct (poll_packet_bad_gso 2 demo_gso demo_gso_rsp demo_gso_parsed.1.1.1
              demo_gso_parsed.1.1.2 demo_gso_parsed.1.2 demo_gso_record)
    as (ps' & E & A & B & _).
  - calc.
  - calc.
  - calc.
  - discriminate.
  - left. reflexivity.
  - exists ps'. split; [exact E|]. split; [exact A|exact B].
Defined.

Lemma alloc_rx_refill_posts_witness :
  req_prod_pvt (rx demo_posted) = u32 (0 + Z.of_nat (length (rx_batch demo_staged))) /\
  rx_batch demo_posted = [] /\
  gref_rx_head demo_posted
  = drop (length (rx_batch demo_staged)) (gref_rx_head demo_staged).
Proof.
  destruct (alloc_rx_refill_posts 0 demo_staged demo_posted)
    as (A & _ & B & C & _); [calc|].
  split; [exact A|]. split; [exact B|exact C].
Defined.

Lemma alloc_rx_refill_pool_empty_witness :
  alloc_rx_refill 0 (set_gref_rx_head [] demo_staged) = Oops BUG.
Proof.
  eapply (alloc_rx_refill_pool_empty 0 (set_gref_rx_head [] demo_staged));
    vm_compute; reflexivity.
Defined.

Lemma demo_np_rx_inv : rx_inv demo_np.
Proof. calc. Qed.

Lemma store_rxbuf_clamps_witness :
  rx_min_target demo_min_stored = Z.max RX_MIN_TARGET (Z.min 1000 RX_MAX_TARGET).
Proof.
  destruct (store_rxbuf_clamps 1000 [] demo_np) as [Hmin _];
    [calc|calc|exact demo_np_rx_inv|].
  destruct (Hmin demo_min_stored) as (A & _); [calc|exact A].
Defined.

Lemma tx_buf_gc_grant_in_use_witness : xennet_tx_buf_gc demo_mapped = Oops BUG.
Proof.
  apply (tx_buf_gc_grant_in_use demo_mapped (mk_tx_response 0 0)
           (mk_tx_slot 0xffff880000100000 8)); calc.
Defined.

Lemma tx_buf_gc_collects_one_witness :
  exists np',
    xennet_tx_buf_gc demo_one = Done np' /\
    tx_skb_freelist np' = 0 /\
    gref_tx_head np' = 8 :: gref_tx_head demo_one.
Proof.
  destruct (tx_buf_gc_collects_one demo_one (mk_tx_response 0 0)
              (mk_tx_slot 0xffff880000100000 8))
    as (np' & E & A & _ & B & _); [calc..|].
  exists np'. split; [exact E|]. split; [exact A|exact B].
Defined.

Lemma demo_sent_eq' :
  xennet_start_xmit demo_pkt demo_np = Done (demo_sent, NETDEV_TX_OK).
Proof. vm_compute. reflexivity. Qed.

Lemma xmit_keeps_ring_room_witness :
  u32 (req_prod_pvt (tx demo_sent) - rsp_cons (tx demo_np)) <= TX_MAX_TARGET.
Proof.
  destruct (xmit_keeps_ring_room 8 demo_pkt demo_np demo_sent NETDEV_TX_OK)
    as (A & _); [calc..|exact demo_sent_eq'|exact A].
Defined.

Lemma xmit_takes_grants_witness :
  exists taken,
    gref_tx_head demo_np = taken ++ gref_tx_head demo_sent /\
    Z.of_nat (length taken)
    = Z.max 1 (DIV_ROUND_UP (offset_in_page (skb_data demo_pkt) + skb_headlen demo_pkt)
                 PAGE_SIZE)
      + nr_frags demo_pkt.
Proof.
  apply (xmit_takes_grants demo_pkt demo_np demo_sent NETDEV_TX_OK);
    [calc..|exact demo_sent_eq'].
Defined.

Lemma xennet_end_access_spec_witness :
  [0; 0; 6] = (fun ref => if gnttab_query_foreign_access ref demo_gt
                          then ref else GRANT_INVALID_REF) <$> [5; 0; 6].
Proof.
  destruct (xennet_end_access_spec [5; 0; 6] demo_gt [9]
              [0; 0; 6] (delete 5 demo_gt) [5; 9] false) as (A & _); [calc|exact A].
Defined.

Lemma disconnect_tx_slots_spec_witness :
  exists np',
    disconnect_tx_slots demo_sent = Done np' /\
    tx_slots np' = [] /\ tx_skb_freelist np' = 0.
Proof.
  destruct (disconnect_tx_slots_spec demo_sent) as (np' & E & A & B & _); [calc|].
  exists np'. split; [exact E|]. split; [exact A|exact B].
Defined.

Lemma disconnect_rx_slots_spec_witness :
  exists np',
    disconnect_rx_slots demo_filled = Done np' /\
    rx_slots np' = [] /\ gref_rx_head np' = gref_rx_head demo_filled.
Proof.
  destruct (disconnect_rx_slots_spec demo_filled) as (np' & E & A & B & _); [calc|].
  exists np'. split; [exact E|]. split; [exact A|exact B].
Defined.

Lemma xennet_fix_features_spec_witness :
  has_flag (xennet_fix_features 65536 (Some 1) None 65537) NETIF_F_SG
  = has_flag 65537 NETIF_F_SG && negb (1 =? 0).
Proof.
  destruct (xennet_fix_features_spec 65536 (Some 1) None 65537) as (A & _);
    [reflexivity|exact A].
Defined.

Lemma xennet_set_features_mtu_witness :
  (xennet_set_features 0 demo_dev_jumbo).2 = 0 /\
  mtu (xennet_set_features 0 demo_dev_jumbo).1
  = (if has_flag 0 NETIF_F_SG then mtu demo_dev_jumbo
     else Z.min (mtu demo_dev_jumbo) ETH_DATA_LEN).
Proof.
  destruct (xennet_set_features_mtu 0 demo_dev_jumbo) as (A & B & _); [calc..|].
  split; [exact A|exact B].
Defined.

Lemma xennet_interrupt_spec_witness :
  rsp_cons (tx demo_irq) = sring_rsp_prod (tx demo_answered).
Proof.
  destruct (xennet_interrupt_spec demo_answered demo_irq) as (_ & Hup); [calc|].
  destruct Hup as (A & _); [calc|exact A].
Defined.

End MoreExamples.
